(** * parser-compare: benchmark runner, history store, excerpts, search

    A shallow embedding of the orchestration code of the repository:
    - the benchmark server module ([benchmarkMethod], [runBenchmark],
      [getFilePassages], [getFileStatus]; listed under
      [src/pages/HomePage.tsx]);
    - the AI comparison module ([getExcerpt]; same listing);
    - [src/lib/history.ts]: the run history store;
    - the server routes ([GET /api/botpress/search]; listed under
      [src/App.tsx]); the health, benchmark, start, status and comparison
      routes ([src/index.tsx], [src/App.tsx]);
    - [startMethod] and [runAiComparison] (listed under
      [src/pages/HomePage.tsx]), the client of the files API and the router
      of the pages (listed under [unnamed]), and, of the run page
      ([src/pages/RunDetailPage.tsx]), the guard before a comparison, the
      poller of a method and the effect that starts it.

    JavaScript strings are modelled by [string] (a character stands for one
    code unit below 256, [String.length] for [.length]); objects used as
    dictionaries by [gmap], with what [Object.prototype] answers under a
    name they do not hold where the code reads them; the [Set] of page
    numbers by [gset]; arrays by lists, and a stored array that holds a
    null by its entries before the null and what follows.  The message of a
    [TypeError] of the engine is written [TypeError].
    A call that may throw returns a [result]; [try]/[catch] is a match on
    it.  The hosted files API is an oracle ([Client]): it is consulted, never
    implemented.  Browser storage is reliable: [getItem] and [setItem] do not
    throw. *)

From Stdlib Require Import ZArith Lia Ascii String.
From Stdlib Require QArith Sorted.
From stdpp Require Import gmap strings list.

Local Open Scope string_scope.
Local Open Scope list_scope.

(** ** JavaScript values and control *)

(** What a [throw] carries: an [Error] object with its message, or any other
    value, kept through its [String(...)] rendering. *)
Inductive thrown : Type :=
| ErrorObj (message : string)
| NonError (rendered : string).

Inductive result (A : Type) : Type :=
| Ok (a : A)
| Throw (e : thrown).
Arguments Ok {A} a.
Arguments Throw {A} e.

Definition bind {A B : Type} (r : result A) (k : A -> result B) : result B :=
  match r with
  | Ok a => k a
  | Throw e => Throw e
  end.

(** [let! x := call in rest]: [rest] runs on the value of [call]; a throw
    of [call] is the throw of the whole. *)
Notation "'let!' x ':=' r 'in' k" := (bind r (fun x => k))
  (at level 10, x pattern, r at level 100, k at level 200, only parsing).

(** [error instanceof Error ? error.message : String(error)] *)
Definition errorText (e : thrown) : string :=
  match e with
  | ErrorObj m => m
  | NonError s => s
  end.

(** Truthiness of a string, and of an optional string ([undefined] and the
    empty string are falsy). *)
Definition truthy (s : string) : bool := negb (String.eqb s "").

Definition truthyOpt (o : option string) : bool :=
  match o with
  | Some s => truthy s
  | None => false
  end.

(** [o || fallback] on an optional string. *)
Definition orElse (o : option string) (fallback : string) : string :=
  match o with
  | Some s => if truthy s then s else fallback
  | None => fallback
  end.

Definition LF : ascii := "010"%char.
Definition CR : ascii := "013"%char.
Definition TAB : ascii := "009"%char.

(** White space and line terminators stripped by [String.prototype.trim],
    among the code units below 256: tab, line feed, vertical tab, form feed,
    carriage return, space and the no-break space U+00A0. *)
Definition isWhite (c : ascii) : bool :=
  let n := nat_of_ascii c in
  (Nat.eqb n 9 || Nat.eqb n 10 || Nat.eqb n 11 || Nat.eqb n 12
   || Nat.eqb n 13 || Nat.eqb n 32 || Nat.eqb n 160)%bool.

Fixpoint trimStart (s : string) : string :=
  match s with
  | EmptyString => EmptyString
  | String c r => if isWhite c then trimStart r else s
  end.

Fixpoint trimEnd (s : string) : string :=
  match s with
  | EmptyString => EmptyString
  | String c r =>
      match trimEnd r with
      | EmptyString => if isWhite c then EmptyString else String c EmptyString
      | r' => String c r'
      end
  end.

Definition trim (s : string) : string := trimEnd (trimStart s).

Fixpoint allWhite (s : string) : bool :=
  match s with
  | EmptyString => true
  | String c r => isWhite c && allWhite r
  end.

(** [s.slice(0, n)] *)
Definition sliceTo (n : nat) (s : string) : string := substring 0 n s.

(** ** server/types.ts *)

Record MethodConfig : Type := {
  mc_name : string;
  mc_label : string;
  mc_config : string;             (* the indexing configuration, opaque here *)
}.

Record PassageMeta : Type := {
  pm_type : option string;
  pm_subtype : option string;
  pm_pageNumber : option Z;
}.

Record Passage : Type := {
  p_id : string;
  p_content : string;
  p_meta : PassageMeta;
}.

(** What a plain object used as a counter holds under a key: a number; or,
    under a name that every object inherits, the text that [+ 1] made of
    the inherited value, that is its rendering followed by so many
    characters [1]. *)
Inductive counter : Type :=
| Number (n : nat)
| InheritedText (ones : nat).

Record MetaBreakdown : Type := {
  byType : gmap string counter;
  bySubtype : gmap string counter;
  pageCount : nat;
}.

Record MethodResult : Type := {
  mr_method : string;
  mr_label : string;
  mr_fileId : string;
  mr_status : string;
  mr_failedReason : option string;
  mr_processingTimeMs : Z;
  mr_passageCount : nat;
  mr_contentCharsTotal : nat;
  mr_metaBreakdown : MetaBreakdown;
  mr_sampleText : string;
  mr_costOrUsageRaw : option string;
}.

Record OriginalFile : Type := {
  of_name : string;
  of_size : nat;
  of_contentType : string;
}.

Record BenchmarkRunResult : Type := {
  br_runId : string;
  br_startedAt : string;
  br_completedAt : string;
  br_originalFile : OriginalFile;
  br_methods : list MethodResult;
}.

(** A duration computed from two dates: [NaN] when one of them could not be
    read ([new Date(s).getTime()] of a text that is no date); JSON writes it
    [null]. *)
Inductive millis : Type :=
| Millis (ms : Z)
| NaN.

Record FileStatusResponse : Type := {
  fs_fileId : string;
  fs_status : string;
  fs_failedReason : option string;
  fs_passageCount : option nat;
  fs_contentCharsTotal : option nat;
  fs_processingTimeMs : option millis;
  fs_metaBreakdown : option MetaBreakdown;
}.

Record SearchPassage : Type := {
  sp_content : string;
  sp_score : Z;                   (* opaque ranking score *)
  sp_meta : PassageMeta;
  sp_fileId : string;
}.

Record SearchMethodResult : Type := {
  sm_method : string;
  sm_passages : list SearchPassage;
  sm_error : option string;
}.

(** The six job statuses of [MethodJobStatus]. *)
Definition upload_pending := "upload_pending".
Definition indexing_pending := "indexing_pending".
Definition indexing_completed := "indexing_completed".
Definition indexing_failed := "indexing_failed".
Definition upload_failed := "upload_failed".
Definition timeout := "timeout".

(** ** The hosted files API, as the code sees it *)

Record RemoteFile : Type := {
  rf_id : string;
  rf_uploadUrl : option string;
  rf_status : string;
  rf_failedStatusReason : option string;
  rf_usage : option string;
}.

Record RemotePassage : Type := {
  rp_id : string;
  rp_content : string;
  rp_meta : option PassageMeta;
}.

(** The answers to [listFilePassages] for one file: a page, and when the page
    carries a [nextToken], what the service answers once the token is sent
    back.  A listing is finite: some page carries no token. *)
Inductive Listing : Type :=
| ListingThrows (e : thrown)
| LastPage (passages : list RemotePassage)
| MorePages (passages : list RemotePassage) (nextToken : string)
            (rest : Listing).

Record Client : Type := {
  (* upsertFile for the method of that name *)
  upsertFile : string -> result RemoteFile;
  (* getFile({ id }), by the number of polls already answered *)
  getFile : string -> nat -> result RemoteFile;
  (* listFilePassages({ id, limit }) and its continuation *)
  listFilePassages : string -> nat -> Listing;
}.

(** What else the server code reads from its surroundings: [fetch] towards
    the upload URL, and two readings of [Date.now()]. *)
Record Runtime : Type := {
  fetchPut : string -> result unit;
  startTime : Z;
  endTime : Z;
}.

(** ** The benchmark server module *)

Module Benchmark.

Definition METHODS : list MethodConfig :=
  [ {| mc_name := "basic"; mc_label := "Basic"; mc_config := "{}" |};
    {| mc_name := "vision"; mc_label := "Vision";
       mc_config := "{vision:{transcribePages:true}}" |};
    {| mc_name := "landing-ai"; mc_label := "Landing AI";
       mc_config := "{parsing:{mode:'agent'}}" |} ].

Definition POLL_INTERVAL_MS : Z := 2000.
Definition MAX_POLL_ATTEMPTS : nat := 150.

(** [text.replace(/\r\n/g, '\n')] *)
Fixpoint replaceCRLF (s : string) : string :=
  match s with
  | EmptyString => EmptyString
  | String c r =>
      match r with
      | String d r' =>
          if (Ascii.eqb c CR && Ascii.eqb d LF)%bool
          then String LF (replaceCRLF r')
          else String c (replaceCRLF r)
      | EmptyString => String c EmptyString
      end
  end.

(** [text.replace(/\t/g, '  ')] *)
Fixpoint expandTabs (s : string) : string :=
  match s with
  | EmptyString => EmptyString
  | String c r =>
      if Ascii.eqb c TAB then String " " (String " " (expandTabs r))
      else String c (expandTabs r)
  end.

(** [text.replace(/\n{3,}/g, '\n\n')]; [run] counts the line feeds just
    read. *)
Fixpoint collapseBlankLines (run : nat) (s : string) : string :=
  match s with
  | EmptyString => EmptyString
  | String c r =>
      if Ascii.eqb c LF
      then (if Nat.ltb run 2 then String c (collapseBlankLines (S run) r)
            else collapseBlankLines (S run) r)
      else String c (collapseBlankLines 0 r)
  end.

Definition beautifyText (text : string) : string :=
  trim (collapseBlankLines 0 (expandTabs (replaceCRLF text))).

Definition emptyMeta : PassageMeta :=
  {| pm_type := None; pm_subtype := None; pm_pageNumber := None |}.

Definition toPassage (p : RemotePassage) : Passage :=
  {| p_id := rp_id p;
     p_content := beautifyText (rp_content p);
     p_meta := default emptyMeta (rp_meta p) |}.

(** The [do { ... } while (nextToken)] of [getAllPassages]: one iteration per
    page of the listing. *)
Fixpoint collectPages (l : Listing) (allPassages : list Passage)
  : result (list Passage) :=
  match l with
  | ListingThrows e => Throw e
  | LastPage ps => Ok (allPassages ++ map toPassage ps)
  | MorePages ps nextToken rest =>
      let allPassages := allPassages ++ map toPassage ps in
      if truthy nextToken then collectPages rest allPassages
      else Ok allPassages
  end.

Definition getAllPassages (client : Client) (fileId : string)
  : result (list Passage) :=
  collectPages (listFilePassages client fileId 200) [].

(** *** Metrics *)

(** [reduce((sum, p) => sum + p.content.length, 0)] *)
Definition contentChars (passages : list Passage) : nat :=
  fold_left (fun sum p => sum + String.length (p_content p)) passages 0.

(** The names a plain object inherits from [Object.prototype], each the
    name of a function; [__proto__], an accessor, is apart. *)
Definition inheritedNames : list string :=
  [ "constructor"; "hasOwnProperty"; "isPrototypeOf"; "propertyIsEnumerable";
    "toLocaleString"; "toString"; "valueOf"; "__defineGetter__";
    "__defineSetter__"; "__lookupGetter__"; "__lookupSetter__" ].

Definition inherited (k : string) : bool := bool_decide (k ∈ inheritedNames).

(** [counts[k] = (counts[k] || 0) + 1] on a plain object [{}].  A key that
    is not an own property is read through the prototype: under an
    inherited name the function found is truthy, and [+ 1] makes a text of
    it, which is stored under the key and grows by a character at each
    further count.  Under [__proto__] the prototype itself is read, and the
    text made of it is dropped by the setter: nothing is stored. *)
Definition bump (k : string) (counts : gmap string counter)
  : gmap string counter :=
  if String.eqb k "__proto__" then counts
  else
    match counts !! k with
    | Some (Number n) => <[k := Number (S n)]> counts
    | Some (InheritedText ones) => <[k := InheritedText (S ones)]> counts
    | None =>
        if inherited k then <[k := InheritedText 1]> counts
        else <[k := Number 1]> counts
    end.

Record Tally : Type := {
  t_byType : gmap string counter;
  t_bySubtype : gmap string counter;
  t_pageNumbers : gset Z;
}.

Definition emptyTally : Tally :=
  {| t_byType := ∅; t_bySubtype := ∅; t_pageNumbers := ∅ |}.

(** The body of [for (const p of passages)]. *)
Definition tallyPassage (t : Tally) (p : Passage) : Tally :=
  {| t_byType :=
       match pm_type (p_meta p) with
       | Some ty => if truthy ty then bump ty (t_byType t) else t_byType t
       | None => t_byType t
       end;
     t_bySubtype :=
       match pm_subtype (p_meta p) with
       | Some st => if truthy st then bump st (t_bySubtype t)
                    else t_bySubtype t
       | None => t_bySubtype t
       end;
     t_pageNumbers :=
       match pm_pageNumber (p_meta p) with
       | Some n => {[ n ]} ∪ t_pageNumbers t
       | None => t_pageNumbers t
       end |}.

Definition computeBreakdown (passages : list Passage) : MetaBreakdown :=
  let t := fold_left tallyPassage passages emptyTally in
  {| byType := t_byType t;
     bySubtype := t_bySubtype t;
     pageCount := size (t_pageNumbers t) |}.

(** [{ byType: {}, bySubtype: {}, pageCount: 0 }] *)
Definition emptyBreakdown : MetaBreakdown :=
  {| byType := ∅; bySubtype := ∅; pageCount := 0 |}.

Definition sampleSeparator : string :=
  String LF (String LF ("---" +:+ String LF (String LF EmptyString))).

Definition computeSampleText (passages : list Passage) : string :=
  sliceTo 2000
    (String.concat sampleSeparator (map p_content (take 3 passages))).

(** *** benchmarkMethod *)

Definition isPending (status : string) : bool :=
  (String.eqb status upload_pending || String.eqb status indexing_pending)%bool.

(** The polling loop, [remaining] being [MAX_POLL_ATTEMPTS - attempts]:
    [while (pending(finalFile.status) && attempts < MAX_POLL_ATTEMPTS)
       { sleep; finalFile = getFile(id); attempts++ }].
    It yields [finalFile] and [attempts] at the exit. *)
Fixpoint pollLoop (client : Client) (id : string) (remaining attempts : nat)
  (finalFile : RemoteFile) : result (RemoteFile * nat) :=
  match remaining with
  | O => Ok (finalFile, attempts)
  | S remaining' =>
      if isPending (rf_status finalFile) then
        let! updated := getFile client id attempts in
        pollLoop client id remaining' (S attempts) updated
      else Ok (finalFile, attempts)
  end.

Definition blankResult (method : MethodConfig) (fileId status : string)
  (failedReason : string) (processingTimeMs : Z) : MethodResult :=
  {| mr_method := mc_name method;
     mr_label := mc_label method;
     mr_fileId := fileId;
     mr_status := status;
     mr_failedReason := Some failedReason;
     mr_processingTimeMs := processingTimeMs;
     mr_passageCount := 0;
     mr_contentCharsTotal := 0;
     mr_metaBreakdown := emptyBreakdown;
     mr_sampleText := "";
     mr_costOrUsageRaw := None |}.

(** The [try] block of [benchmarkMethod]. *)
Definition benchmarkMethodTry (client : Client) (rt : Runtime)
  (method : MethodConfig) : result MethodResult :=
  (* 1. create the file entry *)
  let! file := upsertFile client (mc_name method) in
  (* 2. upload the content *)
  let! uploadUrl :=
    match rf_uploadUrl file with
    | Some u =>
        if truthy u then Ok u
        else Throw (ErrorObj "No uploadUrl returned from upsertFile")
    | None => Throw (ErrorObj "No uploadUrl returned from upsertFile")
    end in
  let! _ := fetchPut rt uploadUrl in
  (* 3. poll for indexing completion *)
  let! polled := pollLoop client (rf_id file) MAX_POLL_ATTEMPTS 0 file in
  let finalFile := fst polled in
  let attempts := snd polled in
  let processingTimeMs := (endTime rt - startTime rt)%Z in
  if Nat.leb MAX_POLL_ATTEMPTS attempts then
    Ok (blankResult method (rf_id file) timeout
          "Indexing timed out after 5 minutes" processingTimeMs)
  else if (String.eqb (rf_status finalFile) indexing_failed
           || String.eqb (rf_status finalFile) upload_failed)%bool then
    Ok (blankResult method (rf_id file) (rf_status finalFile)
          (orElse (rf_failedStatusReason finalFile) "Unknown error")
          processingTimeMs)
  else
    (* 4. get passages, 5. compute metrics *)
    let! passages := getAllPassages client (rf_id file) in
    Ok {| mr_method := mc_name method;
          mr_label := mc_label method;
          mr_fileId := rf_id file;
          mr_status := indexing_completed;
          mr_failedReason := None;
          mr_processingTimeMs := processingTimeMs;
          mr_passageCount := length passages;
          mr_contentCharsTotal := contentChars passages;
          mr_metaBreakdown := computeBreakdown passages;
          mr_sampleText := computeSampleText passages;
          mr_costOrUsageRaw := rf_usage finalFile   (* usage || null *) |}.

(** [try { ... } catch (error) { return { status: 'indexing_failed', ... } }] *)
Definition benchmarkMethod (client : Client) (rt : Runtime)
  (method : MethodConfig) : MethodResult :=
  match benchmarkMethodTry client rt method with
  | Ok r => r
  | Throw error =>
      blankResult method "" indexing_failed (errorText error)
        (endTime rt - startTime rt)%Z
  end.

(** *** runBenchmark *)

(** [getBotpressClient()] throws when the credentials are missing;
    [runtimeOf] gives each method its own upload channel and clock
    readings. *)
Definition runBenchmark (getBotpressClient : result Client)
  (runtimeOf : string -> Runtime) (runId startedAt completedAt : string)
  (fileName : string) (byteLength : nat) (contentType : string)
  : result BenchmarkRunResult :=
  let! client := getBotpressClient in
  let results :=
    map (fun method => benchmarkMethod client (runtimeOf (mc_name method)) method)
        METHODS in
  Ok {| br_runId := runId;
        br_startedAt := startedAt;
        br_completedAt := completedAt;
        br_originalFile :=
          {| of_name := fileName; of_size := byteLength;
             of_contentType := contentType |};
        br_methods := results |}.

(** *** getFilePassages: one page, no follow-up of the token *)

Definition getFilePassages (client : Client) (fileId : string) (limit : nat)
  : result (list Passage * option string) :=
  match listFilePassages client fileId limit with
  | ListingThrows e => Throw e
  | LastPage ps => Ok (map toPassage ps, None)
  | MorePages ps nextToken _ => Ok (map toPassage ps, Some nextToken)
  end.

(** The number of passages the service puts on the first page. *)
Definition firstPageLength (l : Listing) : nat :=
  match l with
  | ListingThrows _ => 0
  | LastPage ps | MorePages ps _ _ => length ps
  end.

(** *** getFileStatus

    [poll] tells the service state that answers this call; [now] is
    [Date.now()] and [timeOf] is [new Date(s).getTime()], [None] standing
    for the [NaN] of a text that is no date. *)
Definition getFileStatus (client : Client) (poll : nat) (now : Z)
  (timeOf : string -> option Z) (fileId : string) (startedAt : option string)
  : result FileStatusResponse :=
  let! fileData := getFile client fileId poll in
  let status := rf_status fileData in
  let failedReason :=
    if (String.eqb status indexing_failed
        || String.eqb status upload_failed)%bool
    then Some (orElse (rf_failedStatusReason fileData) "Unknown error")
    else None in
  if String.eqb status indexing_completed then
    let! passages := getAllPassages client fileId in
    Ok {| fs_fileId := fileId;
          fs_status := status;
          fs_failedReason := failedReason;
          fs_passageCount := Some (length passages);
          fs_contentCharsTotal := Some (contentChars passages);
          fs_processingTimeMs :=
            match startedAt with
            | Some s =>
                if truthy s then
                  Some match timeOf s with
                       | Some started => Millis (now - started)
                       | None => NaN
                       end
                else None
            | None => None
            end;
          fs_metaBreakdown := Some (computeBreakdown passages) |}
  else
    Ok {| fs_fileId := fileId;
          fs_status := status;
          fs_failedReason := failedReason;
          fs_passageCount := None;
          fs_contentCharsTotal := None;
          fs_processingTimeMs := None;
          fs_metaBreakdown := None |}.

(** *** getMethodConfig and startMethod *)

Record StartMethodResponse : Type := {
  st_fileId : string;
  st_method : string;
  st_label : string;
  st_startedAt : string;
}.

(** [METHODS.find((m) => m.name === methodName)] *)
Definition getMethodConfig (methodName : string) : option MethodConfig :=
  snd <$> list_find (fun m => mc_name m = methodName) METHODS.

(** [isoNow] is [new Date().toISOString()].  Nothing is caught here: what
    the client or the upload throws is thrown to the caller. *)
Definition startMethod (getBotpressClient : result Client) (rt : Runtime)
  (isoNow : string) (methodName : string) : result StartMethodResponse :=
  let! client := getBotpressClient in
  let! method :=
    match getMethodConfig methodName with
    | Some m => Ok m
    | None => Throw (ErrorObj ("Unknown method: " +:+ methodName))
    end in
  let startedAt := isoNow in
  (* 1. create the file entry *)
  let! file := upsertFile client (mc_name method) in
  (* 2. upload the content *)
  let! uploadUrl :=
    match rf_uploadUrl file with
    | Some u =>
        if truthy u then Ok u
        else Throw (ErrorObj "No uploadUrl returned from upsertFile")
    | None => Throw (ErrorObj "No uploadUrl returned from upsertFile")
    end in
  let! _ := fetchPut rt uploadUrl in
  (* return at once, the indexing goes on *)
  Ok {| st_fileId := rf_id file;
        st_method := mc_name method;
        st_label := mc_label method;
        st_startedAt := startedAt |}.

End Benchmark.

(** ** The AI comparison module *)

Module AiCompare.

Definition EXCERPT_CHAR_LIMIT : nat := 4000.

Definition paragraphBreak : string := String LF (String LF EmptyString).

(** The [for (const p of passages)] loop of [getExcerpt], from the excerpt
    built so far. *)
Fixpoint excerptLoop (excerpt : string) (passages : list Passage) : string :=
  match passages with
  | [] => excerpt
  | p :: rest =>
      if Nat.ltb EXCERPT_CHAR_LIMIT
           (String.length excerpt + String.length (p_content p))
      then excerpt
      else excerptLoop (excerpt +:+ p_content p +:+ paragraphBreak) rest
  end.

Definition getExcerpt (client : Client) (fileId : string) : string :=
  match Benchmark.getFilePassages client fileId 50 with
  | Ok page =>
      let excerpt := excerptLoop "" (fst page) in
      if truthy (trim excerpt) then trim excerpt
      else "[No content extracted]"
  | Throw _ => "[Failed to fetch content]"
  end.

End AiCompare.

(** ** The parallel search route *)

Module SearchRoute.

Inductive Response : Type :=
| Json200 (query : string) (results : list SearchMethodResult)
| JsonError (status : nat) (error : string).

Definition methods : list string := ["basic"; "vision"; "landing-ai"].

(** One element of the [Promise.all]: the search of one method with its own
    [try]/[catch]. *)
Definition searchOne
  (searchFilesByMethod : string -> string -> string -> Z
                         -> result (list SearchPassage))
  (query runId : string) (limit : Z) (method : string) : SearchMethodResult :=
  match searchFilesByMethod query runId method limit with
  | Ok passages =>
      {| sm_method := method; sm_passages := passages; sm_error := None |}
  | Throw error =>
      {| sm_method := method;
         sm_passages := [];
         sm_error :=
           Some match error with
                | ErrorObj message => message
                | NonError _ => "Search failed"
                end |}
  end.

(** [GET /api/botpress/search?q=&runId=&limit=].  [searchFilesByMethod] is
    the helper of the benchmark module that the route calls; nothing of the
    outer [try] can throw once each search is caught, so its [catch]
    (status 500) has no case here. *)
Definition GET
  (searchFilesByMethod : string -> string -> string -> Z
                         -> result (list SearchPassage))
  (q runId : option string) (limit : Z) : Response :=
  match q, runId with
  | Some query, Some run =>
      if (negb (truthy query) || negb (truthy run))%bool
      then JsonError 400 "Missing query or runId"
      else Json200 query
             (map (searchOne searchFilesByMethod query run limit) methods)
  | _, _ => JsonError 400 "Missing query or runId"
  end.

End SearchRoute.

(** ** lib/history.ts *)

Module History.

Definition MAX_HISTORY_ITEMS : nat := 25.

(** A method record as the store keeps it: a [MethodResult] through
    [JSON.stringify] (a property holding [undefined] is dropped), with the
    pending statuses and the extra [startedAt] of [createPendingEntry]. *)
Record StoredMethod : Type := {
  hm_method : string;                         (* method *)
  hm_label : string;
  hm_fileId : string;
  hm_status : string;
  hm_failedReason : option string;
  hm_processingTimeMs : option millis;
  hm_passageCount : option nat;
  hm_contentCharsTotal : option nat;
  hm_metaBreakdown : option MetaBreakdown;
  hm_sampleText : option string;
  hm_startedAt : option string;
}.

Record AiComparisonResult : Type := {
  ai_runId : string;
  ai_generatedAt : string;
  ai_summary : string;
  ai_recommendedMethod : string;
}.

(** The [methods] property of an entry, as parsed JSON may have it. *)
Inductive methodsValue : Type :=
| NoMethods                                  (* missing, or not an array *)
| MethodList (methods : list StoredMethod)   (* an array of method records *)
| MethodListNull (before : list StoredMethod)
                 (rest : list (option StoredMethod)).
    (* an array that holds a null: the records before the first null, and
       the elements after it *)

(** An element of the stored array, an object.  The three properties that
    [importHistory] checks may be missing, as in any parsed JSON. *)
Record HistoryEntry : Type := {
  he_runId : option string;
  he_startedAt : string;
  he_completedAt : string;
  he_originalFile : option OriginalFile;
  he_methods : methodsValue;
  he_aiComparison : option AiComparisonResult;
}.

(** A parsed JSON text: an array of entries; an array that holds a null,
    given by the entries before the first null and the elements after it;
    or a value that is not an array. *)
Inductive jsonValue : Type :=
| JArray (entries : list HistoryEntry)
| JArrayNull (before : list HistoryEntry) (rest : list (option HistoryEntry))
| JOther.

(** A string, up to what [JSON.parse] makes of it. *)
Inductive text : Type :=
| EmptyText                (* the empty string *)
| Unparsable               (* JSON.parse throws a SyntaxError *)
| TextOf (v : jsonValue).  (* JSON.stringify v *)

(** [localStorage] at [STORAGE_KEY]: [None] when [getItem] returns null. *)
Definition Storage : Type := option text.

Definition JSON_parse (s : text) : result jsonValue :=
  match s with
  | TextOf v => Ok v
  | EmptyText | Unparsable => Throw (ErrorObj "SyntaxError")
  end.

Definition JSON_stringify (v : jsonValue) : text := TextOf v.

(** Calling an array method that visits every element ([filter], [map]) on
    the value [getHistory] returned, with a callback that reads a property
    of the element: it throws on a value that is not an array, and at the
    null that an array holds. *)
Definition asArray (v : jsonValue) : result (list HistoryEntry) :=
  match v with
  | JArray entries => Ok entries
  | JArrayNull _ _ | JOther => Throw (ErrorObj "TypeError")
  end.

Definition hasRunId (runId : string) (h : HistoryEntry) : Prop :=
  he_runId h = Some runId.

#[global] Instance hasRunId_dec runId h : Decision (hasRunId runId h).
Proof. unfold hasRunId. apply _. Defined.

(** [history.find(h => h.runId === runId)] and [findIndex]: the elements are
    visited in order up to the first match, so a null throws only when no
    entry before it has the runId. *)
Definition findRun (runId : string) (v : jsonValue)
  : result (option (nat * HistoryEntry)) :=
  match v with
  | JArray entries => Ok (list_find (hasRunId runId) entries)
  | JArrayNull before _ =>
      match list_find (hasRunId runId) before with
      | Some found => Ok (Some found)
      | None => Throw (ErrorObj "TypeError")
      end
  | JOther => Throw (ErrorObj "TypeError")
  end.

(** [history[index] = f(history[index])], for an index that [findIndex]
    gave. *)
Definition alterAt (f : HistoryEntry -> HistoryEntry) (index : nat)
  (v : jsonValue) : jsonValue :=
  match v with
  | JArray entries => JArray (alter f index entries)
  | JArrayNull before rest => JArrayNull (alter f index before) rest
  | JOther => JOther
  end.

Definition replaceAt (index : nat) (h : HistoryEntry) (v : jsonValue)
  : jsonValue :=
  match v with
  | JArray entries => JArray (<[index := h]> entries)
  | JArrayNull before rest => JArrayNull (<[index := h]> before) rest
  | JOther => JOther
  end.

(** Reading a property of a property that is missing. *)
Definition defined {A : Type} (o : option A) : result A :=
  match o with
  | Some a => Ok a
  | None => Throw (ErrorObj "TypeError")
  end.

Definition getHistory (st : Storage) : jsonValue :=
  let attempt :=
    match st with
    | None => Ok (JArray [])
    | Some EmptyText => Ok (JArray [])              (* !stored *)
    | Some stored => JSON_parse stored
    end in
  match attempt with
  | Ok v => v
  | Throw _ => JArray []
  end.

Definition getRunById (st : Storage) (runId : string)
  : result (option HistoryEntry) :=
  let! found := findRun runId (getHistory st) in
  Ok (snd <$> found).

Definition storeMethod (m : MethodResult) : StoredMethod :=
  {| hm_method := mr_method m;
     hm_label := mr_label m;
     hm_fileId := mr_fileId m;
     hm_status := mr_status m;
     hm_failedReason := mr_failedReason m;
     hm_processingTimeMs := Some (Millis (mr_processingTimeMs m));
     hm_passageCount := Some (mr_passageCount m);
     hm_contentCharsTotal := Some (mr_contentCharsTotal m);
     hm_metaBreakdown := Some (mr_metaBreakdown m);
     hm_sampleText := Some (mr_sampleText m);
     hm_startedAt := None |}.

(** [{ ...result }] *)
Definition entryOfResult (r : BenchmarkRunResult) : HistoryEntry :=
  {| he_runId := Some (br_runId r);
     he_startedAt := br_startedAt r;
     he_completedAt := br_completedAt r;
     he_originalFile := Some (br_originalFile r);
     he_methods := MethodList (map storeMethod (br_methods r));
     he_aiComparison := None |}.

(** [[entry, ...history.filter(h => h.runId !== runId)].slice(0, MAX)] *)
Definition insertFront (runId : string) (entry : HistoryEntry)
  (history : list HistoryEntry) : list HistoryEntry :=
  take MAX_HISTORY_ITEMS
    (entry :: filter (fun h => ¬ hasRunId runId h) history).

(** The body of a [try { ...; localStorage.setItem(KEY, JSON.stringify(v)) }
    catch (e) { console.error(...) }]: the store is left as it was when the
    body throws. *)
Definition commit (st : Storage) (body : result (list HistoryEntry))
  : Storage :=
  match body with
  | Ok updated => Some (JSON_stringify (JArray updated))
  | Throw _ => st
  end.

Definition addToHistory (r : BenchmarkRunResult) (st : Storage) : Storage :=
  commit st
    (let! history := asArray (getHistory st) in
     let entry := entryOfResult r in
     Ok (insertFront (br_runId r) entry history)).

Definition updateHistoryWithAiComparison (runId : string)
  (aiComparison : AiComparisonResult) (st : Storage) : Storage :=
  match findRun runId (getHistory st) with
  | Ok (Some (index, _)) =>
      Some (JSON_stringify
        (alterAt (fun h =>
                    {| he_runId := he_runId h;
                       he_startedAt := he_startedAt h;
                       he_completedAt := he_completedAt h;
                       he_originalFile := he_originalFile h;
                       he_methods := he_methods h;
                       he_aiComparison := Some aiComparison |})
                 index (getHistory st)))
  | _ => st
  end.

Record PendingMethod : Type := {
  pd_method : string;
  pd_label : string;
  pd_fileId : string;
  pd_status : string;
  pd_startedAt : string;
}.

Record PendingHistoryEntry : Type := {
  pe_runId : string;
  pe_startedAt : string;
  pe_originalFile : OriginalFile;
  pe_methods : list PendingMethod;
}.

Definition pendingMethod (m : PendingMethod) : StoredMethod :=
  {| hm_method := pd_method m;
     hm_label := pd_label m;
     hm_fileId := pd_fileId m;
     hm_status := pd_status m;
     hm_failedReason := None;
     hm_processingTimeMs := Some (Millis 0);
     hm_passageCount := Some 0;
     hm_contentCharsTotal := Some 0;
     hm_metaBreakdown := Some Benchmark.emptyBreakdown;
     hm_sampleText := Some "";
     hm_startedAt := Some (pd_startedAt m) |}.

Definition pendingEntry (entry : PendingHistoryEntry) : HistoryEntry :=
  {| he_runId := Some (pe_runId entry);
     he_startedAt := pe_startedAt entry;
     he_completedAt := "";                 (* set when all complete *)
     he_originalFile := Some (pe_originalFile entry);
     he_methods := MethodList (map pendingMethod (pe_methods entry));
     he_aiComparison := None |}.

Definition createPendingEntry (entry : PendingHistoryEntry) (st : Storage)
  : Storage :=
  commit st
    (let! history := asArray (getHistory st) in
     let historyEntry := pendingEntry entry in
     Ok (insertFront (pe_runId entry) historyEntry history)).

(** [Partial<MethodResult> & { status: string }].  For the optional
    properties, [None] is a key the update does not have, and [Some v] a key
    it has, [v] being [None] when the key holds [undefined]. *)
Record MethodUpdate : Type := {
  up_status : string;
  up_method : option string;
  up_label : option string;
  up_fileId : option string;
  up_failedReason : option (option string);
  up_processingTimeMs : option (option millis);
  up_passageCount : option (option nat);
  up_contentCharsTotal : option (option nat);
  up_metaBreakdown : option (option MetaBreakdown);
  up_sampleText : option (option string);
}.

(** One property of [{ ...existing, ...update }]. *)
Definition spread {A : Type} (existing : option A) (update : option (option A))
  : option A :=
  match update with
  | Some v => v
  | None => existing
  end.

Definition mergeMethod (existing : StoredMethod) (update : MethodUpdate)
  : StoredMethod :=
  {| hm_method := default (hm_method existing) (up_method update);
     hm_label := default (hm_label existing) (up_label update);
     hm_fileId := default (hm_fileId existing) (up_fileId update);
     hm_status := up_status update;
     hm_failedReason := spread (hm_failedReason existing) (up_failedReason update);
     hm_processingTimeMs :=
       spread (hm_processingTimeMs existing) (up_processingTimeMs update);
     hm_passageCount := spread (hm_passageCount existing) (up_passageCount update);
     hm_contentCharsTotal :=
       spread (hm_contentCharsTotal existing) (up_contentCharsTotal update);
     hm_metaBreakdown :=
       spread (hm_metaBreakdown existing) (up_metaBreakdown update);
     hm_sampleText := spread (hm_sampleText existing) (up_sampleText update);
     hm_startedAt := hm_startedAt existing |}.

Definition isTerminal (status : string) : bool :=
  (String.eqb status indexing_completed || String.eqb status indexing_failed
   || String.eqb status upload_failed || String.eqb status timeout)%bool.

Definition hasMethod (methodName : string) (m : StoredMethod) : Prop :=
  hm_method m = methodName.

#[global] Instance hasMethod_dec methodName m : Decision (hasMethod methodName m).
Proof. unfold hasMethod. apply _. Defined.

Definition withMethods (h : HistoryEntry) (methods : list StoredMethod)
  (completedAt : string) : HistoryEntry :=
  {| he_runId := he_runId h;
     he_startedAt := he_startedAt h;
     he_completedAt := completedAt;
     he_originalFile := he_originalFile h;
     he_methods := MethodList methods;
     he_aiComparison := he_aiComparison h |}.

(** The entry with the records before the null of its [methods] replaced. *)
Definition withMethodsBefore (h : HistoryEntry) (before : list StoredMethod)
  (rest : list (option StoredMethod)) : HistoryEntry :=
  {| he_runId := he_runId h;
     he_startedAt := he_startedAt h;
     he_completedAt := he_completedAt h;
     he_originalFile := he_originalFile h;
     he_methods := MethodListNull before rest;
     he_aiComparison := he_aiComparison h |}.

(** What [updateMethodInHistory] does to the entry it found: [None] when the
    entry has no method of that name.  [now] is [new Date().toISOString()].
    On a [methods] array that holds a null, [findIndex] throws unless a
    record before the null has the name, and [every] then throws unless a
    record before the null is not terminal. *)
Definition mergeIntoEntry (now : string) (methodName : string)
  (update : MethodUpdate) (h : HistoryEntry) : result (option HistoryEntry) :=
  match he_methods h with
  | NoMethods => Throw (ErrorObj "TypeError")
  | MethodList methods =>
      match list_find (hasMethod methodName) methods with
      | Some (methodIndex, existing) =>
          let methods :=
            <[methodIndex := mergeMethod existing update]> methods in
          let allComplete :=
            forallb (fun m => isTerminal (hm_status m)) methods in
          let completedAt :=
            if (allComplete && negb (truthy (he_completedAt h)))%bool then now
            else he_completedAt h in
          Ok (Some (withMethods h methods completedAt))
      | None => Ok None
      end
  | MethodListNull before rest =>
      match list_find (hasMethod methodName) before with
      | Some (methodIndex, existing) =>
          let before :=
            <[methodIndex := mergeMethod existing update]> before in
          if forallb (fun m => isTerminal (hm_status m)) before
          then Throw (ErrorObj "TypeError")
          else Ok (Some (withMethodsBefore h before rest))
      | None => Throw (ErrorObj "TypeError")
      end
  end.

Definition updateMethodInHistory (now : string) (runId methodName : string)
  (update : MethodUpdate) (st : Storage) : Storage :=
  match
    (let! found := findRun runId (getHistory st) in
     match found with
     | Some (index, h) =>
         let! merged := mergeIntoEntry now methodName update h in
         Ok (option_map (fun h' => replaceAt index h' (getHistory st)) merged)
     | None => Ok None
     end)
  with
  | Ok (Some history) => Some (JSON_stringify history)
  | Ok None | Throw _ => st
  end.

Definition clearHistory (st : Storage) : Storage := None.

Definition exportHistory (st : Storage) : text :=
  JSON_stringify (getHistory st).

(** [Array.isArray(entry.methods)] *)
Definition isArray (methods : methodsValue) : bool :=
  match methods with
  | NoMethods => false
  | MethodList _ | MethodListNull _ _ => true
  end.

(** [!entry.runId || !entry.originalFile || !Array.isArray(entry.methods)],
    negated. *)
Definition validEntry (entry : HistoryEntry) : bool :=
  (truthyOpt (he_runId entry)
   && bool_decide (is_Some (he_originalFile entry))
   && isArray (he_methods entry))%bool.

Definition importHistory (json : text) (st : Storage) : bool * Storage :=
  match
    (let! parsed := JSON_parse json in
     let! parsed :=
       match parsed with
       | JArray entries => Ok entries
       | JArrayNull _ _ =>
           (* the loop below throws at the null, or before it *)
           Throw (ErrorObj "TypeError")
       | JOther => Throw (ErrorObj "Invalid history format")
       end in
     let! _ :=
       if forallb validEntry parsed then Ok tt
       else Throw (ErrorObj "Invalid history entry format") in
     let! existing := asArray (getHistory st) in
     let existingIds : gset (option string) :=
       list_to_set (map he_runId existing) in
     let newEntries := filter (fun h => he_runId h ∉ existingIds) parsed in
     Ok (take MAX_HISTORY_ITEMS (newEntries ++ existing)))
  with
  | Ok merged => (true, Some (JSON_stringify (JArray merged)))
  | Throw _ => (false, st)
  end.

Record HistorySummary : Type := {
  hs_runId : option string;
  hs_fileName : string;
  hs_fileSize : nat;
  hs_startedAt : string;
  hs_methods : list (string * string * string);   (* method, label, status *)
  hs_hasAiComparison : bool;
}.

(** [h.methods.map(m => ...)] with a callback that reads properties of the
    element. *)
Definition allMethods (methods : methodsValue) : result (list StoredMethod) :=
  match methods with
  | MethodList methods => Ok methods
  | NoMethods | MethodListNull _ _ => Throw (ErrorObj "TypeError")
  end.

Definition summarize (h : HistoryEntry) : result HistorySummary :=
  let! originalFile := defined (he_originalFile h) in
  let! methods := allMethods (he_methods h) in
  Ok {| hs_runId := he_runId h;
        hs_fileName := of_name originalFile;
        hs_fileSize := of_size originalFile;
        hs_startedAt := he_startedAt h;
        hs_methods :=
          map (fun m => (hm_method m, hm_label m, hm_status m)) methods;
        hs_hasAiComparison := bool_decide (is_Some (he_aiComparison h)) |}.

(** [array.map(f)] for an [f] that may throw. *)
Fixpoint mapResult {A B : Type} (f : A -> result B) (l : list A)
  : result (list B) :=
  match l with
  | [] => Ok []
  | x :: rest =>
      let! y := f x in
      let! ys := mapResult f rest in
      Ok (y :: ys)
  end.

Definition getHistorySummaries (st : Storage) : result (list HistorySummary) :=
  let! history := asArray (getHistory st) in
  mapResult summarize history.

End History.

(** ** The progressive poller of the run page *)

Module Poller.
Import History.

Definition POLL_INTERVAL_MS : Z := 2000.
Definition MAX_POLL_TIME_MS : Z := 5 * 60 * 1000.

(** What [fetch] of the status route and [res.json()] come to. *)
Inductive Fetched : Type :=
| FetchThrows (e : thrown)
| FetchNotOk
| FetchOk (status : FileStatusResponse).

(** [{ status: 'timeout', failedReason: 'Indexing timed out after 5 minutes' }] *)
Definition timeoutUpdate : MethodUpdate :=
  {| up_status := timeout;
     up_method := None;
     up_label := None;
     up_fileId := None;
     up_failedReason := Some (Some "Indexing timed out after 5 minutes");
     up_processingTimeMs := None;
     up_passageCount := None;
     up_contentCharsTotal := None;
     up_metaBreakdown := None;
     up_sampleText := None |}.

(** The update built from a status response: six keys, each holding what
    the response has under it, [undefined] included. *)
Definition finishedUpdate (status : FileStatusResponse) : MethodUpdate :=
  {| up_status := fs_status status;
     up_method := None;
     up_label := None;
     up_fileId := None;
     up_failedReason := Some (fs_failedReason status);
     up_processingTimeMs := Some (fs_processingTimeMs status);
     up_passageCount := Some (fs_passageCount status);
     up_contentCharsTotal := Some (fs_contentCharsTotal status);
     up_metaBreakdown := Some (fs_metaBreakdown status);
     up_sampleText := None |}.

(** [pollMethodStatus] is an async function: it runs up to its [await
    fetch(...)] when called, and from there when the response arrives.
    The first part, with [pollStart] the entry of [pollStartTimesRef] for
    the method and [dateNow] the reading of [Date.now()]. *)
Inductive Begun : Type :=
| NoFile                           (* if (!fileId) return *)
| TimedOutNow (st : Storage)       (* timeout written, no request made *)
| Awaiting.                        (* the status request is in flight *)

Definition pollMethodStatus_begin (runId : string) (pollStart : option Z)
  (dateNow : Z) (isoNow : string) (method : StoredMethod) (st : Storage)
  : Begun :=
  if negb (truthy (hm_fileId method)) then NoFile
  else
    let pollStart :=
      match pollStart with
      | Some t => if (t =? 0)%Z then dateNow else t
      | None => dateNow
      end in
    if (MAX_POLL_TIME_MS <? dateNow - pollStart)%Z
    then TimedOutNow
           (updateMethodInHistory isoNow runId (hm_method method)
              timeoutUpdate st)
    else Awaiting.

(** The second part, on the store as it is when the response arrives. *)
Record Resumed : Type := {
  storeAfter : Storage;
  shownStatus : option string;     (* setMethodStatuses *)
  nextPoll : bool;                 (* setTimeout(pollMethodStatus, 2000) *)
  passagesFetched : bool;          (* fetchPassagesForMethod *)
}.

Definition pollMethodStatus_resume (runId : string) (isoNow : string)
  (method : StoredMethod) (answer : Fetched) (st : Storage) : Resumed :=
  match answer with
  | FetchThrows _ | FetchNotOk =>
      {| storeAfter := st; shownStatus := None; nextPoll := false;
         passagesFetched := false |}
  | FetchOk status =>
      if Benchmark.isPending (fs_status status) then
        {| storeAfter := st; shownStatus := Some (fs_status status);
           nextPoll := true; passagesFetched := false |}
      else
        let st :=
          updateMethodInHistory isoNow runId (hm_method method)
            (finishedUpdate status) st in
        (* getRunById(runId) and onHistoryChange(), which reads the
           summaries: what they throw is caught, and the passages are then
           not fetched *)
        let refreshed :=
          match getRunById st runId, getHistorySummaries st with
          | Ok _, Ok _ => true
          | _, _ => false
          end in
        {| storeAfter := st;
           shownStatus := Some (fs_status status);
           nextPoll := false;
           passagesFetched :=
             (refreshed
              && String.eqb (fs_status status) indexing_completed)%bool |}
  end.

(** The two refs of the page, objects keyed by method name:
    [pollStartTimesRef.current], and the keys of [pollTimersRef.current],
    whose values are timer identifiers. *)
Record Refs : Type := {
  pollStartTimes : gmap string Z;
  pollTimers : gset string;
}.

(** The refs are plain objects: under a name of [Object.prototype] that
    they do not hold themselves, they answer what the prototype has, which
    is truthy. *)
Definition inheritedKey (k : string) : bool :=
  (Benchmark.inherited k || String.eqb k "__proto__")%bool.

(** [pollStartTimesRef.current[k]] and [pollTimersRef.current[k]], read as
    conditions. *)
Definition hasStartTime (refs : Refs) (k : string) : bool :=
  match pollStartTimes refs !! k with
  | Some t => negb (t =? 0)%Z
  | None => inheritedKey k
  end.

Definition hasTimer (refs : Refs) (k : string) : bool :=
  (bool_decide (k ∈ pollTimers refs) || inheritedKey k)%bool.

(** What the effect that starts the polling does for one method of the
    run. *)
Inductive Started : Type :=
| Polling (b : Begun)             (* pollMethodStatus(method) *)
| LoadingPassages                 (* fetchPassagesForMethod(...) *)
| Idle.

(** The body of the loop of the effect, for one method.  [effectNow] is the
    reading of [Date.now()] in the effect, [dateNow] the one in
    [pollMethodStatus], and [loaded] tells whether [passages] has the
    method. *)
Definition effectOnMethod (runId : string) (effectNow dateNow : Z)
  (isoNow : string) (loaded : bool) (method : StoredMethod) (refs : Refs)
  (st : Storage) : Refs * Started :=
  let name := hm_method method in
  if (Benchmark.isPending (hm_status method) && truthy (hm_fileId method))%bool
  then
    (* Initialize poll start time *)
    let refs :=
      if hasStartTime refs name then refs
      else {| pollStartTimes := <[name := effectNow]> (pollStartTimes refs);
              pollTimers := pollTimers refs |} in
    (* Start polling if not already polling *)
    if hasTimer refs name then (refs, Idle)
    else (refs,
          Polling (pollMethodStatus_begin runId (pollStartTimes refs !! name)
                     dateNow isoNow method st))
  else if (String.eqb (hm_status method) indexing_completed
           && truthy (hm_fileId method) && negb loaded)%bool
  then (refs, LoadingPassages)
  else (refs, Idle).

(** The cleanup of the effect, which runs before the effect runs again:
    every timer is cleared and its key deleted. *)
Definition cleanup (refs : Refs) : Refs :=
  {| pollStartTimes := pollStartTimes refs; pollTimers := ∅ |}.

(** The timer a pending answer sets. *)
Definition scheduled (method : StoredMethod) (r : Resumed) (refs : Refs)
  : Refs :=
  if nextPoll r
  then {| pollStartTimes := pollStartTimes refs;
          pollTimers := {[ hm_method method ]} ∪ pollTimers refs |}
  else refs.

End Poller.

(** ** The client of the files API and its credentials *)

Module BotpressClient.

(** [process.env], for the three variables read. *)
Record Env : Type := {
  BOTPRESS_TOKEN : option string;
  BOTPRESS_BOT_ID : option string;
  BOTPRESS_API_URL : option string;
}.

(** [getBotpressClient], with the module variable [clientInstance] passed in
    and out.  [connect] stands for [new Client({ token, botId, apiUrl })]. *)
Definition getBotpressClient
  (connect : string -> string -> option string -> Client)
  (env : Env) (clientInstance : option Client)
  : result (Client * option Client) :=
  match clientInstance with
  | Some client => Ok (client, clientInstance)
  | None =>
      match BOTPRESS_TOKEN env, BOTPRESS_BOT_ID env with
      | Some token, Some botId =>
          if (negb (truthy token) || negb (truthy botId))%bool
          then Throw (ErrorObj
                 "Missing BOTPRESS_TOKEN or BOTPRESS_BOT_ID environment variables")
          else
            let client := connect token botId (BOTPRESS_API_URL env) in
            Ok (client, Some client)
      | _, _ =>
          Throw (ErrorObj
            "Missing BOTPRESS_TOKEN or BOTPRESS_BOT_ID environment variables")
      end
  end.

Record Credentials : Type := {
  hasBotId : bool;
  hasToken : bool;
}.

Definition hasCredentials (env : Env) : Credentials :=
  {| hasBotId := truthyOpt (BOTPRESS_BOT_ID env);
     hasToken := truthyOpt (BOTPRESS_TOKEN env) |}.

End BotpressClient.

(** ** The router of the pages *)

Module Router.

Inductive Route : Type :=
| Home
| Detail (runId : string)
| NotFound.

(** [s] without the prefix [p], when it starts with it. *)
Fixpoint stripPrefix (p s : string) : option string :=
  match p with
  | EmptyString => Some s
  | String a p' =>
      match s with
      | String b s' => if Ascii.eqb a b then stripPrefix p' s' else None
      | EmptyString => None
      end
  end.

Fixpoint hasSlash (s : string) : bool :=
  match s with
  | EmptyString => false
  | String c r => (Ascii.eqb c "/" || hasSlash r)%bool
  end.

(** [pathname.match(/^\/runs\/([^/]+)$/)]: the group it captures. *)
Definition matchRun (pathname : string) : option string :=
  match stripPrefix "/runs/" pathname with
  | Some rest =>
      if (truthy rest && negb (hasSlash rest))%bool then Some rest else None
  | None => None
  end.

Definition parseRoute (pathname : string) : Route :=
  if (String.eqb pathname "/" || String.eqb pathname "")%bool then Home
  else
    match matchRun pathname with
    | Some runId => Detail runId
    | None => NotFound
    end.

(** The path the pages navigate to for a run: [`/runs/${runId}`]. *)
Definition runPath (runId : string) : string := "/runs/" +:+ runId.

End Router.

(** ** The AI comparison: runAiComparison *)

Module Comparison.
Import AiCompare.

(** The numbers of a ranking (JSON numbers, here rationals). *)
Definition number : Type := QArith_base.Q.

Record RankingItem : Type := {
  rk_method : string;
  rk_rank : number;
  rk_score : option number;
}.

(** What [zai.extract] returns for the schema of the comparison. *)
Record Extraction : Type := {
  ex_ranking : list RankingItem;
  ex_summary : string;
  ex_basicNotes : string;
  ex_visionNotes : string;
  ex_landingAiNotes : string;
  ex_recommendedMethod : string;
}.

Record AiComparisonResult : Type := {
  cr_runId : string;
  cr_generatedAt : string;
  cr_ranking : list RankingItem;
  cr_summary : string;
  cr_perMethodNotes : gmap string string;
  cr_recommendedMethod : string;
}.

Record FileIds : Type := {
  fi_basic : string;
  fi_vision : string;
  fi_landingAi : string;
}.

(** [ranking.sort((a, b) => a.rank - b.rank)]: [Array.prototype.sort] is
    stable, so its result is the one of the insertion sort that puts an item
    before the first of the items after it whose rank is not smaller. *)
Fixpoint insertByRank (x : RankingItem) (sorted : list RankingItem)
  : list RankingItem :=
  match sorted with
  | [] => [x]
  | y :: rest =>
      if QArith_base.Qle_bool (rk_rank x) (rk_rank y) then x :: y :: rest
      else y :: insertByRank x rest
  end.

Definition sortByRank (ranking : list RankingItem) : list RankingItem :=
  foldr insertByRank [] ranking.

Definition NL : string := String LF EmptyString.

(** The template of the prompt. *)
Definition buildPrompt (instructions : option string)
  (basicExcerpt visionExcerpt landingAiExcerpt : string) : string :=
  String.concat ""
    [ "Compare these three document parsing results and rank them by quality.";
      NL; NL;
      match instructions with
      | Some text =>
          if truthy text then "User instructions: " +:+ text +:+ NL +:+ NL
          else ""
      | None => ""
      end;
      NL;
      "=== BASIC PARSING ==="; NL; basicExcerpt; NL; NL;
      "=== VISION PARSING ==="; NL; visionExcerpt; NL; NL;
      "=== LANDING AI (AGENT) PARSING ==="; NL; landingAiExcerpt; NL; NL;
      "Evaluate each based on:"; NL;
      "1. Content completeness - does it capture all important information?";
      NL;
      "2. Structure preservation - are headings, lists, tables preserved?";
      NL;
      "3. Readability - is the text clean and well-formatted?"; NL;
      "4. Accuracy - does the extracted text seem accurate to the original?";
      NL; NL;
      "Rank them from best (1) to worst (3)." ].

(** [extract] stands for [zai.extract(prompt, schema)], [isoNow] for
    [new Date().toISOString()]; building the [Zai] object is taken not to
    throw. *)
Definition runAiComparison (getBotpressClient : result Client)
  (extract : string -> result Extraction) (isoNow : string)
  (runId : string) (fileIds : FileIds) (instructions : option string)
  : result AiComparisonResult :=
  let! client := getBotpressClient in
  let basicExcerpt := getExcerpt client (fi_basic fileIds) in
  let visionExcerpt := getExcerpt client (fi_vision fileIds) in
  let landingAiExcerpt := getExcerpt client (fi_landingAi fileIds) in
  let prompt :=
    buildPrompt instructions basicExcerpt visionExcerpt landingAiExcerpt in
  let! comparison := extract prompt in
  Ok {| cr_runId := runId;
        cr_generatedAt := isoNow;
        cr_ranking := sortByRank (ex_ranking comparison);
        cr_summary := ex_summary comparison;
        cr_perMethodNotes :=
          <["landing-ai" := ex_landingAiNotes comparison]>
            (<["vision" := ex_visionNotes comparison]>
               (<["basic" := ex_basicNotes comparison]> ∅));
        cr_recommendedMethod := ex_recommendedMethod comparison |}.

End Comparison.

(** ** The routes of the server *)

Module Routes.
Import Benchmark BotpressClient Comparison.

Inductive Response (A : Type) : Type :=
| Json (body : A)                              (* status 200 *)
| JsonError (status : nat) (error : string).   (* { error } *)
Arguments Json {A} body.
Arguments JsonError {A} status error.

(** [error instanceof Error ? error.message : fallback] *)
Definition messageOr (fallback : string) (error : thrown) : string :=
  match error with
  | ErrorObj message => message
  | NonError _ => fallback
  end.

(** [try { ... } catch (error) { return Response.json({ error }, 500) }] *)
Definition orStatus500 {A : Type} (fallback : string)
  (body : result (Response A)) : Response A :=
  match body with
  | Ok response => response
  | Throw error => JsonError 500 (messageOr fallback error)
  end.

Record HealthResponse : Type := {
  h_status : string;
  h_hasBotId : bool;
  h_hasToken : bool;
}.

Definition GET_health (env : Env) : Response HealthResponse :=
  let creds := hasCredentials env in
  Json {| h_status :=
            if (hasBotId creds && hasToken creds)%bool then "configured"
            else "missing_credentials";
          h_hasBotId := hasBotId creds;
          h_hasToken := hasToken creds |}.

(** The [File] of a multipart form. *)
Record Upload : Type := {
  fl_name : string;
  fl_type : string;
  fl_byteLength : nat;
}.

(** [file.type || 'application/octet-stream'] *)
Definition contentTypeOf (file : Upload) : string :=
  if truthy (fl_type file) then fl_type file else "application/octet-stream".

(** [POST /api/botpress/benchmark]; [formData] is [req.formData()] read at
    the field [file].  Reading the file into a buffer is taken not to
    throw. *)
Definition POST_benchmark (getBotpressClient : result Client)
  (runtimeOf : string -> Runtime) (runId startedAt completedAt : string)
  (formData : result (option Upload)) : Response BenchmarkRunResult :=
  orStatus500 "Benchmark failed"
    (let! file := formData in
     match file with
     | None => Ok (JsonError 400 "No file provided")
     | Some file =>
         let! result :=
           runBenchmark getBotpressClient runtimeOf runId startedAt
             completedAt (fl_name file) (fl_byteLength file)
             (contentTypeOf file) in
         Ok (Json result)
     end).

(** [POST /api/botpress/methods/:method/start] *)
Definition POST_start (getBotpressClient : result Client) (rt : Runtime)
  (isoNow : string) (methodName : string)
  (formData : result (option Upload)) : Response StartMethodResponse :=
  orStatus500 "Failed to start method"
    (let validMethods := map mc_name METHODS in
     if negb (bool_decide (methodName ∈ validMethods)) then
       Ok (JsonError 400
             ("Invalid method: " +:+ methodName +:+ ". Valid methods: "
              +:+ String.concat ", " validMethods))
     else
       let! file := formData in
       match file with
       | None => Ok (JsonError 400 "No file provided")
       | Some file =>
           let! result := startMethod getBotpressClient rt isoNow methodName in
           Ok (Json result)
       end).

(** [GET /api/botpress/files/:id/status?startedAt=] *)
Definition GET_status (getBotpressClient : result Client) (poll : nat)
  (now : Z) (timeOf : string -> option Z) (fileId : string)
  (startedAtParam : option string) : Response FileStatusResponse :=
  orStatus500 "Failed to get status"
    (let startedAt :=                            (* get('startedAt') || undefined *)
       match startedAtParam with
       | Some s => if truthy s then Some s else None
       | None => None
       end in
     let! client := getBotpressClient in
     let! result := getFileStatus client poll now timeOf fileId startedAt in
     Ok (Json result)).

(** The body of [POST /api/botpress/ai-compare], as parsed. *)
Record CompareFileIds : Type := {
  cf_basic : option string;
  cf_vision : option string;
  cf_landingAi : option string;
}.

Record CompareBody : Type := {
  cb_runId : option string;
  cb_fileIds : option CompareFileIds;
  cb_instructions : option string;
}.

(** [fileIds?.key], read as a string: the empty string when missing. *)
Definition fileIdAt (key : CompareFileIds -> option string)
  (fileIds : option CompareFileIds) : string :=
  match fileIds with
  | Some ids => default "" (key ids)
  | None => ""
  end.

(** [POST /api/botpress/ai-compare]; [json] is [req.json()] with the
    destructuring of its value, which throws on a body that is no object. *)
Definition POST_ai_compare (getBotpressClient : result Client)
  (extract : string -> result Extraction) (isoNow : string)
  (json : result CompareBody) : Response AiComparisonResult :=
  orStatus500 "AI comparison failed"
    (let! body := json in
     let runId := default "" (cb_runId body) in
     let basic := fileIdAt cf_basic (cb_fileIds body) in
     let vision := fileIdAt cf_vision (cb_fileIds body) in
     let landingAi := fileIdAt cf_landingAi (cb_fileIds body) in
     if (negb (truthy runId) || negb (truthy basic) || negb (truthy vision)
         || negb (truthy landingAi))%bool
     then Ok (JsonError 400 "Missing runId or fileIds")
     else
       let! result :=
         runAiComparison getBotpressClient extract isoNow runId
           {| fi_basic := basic; fi_vision := vision;
              fi_landingAi := landingAi |}
           (cb_instructions body) in
       Ok (Json result)).

End Routes.

(** ** The run page: which file handles go to the comparison *)

Module RunPage.
Import History Comparison.

(** [run.methods.find((m) => m.method === name)?.fileId || ''] *)
Definition fileIdOf (run : HistoryEntry) (name : string) : result string :=
  match he_methods run with
  | NoMethods => Throw (ErrorObj "TypeError")
  | MethodList methods =>
      Ok match list_find (hasMethod name) methods with
         | Some (_, m) => hm_fileId m
         | None => ""
         end
  | MethodListNull before _ =>
      match list_find (hasMethod name) before with
      | Some (_, m) => Ok (hm_fileId m)
      | None => Throw (ErrorObj "TypeError")
      end
  end.

(** The start of [runAiComparison] on the page: the three file handles, or
    the message shown when one is missing. *)
Definition comparisonFileIds (run : HistoryEntry) : result (FileIds + string) :=
  let! basic := fileIdOf run "basic" in
  let! vision := fileIdOf run "vision" in
  let! landingAi := fileIdOf run "landing-ai" in
  if (negb (truthy basic) || negb (truthy vision)
      || negb (truthy landingAi))%bool
  then Ok (inr "Cannot run AI comparison: some methods failed")
  else Ok (inl {| fi_basic := basic; fi_vision := vision;
                  fi_landingAi := landingAi |}).

End RunPage.

(** ** The home page: running a benchmark *)

Module HomePage.
Import History.

(** What [fetch] of a route and the reading of its body come to. *)
Inductive Fetched (A : Type) : Type :=
| FetchThrows (e : thrown)
| Answered (response : Routes.Response A).
Arguments FetchThrows {A} e.
Arguments Answered {A} response.

(** What the handler leaves behind: the store, the path given to [navigate]
    and the message given to [setError]. *)
Record Outcome : Type := {
  store : Storage;
  navigated : option string;
  error : option string;
}.

(** [runBenchmark] of the page, [answer] being the answer to its request to
    the benchmark route.  [onHistoryChange] is [refreshHistory] of the app,
    which reads [getHistorySummaries]; what it throws is caught with the
    rest, after the run was stored and before [navigate]. *)
Definition runBenchmark (selectedFile : option Routes.Upload)
  (answer : Fetched BenchmarkRunResult) (st : Storage) : Outcome :=
  match selectedFile with
  | None => {| store := st; navigated := None; error := None |}
  | Some _ =>
      match answer with
      | FetchThrows e =>
          {| store := st; navigated := None;
             error := Some (Routes.messageOr "Benchmark failed" e) |}
      | Answered (Routes.JsonError _ message) =>
          (* throw new Error(err.error || 'Benchmark failed') *)
          {| store := st; navigated := None;
             error := Some (if truthy message then message
                            else "Benchmark failed") |}
      | Answered (Routes.Json result) =>
          let st := addToHistory result st in
          match getHistorySummaries st with      (* onHistoryChange() *)
          | Ok _ =>
              {| store := st;
                 navigated := Some ("/runs/" +:+ br_runId result);
                 error := None |}
          | Throw e =>
              {| store := st; navigated := None;
                 error := Some (Routes.messageOr "Benchmark failed" e) |}
          end
      end
  end.

End HomePage.

(** * Scenarios: concrete services, stores and inputs *)

Module Scenarios.
Import Benchmark.

Definition basic : MethodConfig :=
  {| mc_name := "basic"; mc_label := "Basic"; mc_config := "{}" |}.

Definition fileWith (status : string) : RemoteFile :=
  {| rf_id := "file-1";
     rf_uploadUrl := Some "https://upload.example/file-1";
     rf_status := status;
     rf_failedStatusReason := None;
     rf_usage := None |}.

Definition onePassage : RemotePassage :=
  {| rp_id := "p1";
     rp_content := "Quarterly revenue";
     rp_meta := Some {| pm_type := Some "chunk"; pm_subtype := Some "title";
                        pm_pageNumber := Some 1%Z |} |}.

(** A service whose [n]-th answer to [getFile] is the first to report
    [indexing_completed]; the file has the given passages, on one page. *)
Definition finishesAtPoll (n : nat) (passages : list RemotePassage) : Client :=
  {| upsertFile := fun _ => Ok (fileWith upload_pending);
     getFile := fun _ answered =>
       Ok (fileWith (if Nat.ltb (S answered) n then indexing_pending
                     else indexing_completed));
     listFilePassages := fun _ _ => LastPage passages |}.

Definition quietRuntime : Runtime :=
  {| fetchPut := fun _ => Ok tt; startTime := 0; endTime := 300000 |}.

(** A service that refuses the registration of the file. *)
Definition refusingClient : Client :=
  {| upsertFile := fun _ => Throw (ErrorObj "fetch failed");
     getFile := fun _ _ => Throw (ErrorObj "unreachable");
     listFilePassages := fun _ _ => LastPage [] |}.

(** *** Stores *)

Import History.

Definition someFile : OriginalFile :=
  {| of_name := "report.pdf"; of_size := 2048;
     of_contentType := "application/pdf" |}.

Definition methodWith (name status : string) : StoredMethod :=
  {| hm_method := name;
     hm_label := name;
     hm_fileId := "file-" +:+ name;
     hm_status := status;
     hm_failedReason := None;
     hm_processingTimeMs := Some (Millis 0);
     hm_passageCount := Some 0;
     hm_contentCharsTotal := Some 0;
     hm_metaBreakdown := Some Benchmark.emptyBreakdown;
     hm_sampleText := Some "";
     hm_startedAt := Some "2025-01-01T00:00:00.000Z" |}.

Definition entryWith (runId completedAt : string)
  (methods : list StoredMethod) : HistoryEntry :=
  {| he_runId := Some runId;
     he_startedAt := "2025-01-01T00:00:00.000Z";
     he_completedAt := completedAt;
     he_originalFile := Some someFile;
     he_methods := MethodList methods;
     he_aiComparison := None |}.

(** [run-A], [run-B], ... *)
Definition runName (n : nat) : string :=
  "run-" +:+ String (ascii_of_nat (65 + n)) EmptyString.

Definition finishedEntry (n : nat) : HistoryEntry :=
  entryWith (runName n) "2025-01-01T00:05:00.000Z"
    [methodWith "basic" indexing_completed;
     methodWith "vision" indexing_completed;
     methodWith "landing-ai" timeout].

(** A store at its cap: 25 finished runs, [run-A] the most recent. *)
Definition fullHistory : list HistoryEntry := map finishedEntry (seq 0 25).
Definition fullStore : Storage := Some (TextOf (JArray fullHistory)).

Definition newRun : BenchmarkRunResult :=
  {| br_runId := "run-new";
     br_startedAt := "2025-02-01T00:00:00.000Z";
     br_completedAt := "2025-02-01T00:01:00.000Z";
     br_originalFile := someFile;
     br_methods := [] |}.

Definition newPending : PendingHistoryEntry :=
  {| pe_runId := "run-new";
     pe_startedAt := "2025-02-01T00:00:00.000Z";
     pe_originalFile := someFile;
     pe_methods :=
       [ {| pd_method := "basic"; pd_label := "Basic"; pd_fileId := "f1";
            pd_status := upload_pending;
            pd_startedAt := "2025-02-01T00:00:00.000Z" |} ] |}.

(** A run whose [basic] method was given up as [timeout] while [vision] is
    still indexing. *)
Definition timedOutStore : Storage :=
  Some (TextOf (JArray
    [entryWith "run-1" ""
       [methodWith "basic" timeout; methodWith "vision" indexing_pending]])).

(** The update [pollMethodStatus] sends for a status response. *)
Definition statusUpdate (status : string) (passageCount : option nat)
  : MethodUpdate :=
  {| up_status := status;
     up_method := None;
     up_label := None;
     up_fileId := None;
     up_failedReason := Some None;
     up_processingTimeMs := Some (Some (Millis 301000));
     up_passageCount := Some passageCount;
     up_contentCharsTotal := Some passageCount;
     up_metaBreakdown := Some None;
     up_sampleText := None |}.

(** *** A file for the excerpts *)

Definition filler (n : nat) : string :=
  string_of_list_ascii (repeat "x"%char n).

Definition remotePassage (id content : string) : RemotePassage :=
  {| rp_id := id; rp_content := content; rp_meta := None |}.

(** Three passages of 5, 3990 and 20 characters. *)
Definition threePassages : list RemotePassage :=
  [ remotePassage "p1" "Title";
    remotePassage "p2" (filler 3990);
    remotePassage "p3" "A closing paragraph." ].

Definition excerptClient : Client :=
  {| upsertFile := fun _ => Ok (fileWith indexing_completed);
     getFile := fun _ _ => Ok (fileWith indexing_completed);
     listFilePassages := fun _ _ => LastPage threePassages |}.

(** A service that puts 60 passages of one character on a page, whatever
    limit it is asked for. *)
Definition sixtyPassages : list RemotePassage :=
  map (fun _ => remotePassage "p" "x") (seq 0 60).

Definition generousClient : Client :=
  {| upsertFile := fun _ => Ok (fileWith indexing_completed);
     getFile := fun _ _ => Ok (fileWith indexing_completed);
     listFilePassages := fun _ _ => LastPage sixtyPassages |}.

(** *** Searches *)

Definition hit (content fileId : string) : SearchPassage :=
  {| sp_content := content; sp_score := 87;
     sp_meta := {| pm_type := None; pm_subtype := None;
                   pm_pageNumber := Some 3%Z |};
     sp_fileId := fileId |}.

(** A search that fails for [vision] alone, throwing [thrownValue]. *)
Definition visionFails (thrownValue : thrown)
  (query runId method : string) (limit : Z) : result (list SearchPassage) :=
  if String.eqb method "vision" then Throw thrownValue
  else Ok [hit ("revenue table, " +:+ method) ("file-" +:+ method)].

Definition unnamedRun : BenchmarkRunResult :=
  {| br_runId := "";
     br_startedAt := "2025-02-01T00:00:00.000Z";
     br_completedAt := "2025-02-01T00:01:00.000Z";
     br_originalFile := someFile;
     br_methods := [] |}.

Definition againRunC : PendingHistoryEntry :=
  {| pe_runId := runName 2;
     pe_startedAt := "2025-02-01T00:00:00.000Z";
     pe_originalFile := someFile;
     pe_methods := [] |}.

(** *** The poller *)

(** A run whose [basic] method is still indexing. *)
Definition pollingStore : Storage :=
  Some (TextOf (JArray
    [entryWith "run-1" ""
       [methodWith "basic" indexing_pending;
        methodWith "vision" indexing_completed]])).

Definition completedResponse : FileStatusResponse :=
  {| fs_fileId := "file-basic";
     fs_status := indexing_completed;
     fs_failedReason := None;
     fs_passageCount := Some 12;
     fs_contentCharsTotal := Some 3400;
     fs_processingTimeMs := Some (Millis 303000);
     fs_metaBreakdown := Some Benchmark.emptyBreakdown |}.

End Scenarios.

(** * Vocabulary of the properties *)

Import Benchmark.
Import History.

(** ** Results of [benchmarkMethod] *)

Definition elapsed (rt : Runtime) : Z := (endTime rt - startTime rt)%Z.

Definition completedResult (method : MethodConfig) (file finalFile : RemoteFile)
  (passages : list Passage) (processingTimeMs : Z) : MethodResult :=
  {| mr_method := mc_name method;
     mr_label := mc_label method;
     mr_fileId := rf_id file;
     mr_status := indexing_completed;
     mr_failedReason := None;
     mr_processingTimeMs := processingTimeMs;
     mr_passageCount := length passages;
     mr_contentCharsTotal := contentChars passages;
     mr_metaBreakdown := computeBreakdown passages;
     mr_sampleText := computeSampleText passages;
     mr_costOrUsageRaw := rf_usage finalFile |}.

Definition isFailure (status : string) : bool :=
  (String.eqb status indexing_failed || String.eqb status upload_failed)%bool.

Inductive Outcome (client : Client) (rt : Runtime) (method : MethodConfig)
  : MethodResult -> Prop :=
| Caught e :
    benchmarkMethodTry client rt method = Throw e ->
    Outcome client rt method
      (blankResult method "" indexing_failed (errorText e) (elapsed rt))
| TimedOut file finalFile attempts :
    upsertFile client (mc_name method) = Ok file ->
    pollLoop client (rf_id file) MAX_POLL_ATTEMPTS 0 file
      = Ok (finalFile, attempts) ->
    MAX_POLL_ATTEMPTS <= attempts ->
    Outcome client rt method
      (blankResult method (rf_id file) timeout
         "Indexing timed out after 5 minutes" (elapsed rt))
| RemoteFailure file finalFile attempts :
    upsertFile client (mc_name method) = Ok file ->
    pollLoop client (rf_id file) MAX_POLL_ATTEMPTS 0 file
      = Ok (finalFile, attempts) ->
    attempts < MAX_POLL_ATTEMPTS ->
    isFailure (rf_status finalFile) = true ->
    Outcome client rt method
      (blankResult method (rf_id file) (rf_status finalFile)
         (orElse (rf_failedStatusReason finalFile) "Unknown error")
         (elapsed rt))
| Completed file finalFile attempts passages :
    upsertFile client (mc_name method) = Ok file ->
    pollLoop client (rf_id file) MAX_POLL_ATTEMPTS 0 file
      = Ok (finalFile, attempts) ->
    attempts < MAX_POLL_ATTEMPTS ->
    isFailure (rf_status finalFile) = false ->
    getAllPassages client (rf_id file) = Ok passages ->
    Outcome client rt method
      (completedResult method file finalFile passages (elapsed rt)).

(** The three metrics of a result all differ from the values of a blank
    result. *)
Definition populated (r : MethodResult) : Prop :=
  mr_passageCount r <> 0
  /\ mr_contentCharsTotal r <> 0
  /\ mr_metaBreakdown r <> emptyBreakdown.

(** ** States of the store *)

(** The status the store records for a method of a run. *)
Definition recordedStatus (st : Storage) (runId methodName : string)
  : option string :=
  match getRunById st runId with
  | Ok (Some h) =>
      match he_methods h with
      | MethodList methods =>
          hm_status ∘ snd <$> list_find (hasMethod methodName) methods
      | NoMethods | MethodListNull _ _ => None
      end
  | _ => None
  end.

(** A sequence of merges, each with the time at which it runs. *)
Record Merge : Type := {
  mg_now : string;
  mg_runId : string;
  mg_method : string;
  mg_update : MethodUpdate;
}.

Definition applyMerges (merges : list Merge) (st : Storage) : Storage :=
  fold_left
    (fun st m =>
       updateMethodInHistory (mg_now m) (mg_runId m) (mg_method m)
         (mg_update m) st)
    merges st.

(** [every] method of the entry is in a terminal status. *)
Definition allComplete (h : HistoryEntry) : bool :=
  match he_methods h with
  | MethodList methods => forallb (fun m => isTerminal (hm_status m)) methods
  | NoMethods | MethodListNull _ _ => false
  end.

(** The entries a search of the stored value reaches: all of a list of
    entries, those before the first null of an array that holds one. *)
Definition reachable (v : jsonValue) : list HistoryEntry :=
  match v with
  | JArray entries => entries
  | JArrayNull before _ => before
  | JOther => []
  end.

(** [getRunById], a throw read as null. *)
Definition getRunById_value (st : Storage) (runId : string)
  : option HistoryEntry :=
  match getRunById st runId with
  | Ok found => found
  | Throw _ => None
  end.

(** The text of whole passages, each followed by a paragraph break. *)
Fixpoint paragraphs (passages : list Passage) : string :=
  match passages with
  | [] => ""
  | p :: rest => p_content p +:+ AiCompare.paragraphBreak +:+ paragraphs rest
  end.

(** The three degenerate states of the storage key. *)
Definition degenerate (st : Storage) : Prop :=
  st = None \/ st = Some EmptyText \/ st = Some Unparsable.

(** What an insertion of [entry] under [runId] makes of [history]. *)
Record InsertedAtFront (runId : string) (entry : HistoryEntry)
  (history updated : list HistoryEntry) : Prop := {
  (* the bound *)
  ins_bound : length updated <= 25;
  (* the new entry is the first one *)
  ins_front : updated !! 0 = Some entry;
  (* and the only one with its runId *)
  ins_single : filter (hasRunId runId) updated = [entry];
  (* no other runId gains an entry *)
  ins_others : forall other, other <> runId ->
    length (filter (hasRunId other) updated)
    <= length (filter (hasRunId other) history);
  (* a 26th run pushes out the oldest entry, and only that one *)
  ins_evict : length history = 25 ->
    Forall (fun h => ~ hasRunId runId h) history ->
    exists kept oldest,
      history = kept ++ [oldest] /\ updated = entry :: kept;
  (* a run already present is replaced, nothing else being lost *)
  ins_replace : length history <= 25 ->
    Exists (hasRunId runId) history ->
    updated = entry :: filter (fun h => ~ hasRunId runId h) history
    /\ length updated <= length history;
}.

(** The two operations that insert a run. *)
Inductive Insert : Type :=
| AddToHistory (r : BenchmarkRunResult)
| CreatePendingEntry (pe : PendingHistoryEntry).

Definition insert (op : Insert) (st : Storage) : Storage :=
  match op with
  | AddToHistory r => addToHistory r st
  | CreatePendingEntry pe => createPendingEntry pe st
  end.

Definition insertedRunId (op : Insert) : string :=
  match op with
  | AddToHistory r => br_runId r
  | CreatePendingEntry pe => pe_runId pe
  end.

Definition insertedEntry (op : Insert) : HistoryEntry :=
  match op with
  | AddToHistory r => entryOfResult r
  | CreatePendingEntry pe => pendingEntry pe
  end.

(** ** Texts and metrics *)

(** The code units below 256 that [trim] strips: tab, line feed, vertical
    tab, form feed, carriage return, space, no-break space.  A text with
    clean ends neither starts nor ends with one of them. *)
Definition whiteCodes : list nat := [9; 10; 11; 12; 13; 32; 160].

Definition white (c : ascii) : Prop := nat_of_ascii c ∈ whiteCodes.

Definition cleanEnds (text : string) : Prop :=
  (forall c rest, text = String c rest -> ~ white c)
  /\ (forall rest c, text = rest +:+ String c "" -> ~ white c).

(** [s] holds no run of three line feeds, [run] line feeds standing just
    before it. *)
Fixpoint noTripleLF (run : nat) (s : string) : bool :=
  match s with
  | EmptyString => true
  | String c r =>
      if Ascii.eqb c LF then (Nat.ltb run 2 && noTripleLF (S run) r)%bool
      else noTripleLF 0 r
  end.

Definition threeLF : string := String LF (String LF (String LF EmptyString)).

(** [c] occurs in [s]. *)
Fixpoint occurs (c : ascii) (s : string) : bool :=
  match s with
  | EmptyString => false
  | String d r => (Ascii.eqb c d || occurs c r)%bool
  end.

(** The passages of a given type, of a given subtype. *)
Definition typed (k : string) (p : Passage) : Prop :=
  pm_type (p_meta p) = Some k.

Definition subtyped (k : string) (p : Passage) : Prop :=
  pm_subtype (p_meta p) = Some k.

#[global] Instance typed_dec k p : Decision (typed k p).
Proof. unfold typed. apply _. Defined.

#[global] Instance subtyped_dec k p : Decision (subtyped k p).
Proof. unfold subtyped. apply _. Defined.

(** The page numbers the passages carry. *)
Definition pageNumbers (passages : list Passage) : list Z :=
  omap (fun p => pm_pageNumber (p_meta p)) passages.

(** The names of the functions every object has from [Object.prototype]. *)
Definition prototypeNames : list string :=
  [ "constructor"; "hasOwnProperty"; "isPrototypeOf"; "propertyIsEnumerable";
    "toLocaleString"; "toString"; "valueOf"; "__defineGetter__";
    "__defineSetter__"; "__lookupGetter__"; "__lookupSetter__" ].

(** What a counter holds under a key after [n] passages were counted under
    it: nothing under the empty key, which is not counted, nor under
    [__proto__]; a number under an ordinary key; a text under an inherited
    name. *)
Definition tallied (k : string) (n : nat) : option counter :=
  if (String.eqb k "" || String.eqb k "__proto__")%bool then None
  else
    match n with
    | O => None
    | S _ => Some (if bool_decide (k ∈ prototypeNames)
                   then InheritedText n else Number n)
    end.

(** A key under which the counter counts: not empty, not inherited. *)
Definition ordinary (k : string) : Prop :=
  k <> "" /\ ~ k ∈ prototypeNames /\ k <> "__proto__".

(** The measures of a list of passages, said without the loops that compute
    them. *)
Record Measured (passages : list Passage) (passageCount contentCharsTotal : nat)
  (breakdown : MetaBreakdown) : Prop := {
  (* their number *)
  ms_count : passageCount = length passages;
  (* the sum of the lengths of their contents *)
  ms_chars : contentCharsTotal
             = sum_list (map (fun p => String.length (p_content p)) passages);
  (* under each key, what counting the passages of that type leaves: their
     number under an ordinary key *)
  ms_byType : forall k,
    byType breakdown !! k = tallied k (length (filter (typed k) passages));
  ms_bySubtype : forall k,
    bySubtype breakdown !! k
    = tallied k (length (filter (subtyped k) passages));
  (* the number of distinct page numbers *)
  ms_pages : pageCount breakdown
             = size (list_to_set (pageNumbers passages) : gset Z);
}.

(** The pages [getAllPassages] reads from a listing: up to the first page
    that carries no token; and what it is thrown on the way, if anything. *)
Fixpoint pagesRead (l : Listing) : list (list RemotePassage) :=
  match l with
  | ListingThrows _ => []
  | LastPage ps => [ps]
  | MorePages ps nextToken rest =>
      ps :: (if truthy nextToken then pagesRead rest else [])
  end.

Fixpoint readFailure (l : Listing) : option thrown :=
  match l with
  | ListingThrows e => Some e
  | LastPage _ => None
  | MorePages _ nextToken rest =>
      if truthy nextToken then readFailure rest else None
  end.

(** ** Sequences of operations on the store *)

(** The operations of [lib/history.ts] that write to the store. *)
Inductive Operation : Type :=
| OpAddToHistory (r : BenchmarkRunResult)
| OpCreatePendingEntry (entry : PendingHistoryEntry)
| OpUpdateMethod (now runId methodName : string) (update : MethodUpdate)
| OpAiComparison (runId : string) (aiComparison : AiComparisonResult)
| OpImport (json : text)
| OpClear.

Definition perform (st : Storage) (op : Operation) : Storage :=
  match op with
  | OpAddToHistory r => addToHistory r st
  | OpCreatePendingEntry entry => createPendingEntry entry st
  | OpUpdateMethod now runId methodName update =>
      updateMethodInHistory now runId methodName update st
  | OpAiComparison runId aiComparison =>
      updateHistoryWithAiComparison runId aiComparison st
  | OpImport json => snd (importHistory json st)
  | OpClear => clearHistory st
  end.

Definition performAll (ops : list Operation) (st : Storage) : Storage :=
  fold_left perform ops st.

(** An entry with the three properties the readers rely on. *)
Definition complete (h : HistoryEntry) : Prop :=
  is_Some (he_runId h) /\ is_Some (he_originalFile h)
  /\ isArray (he_methods h) = true.

(** An entry whose [methods] is a list of records, none of them null; a
    file to import, and an operation, that bring no other entry. *)
Definition listed (h : HistoryEntry) : Prop :=
  exists methods, he_methods h = MethodList methods.

Definition listedOp (op : Operation) : Prop :=
  match op with
  | OpImport (TextOf (JArray parsed)) => Forall listed parsed
  | _ => True
  end.

(** The store holds a list of complete entries, within the cap. *)
Definition wellFormed (st : Storage) : Prop :=
  exists history,
    getHistory st = JArray history
    /\ length history <= MAX_HISTORY_ITEMS
    /\ Forall complete history.

(** ** The comparison *)

(** A body that has a runId and the three file identifiers, none empty; and
    the identifiers the route takes from a body. *)
Definition filled (body : Routes.CompareBody) : Prop :=
  exists runId basic vision landingAi ids,
    Routes.cb_runId body = Some runId /\ runId <> ""
    /\ Routes.cb_fileIds body = Some ids
    /\ Routes.cf_basic ids = Some basic /\ basic <> ""
    /\ Routes.cf_vision ids = Some vision /\ vision <> ""
    /\ Routes.cf_landingAi ids = Some landingAi /\ landingAi <> "".

Definition fileIdsOf (body : Routes.CompareBody) : Comparison.FileIds :=
  {| Comparison.fi_basic :=
       Routes.fileIdAt Routes.cf_basic (Routes.cb_fileIds body);
     Comparison.fi_vision :=
       Routes.fileIdAt Routes.cf_vision (Routes.cb_fileIds body);
     Comparison.fi_landingAi :=
       Routes.fileIdAt Routes.cf_landingAi (Routes.cb_fileIds body) |}.

(** The three excerpts put into the template: the prompt of a comparison. *)
Definition promptOf (client : Client) (fileIds : Comparison.FileIds)
  (instructions : option string) : string :=
  Comparison.buildPrompt instructions
    (AiCompare.getExcerpt client (Comparison.fi_basic fileIds))
    (AiCompare.getExcerpt client (Comparison.fi_vision fileIds))
    (AiCompare.getExcerpt client (Comparison.fi_landingAi fileIds)).

(** The order of the ranks, and the items of a given rank. *)
Definition byRank (a b : Comparison.RankingItem) : Prop :=
  QArith_base.Qle (Comparison.rk_rank a) (Comparison.rk_rank b).

Definition ranked (r : Comparison.number) (x : Comparison.RankingItem) : Prop :=
  QArith_base.Qeq (Comparison.rk_rank x) r.

#[global] Instance ranked_dec r x : Decision (ranked r x).
Proof. unfold ranked. apply QArith_base.Qeq_dec. Defined.

(** * Properties *)

(** ** JavaScript helpers *)

Lemma truthy_true s : truthy s = true <-> s <> "".
Proof.
  unfold truthy. rewrite negb_true_iff. apply String.eqb_neq.
Qed.

Lemma truthy_false s : truthy s = false <-> s = "".
Proof.
  unfold truthy. rewrite negb_false_iff. apply String.eqb_eq.
Qed.

Lemma bind_Ok {A B} (r : result A) (k : A -> result B) b :
  bind r k = Ok b -> exists a, r = Ok a /\ k a = Ok b.
Proof. destruct r as [a|e]; simpl; [eauto | discriminate]. Qed.

Lemma bind_Throw {A B} (r : result A) (k : A -> result B) e :
  bind r k = Throw e ->
  r = Throw e \/ exists a, r = Ok a /\ k a = Throw e.
Proof. destruct r as [a|e']; simpl; [eauto | intros [= ->]; auto]. Qed.

(** ** The polling loop of [benchmarkMethod] *)

(** The structural loop is the [while] of the source: with [remaining]
    standing for [MAX_POLL_ATTEMPTS - attempts], one unfolding reads as the
    loop test followed by the loop body. *)
Lemma pollLoop_unfold client id remaining attempts f :
  remaining + attempts = MAX_POLL_ATTEMPTS ->
  pollLoop client id remaining attempts f =
    if (isPending (rf_status f) && Nat.ltb attempts MAX_POLL_ATTEMPTS)%bool
    then bind (getFile client id attempts)
              (pollLoop client id (pred remaining) (S attempts))
    else Ok (f, attempts).
Proof.
  intros Hsum. destruct remaining as [|r]; simpl.
  - assert (Nat.ltb attempts MAX_POLL_ATTEMPTS = false) as ->
      by (apply Nat.ltb_ge; lia).
    now rewrite andb_false_r.
  - assert (Nat.ltb attempts MAX_POLL_ATTEMPTS = true) as ->
      by (apply Nat.ltb_lt; lia).
    now rewrite andb_true_r.
Qed.

(** At the exit, either the attempts are used up or the last status read is
    not a pending one; the file in hand is the answer to the last poll. *)
Lemma pollLoop_exit client id remaining :
  forall attempts f f' attempts',
    pollLoop client id remaining attempts f = Ok (f', attempts') ->
    attempts <= attempts' <= attempts + remaining
    /\ (attempts' < attempts + remaining -> isPending (rf_status f') = false)
    /\ (attempts' = attempts -> f' = f)
    /\ (attempts < attempts' -> getFile client id (pred attempts') = Ok f').
Proof.
  induction remaining as [|r IH]; intros a f f' a'; simpl.
  - intros [= <- <-]. repeat split; try lia; auto.
  - destruct (isPending (rf_status f)) eqn:Hp.
    + intros H. apply bind_Ok in H as (u & Hu & H).
      apply IH in H as (Hr & Hstop & Hsame & Hlast).
      repeat split; try lia.
      * intros Hlt. apply Hstop. lia.
      * intros Hlt. destruct (decide (a' = S a)) as [->|Hne].
        -- rewrite (Hsame eq_refl). exact Hu.
        -- apply Hlast. lia.
    + intros [= <- <-]. repeat split; try lia; auto.
Qed.

(** While every answer is a pending status, the loop uses all its
    attempts. *)
Lemma pollLoop_all_pending client id remaining :
  forall attempts f,
    isPending (rf_status f) = true ->
    (forall k, attempts <= k < attempts + remaining ->
       exists u, getFile client id k = Ok u
                 /\ isPending (rf_status u) = true) ->
    exists f', pollLoop client id remaining attempts f
               = Ok (f', attempts + remaining)
               /\ isPending (rf_status f') = true.
Proof.
  induction remaining as [|r IH]; intros a f Hp Hall; simpl.
  - exists f. rewrite Nat.add_0_r. auto.
  - rewrite Hp. destruct (Hall a) as (u & Hu & Hup); [lia|].
    rewrite Hu. simpl.
    destruct (IH (S a) u Hup) as (f' & Hloop & Hf').
    { intros k Hk. apply Hall. lia. }
    exists f'. rewrite Hloop. split; [f_equal; f_equal; lia | exact Hf'].
Qed.

(** A run of pending answers is polled through. *)
Lemma pollLoop_pending_prefix client id later n :
  forall attempts f,
    isPending (rf_status f) = true ->
    (forall k, attempts <= k < attempts + n ->
       exists u, getFile client id k = Ok u
                 /\ isPending (rf_status u) = true) ->
    exists f',
      isPending (rf_status f') = true
      /\ pollLoop client id (n + later) attempts f
         = pollLoop client id later (attempts + n) f'.
Proof.
  induction n as [|n IH]; intros a f Hp Hall.
  - exists f. now rewrite Nat.add_0_r.
  - cbn [Nat.add pollLoop]. rewrite Hp.
    destruct (Hall a) as (u & Hu & Hup); [lia|]. rewrite Hu. cbn [bind].
    destruct (IH (S a) u Hup) as (f' & Hf' & Hloop).
    { intros k Hk. apply Hall. lia. }
    exists f'. split; [exact Hf'|]. rewrite Hloop. f_equal. lia.
Qed.

(** ** The four ways [benchmarkMethod] ends *)

Lemma benchmarkMethod_outcome client rt method :
  Outcome client rt method (benchmarkMethod client rt method).
Proof.
  unfold benchmarkMethod.
  destruct (benchmarkMethodTry client rt method) as [r|e] eqn:Htry;
    [|now apply Caught].
  unfold benchmarkMethodTry in Htry.
  apply bind_Ok in Htry as (file & Hfile & Htry).
  apply bind_Ok in Htry as (url & _ & Htry).
  apply bind_Ok in Htry as ([] & _ & Htry).
  apply bind_Ok in Htry as ([finalFile attempts] & Hpoll & Htry).
  cbn [fst snd] in Htry. fold (elapsed rt) in Htry.
  fold (isFailure (rf_status finalFile)) in Htry.
  destruct (Nat.leb MAX_POLL_ATTEMPTS attempts) eqn:Hcap.
  - injection Htry as <-. apply Nat.leb_le in Hcap.
    eapply TimedOut; eauto.
  - apply Nat.leb_gt in Hcap.
    destruct (isFailure (rf_status finalFile)) eqn:Hfail.
    + injection Htry as <-. eapply RemoteFailure; eauto.
    + apply bind_Ok in Htry as (passages & Hps & Htry).
      injection Htry as <-.
      eapply (Completed _ _ _ file finalFile); eauto.
Qed.

Lemma isFailure_status s :
  isFailure s = true -> s = indexing_failed \/ s = upload_failed.
Proof.
  unfold isFailure. rewrite orb_true_iff, !String.eqb_eq. tauto.
Qed.

(** What the code does about [timeout]: it is returned exactly when the loop
    ends with all [MAX_POLL_ATTEMPTS] polls made, whatever the last answer
    was. *)
Lemma benchmarkMethod_timeout_iff client rt method :
  mr_status (benchmarkMethod client rt method) = timeout <->
  exists file finalFile,
    Outcome client rt method
      (blankResult method (rf_id file) timeout
         "Indexing timed out after 5 minutes" (elapsed rt))
    /\ benchmarkMethod client rt method
       = blankResult method (rf_id file) timeout
           "Indexing timed out after 5 minutes" (elapsed rt)
    /\ pollLoop client (rf_id file) MAX_POLL_ATTEMPTS 0 file
       = Ok (finalFile, MAX_POLL_ATTEMPTS).
Proof.
  split.
  - intros Hst.
    pose proof (benchmarkMethod_outcome client rt method) as Hout.
    destruct Hout as [e He|file f a Hf Hp Hcap|file f a Hf Hp Hcap Hfail
                     |file f a ps Hf Hp Hcap Hfail Hps].
    + discriminate.
    + apply pollLoop_exit in Hp as Hex. destruct Hex as (Hrange & _).
      assert (a = MAX_POLL_ATTEMPTS) as -> by (simpl in Hrange; lia).
      exists file, f. repeat split; eauto using TimedOut.
    + simpl in Hst. apply isFailure_status in Hfail as [Hs|Hs];
        rewrite Hs in Hst; discriminate.
    + discriminate.
  - intros (file & f & _ & -> & _). reflexivity.
Qed.

(** The intended half: when all the polls are used up and the last answer
    is still a pending status, the result is [timeout]. *)
Lemma benchmarkMethod_timeout_when_still_pending client rt method file u :
  upsertFile client (mc_name method) = Ok file ->
  rf_uploadUrl file = Some u -> truthy u = true ->
  fetchPut rt u = Ok tt ->
  isPending (rf_status file) = true ->
  (forall k, k < MAX_POLL_ATTEMPTS ->
     exists f, getFile client (rf_id file) k = Ok f
               /\ isPending (rf_status f) = true) ->
  mr_status (benchmarkMethod client rt method) = timeout.
Proof.
  intros Hfile Hurl Hu Hput Hp Hall.
  destruct (pollLoop_all_pending client (rf_id file) MAX_POLL_ATTEMPTS 0 file Hp)
    as (f' & Hloop & _).
  { intros k Hk. apply Hall. lia. }
  unfold benchmarkMethod, benchmarkMethodTry.
  rewrite Hfile. cbn [bind]. rewrite Hurl, Hu. cbn [bind].
  rewrite Hput. cbn [bind]. rewrite Hloop. cbn [bind fst snd].
  rewrite Nat.add_0_l, Nat.leb_refl. reflexivity.
Qed.

(** What the test after the loop misses: when the first 149 answers are
    pending ones, the 150th poll is made and the result is [timeout]
    whatever that last answer says. *)
Lemma benchmarkMethod_timeout_whatever_the_last_answer
  client rt method file u last :
  upsertFile client (mc_name method) = Ok file ->
  rf_uploadUrl file = Some u -> truthy u = true ->
  fetchPut rt u = Ok tt ->
  isPending (rf_status file) = true ->
  (forall k, k < 149 ->
     exists f, getFile client (rf_id file) k = Ok f
               /\ isPending (rf_status f) = true) ->
  getFile client (rf_id file) 149 = Ok last ->
  pollLoop client (rf_id file) MAX_POLL_ATTEMPTS 0 file = Ok (last, 150)
  /\ mr_status (benchmarkMethod client rt method) = timeout.
Proof.
  intros Hfile Hurl Hu Hput Hp Hall Hlast.
  assert (pollLoop client (rf_id file) MAX_POLL_ATTEMPTS 0 file
          = Ok (last, 150)) as Hloop.
  { destruct (pollLoop_pending_prefix client (rf_id file) 1 149 0 file Hp)
      as (f' & Hf' & Hprefix).
    { intros k Hk. apply Hall. lia. }
    change MAX_POLL_ATTEMPTS with (149 + 1). rewrite Hprefix.
    cbn [pollLoop Nat.add]. rewrite Hf', Hlast. reflexivity. }
  split; [exact Hloop|].
  unfold benchmarkMethod, benchmarkMethodTry.
  rewrite Hfile. cbn [bind]. rewrite Hurl, Hu. cbn [bind].
  rewrite Hput. cbn [bind]. rewrite Hloop. reflexivity.
Qed.

(** The polls fill the five minutes of the message. *)
Example poll_budget_is_five_minutes :
  (POLL_INTERVAL_MS * Z.of_nat MAX_POLL_ATTEMPTS = 5 * 60 * 1000)%Z.
Proof. reflexivity. Qed.

(** A completion reported one poll earlier is returned as such. *)
Example completion_at_poll_149 :
  let r := benchmarkMethod
             (Scenarios.finishesAtPoll 149 [Scenarios.onePassage])
             Scenarios.quietRuntime Scenarios.basic in
  mr_status r = indexing_completed /\ mr_passageCount r = 1.
Proof. vm_compute. split; reflexivity. Qed.

(** C1 (the code departs from the specification).  Specified:
    [benchmarkMethod] returns [timeout] if and only if the 150 polls were
    used up while the remote status was still pending, and a run whose last
    status fetch reports a terminal status is returned with that status.
    The code tests [attempts >= MAX_POLL_ATTEMPTS] alone: when the 150th
    poll, the last one allowed, answers [indexing_completed], the loop ends
    with a terminal status in hand and with [attempts = 150], and the result
    is [timeout] with no passage counted. *)
Theorem C1_timeout_returned_for_completion_at_last_poll :
  let client := Scenarios.finishesAtPoll MAX_POLL_ATTEMPTS [Scenarios.onePassage] in
  let r := benchmarkMethod client Scenarios.quietRuntime Scenarios.basic in
  (forall k, k < 149 ->
     getFile client "file-1" k = Ok (Scenarios.fileWith indexing_pending))
  /\ getFile client "file-1" 149 = Ok (Scenarios.fileWith indexing_completed)
  /\ pollLoop client "file-1" MAX_POLL_ATTEMPTS 0
       (Scenarios.fileWith upload_pending)
     = Ok (Scenarios.fileWith indexing_completed, 150)
  /\ isPending indexing_completed = false
  /\ mr_status r = timeout
  /\ mr_failedReason r = Some "Indexing timed out after 5 minutes"
  /\ mr_passageCount r = 0.
Proof.
  split.
  - intros k Hk. unfold Scenarios.finishesAtPoll, MAX_POLL_ATTEMPTS.
    cbn [getFile]. destruct (Nat.ltb_spec (S k) 150); [reflexivity|lia].
  - vm_compute. repeat split; reflexivity.
Qed.

(** ** Errors thrown inside [benchmarkMethod] *)

(** A refused registration, seen from the orchestrator: three results, all
    [indexing_failed] with the message of the error. *)
Example failed_enqueue_is_reported :
  exists run,
    runBenchmark (Ok Scenarios.refusingClient) (fun _ => Scenarios.quietRuntime)
      "run-1" "2025-01-01T00:00:00.000Z" "2025-01-01T00:00:01.000Z"
      "report.pdf" 2048 "application/pdf" = Ok run
    /\ map mr_status (br_methods run)
       = [indexing_failed; indexing_failed; indexing_failed]
    /\ map mr_failedReason (br_methods run)
       = [Some "fetch failed"; Some "fetch failed"; Some "fetch failed"].
Proof. eexists. repeat split. Qed.

Lemma benchmarkMethod_caught client rt method e :
  benchmarkMethodTry client rt method = Throw e ->
  benchmarkMethod client rt method
  = blankResult method "" indexing_failed (errorText e) (elapsed rt).
Proof. unfold benchmarkMethod. now intros ->. Qed.

Lemma collectPages_throws_at_first_page client fileId e acc :
  listFilePassages client fileId 200 = ListingThrows e ->
  collectPages (listFilePassages client fileId 200) acc = Throw e.
Proof. now intros ->. Qed.

(** C9.  Whatever is thrown inside the [try] of [benchmarkMethod] is caught:
    the function returns a result with status [indexing_failed] whose
    [failedReason] is the text of the error: the message of an [Error], the
    rendering of any other value thrown.  A failing [upsertFile], a missing
    upload URL (whose message is [No uploadUrl returned from upsertFile]),
    a failing upload, a failing status poll and a failing passage listing
    all end this way.  [runBenchmark], once it holds a client, therefore
    always returns a run with one result per method of [METHODS], a failed
    method being one of these results. *)
Theorem C9_thrown_errors_become_indexing_failed
  (client : Client) (rt : Runtime) (method : MethodConfig) :
  (* the catch *)
  (forall e, benchmarkMethodTry client rt method = Throw e ->
     mr_status (benchmarkMethod client rt method) = indexing_failed
     /\ mr_failedReason (benchmarkMethod client rt method)
        = Some match e with
               | ErrorObj message => message
               | NonError rendered => rendered
               end
     /\ mr_method (benchmarkMethod client rt method) = mc_name method
     /\ mr_passageCount (benchmarkMethod client rt method) = 0)
  (* network failure during enqueue *)
  /\ (forall e, upsertFile client (mc_name method) = Throw e ->
        benchmarkMethodTry client rt method = Throw e)
  (* missing upload URL *)
  /\ (forall file, upsertFile client (mc_name method) = Ok file ->
        truthyOpt (rf_uploadUrl file) = false ->
        benchmarkMethodTry client rt method
        = Throw (ErrorObj "No uploadUrl returned from upsertFile")
        /\ mr_status (benchmarkMethod client rt method) = indexing_failed
        /\ mr_failedReason (benchmarkMethod client rt method)
           = Some "No uploadUrl returned from upsertFile")
  (* network failure during the byte upload *)
  /\ (forall file u e, upsertFile client (mc_name method) = Ok file ->
        rf_uploadUrl file = Some u -> truthy u = true ->
        fetchPut rt u = Throw e ->
        benchmarkMethodTry client rt method = Throw e)
  (* failure of a status poll *)
  /\ (forall file u e, upsertFile client (mc_name method) = Ok file ->
        rf_uploadUrl file = Some u -> truthy u = true ->
        fetchPut rt u = Ok tt ->
        pollLoop client (rf_id file) MAX_POLL_ATTEMPTS 0 file = Throw e ->
        benchmarkMethodTry client rt method = Throw e)
  (* failure of the passage listing *)
  /\ (forall file u finalFile attempts e,
        upsertFile client (mc_name method) = Ok file ->
        rf_uploadUrl file = Some u -> truthy u = true ->
        fetchPut rt u = Ok tt ->
        pollLoop client (rf_id file) MAX_POLL_ATTEMPTS 0 file
        = Ok (finalFile, attempts) ->
        attempts < MAX_POLL_ATTEMPTS ->
        isFailure (rf_status finalFile) = false ->
        getAllPassages client (rf_id file) = Throw e ->
        benchmarkMethodTry client rt method = Throw e)
  (* the orchestrator *)
  /\ (forall runtimeOf runId startedAt completedAt fileName size contentType,
        exists run,
          runBenchmark (Ok client) runtimeOf runId startedAt completedAt
            fileName size contentType = Ok run
          /\ br_methods run
             = map (fun m => benchmarkMethod client (runtimeOf (mc_name m)) m)
                 METHODS
          /\ map mr_method (br_methods run) = map mc_name METHODS
          /\ forall m e, m ∈ METHODS ->
               benchmarkMethodTry client (runtimeOf (mc_name m)) m = Throw e ->
               exists r,
                 r ∈ br_methods run
                 /\ mr_method r = mc_name m
                 /\ mr_status r = indexing_failed
                 /\ mr_failedReason r
                    = Some match e with
                           | ErrorObj message => message
                           | NonError rendered => rendered
                           end).
Proof.
  assert (forall rt' m e,
            benchmarkMethodTry client rt' m = Throw e ->
            mr_status (benchmarkMethod client rt' m) = indexing_failed
            /\ mr_failedReason (benchmarkMethod client rt' m)
               = Some match e with
                      | ErrorObj message => message
                      | NonError rendered => rendered
                      end
            /\ mr_method (benchmarkMethod client rt' m) = mc_name m
            /\ mr_passageCount (benchmarkMethod client rt' m) = 0) as Hcatch.
  { intros rt' m e He. rewrite (benchmarkMethod_caught _ _ _ _ He).
    now destruct e. }
  assert (forall file, upsertFile client (mc_name method) = Ok file ->
            truthyOpt (rf_uploadUrl file) = false ->
            benchmarkMethodTry client rt method
            = Throw (ErrorObj "No uploadUrl returned from upsertFile"))
    as Hurl.
  { intros file Hf Hu. unfold benchmarkMethodTry. rewrite Hf. cbn [bind].
    destruct (rf_uploadUrl file) as [u|]; simpl in *; [|reflexivity].
    now rewrite Hu. }
  split; [apply Hcatch|].
  split.
  { intros e He. unfold benchmarkMethodTry. now rewrite He. }
  split.
  { intros file Hf Hu. split; [exact (Hurl file Hf Hu)|].
    destruct (Hcatch rt method _ (Hurl file Hf Hu)) as (Hs & Hr & _).
    now split. }
  split.
  { intros file u e Hf Hu' Hu Hput. unfold benchmarkMethodTry.
    rewrite Hf. cbn [bind]. rewrite Hu', Hu. cbn [bind]. now rewrite Hput. }
  split.
  { intros file u e Hf Hu' Hu Hput Hpoll. unfold benchmarkMethodTry.
    rewrite Hf. cbn [bind]. rewrite Hu', Hu. cbn [bind]. rewrite Hput.
    cbn [bind]. now rewrite Hpoll. }
  split.
  { intros file u finalFile attempts e Hf Hu' Hu Hput Hpoll Hlt Hok Hps.
    unfold benchmarkMethodTry.
    rewrite Hf. cbn [bind]. rewrite Hu', Hu. cbn [bind]. rewrite Hput.
    cbn [bind]. rewrite Hpoll. cbn [bind fst snd].
    apply Nat.leb_gt in Hlt. rewrite Hlt.
    fold (isFailure (rf_status finalFile)). rewrite Hok. now rewrite Hps. }
  intros. eexists. split; [reflexivity|]. cbn [br_methods].
  split; [reflexivity|]. split.
  - rewrite map_map. apply map_ext_in. intros m _.
    destruct (benchmarkMethod_outcome client (runtimeOf (mc_name m)) m);
      reflexivity.
  - intros m e Hm He.
    exists (benchmarkMethod client (runtimeOf (mc_name m)) m).
    destruct (Hcatch (runtimeOf (mc_name m)) m e He) as (Hs & Hr & Hn & _).
    split; [|auto].
    apply list_elem_of_fmap. exists m. split; [reflexivity|exact Hm].
Qed.

(** ** Metrics and status *)

Lemma getFileStatus_cases client poll now timeOf fileId startedAt resp :
  getFileStatus client poll now timeOf fileId startedAt = Ok resp ->
  (fs_status resp <> indexing_completed
   /\ fs_passageCount resp = None
   /\ fs_contentCharsTotal resp = None
   /\ fs_metaBreakdown resp = None)
  \/ (fs_status resp = indexing_completed
      /\ exists passages,
           getAllPassages client fileId = Ok passages
           /\ fs_passageCount resp = Some (length passages)
           /\ fs_contentCharsTotal resp = Some (contentChars passages)
           /\ fs_metaBreakdown resp = Some (computeBreakdown passages)).
Proof.
  unfold getFileStatus. intros H.
  apply bind_Ok in H as (fileData & _ & H).
  destruct (String.eqb_spec (rf_status fileData) indexing_completed) as [Hc|Hc].
  - apply bind_Ok in H as (passages & Hps & H). injection H as <-.
    right. cbn. split; [exact Hc|]. exists passages. auto.
  - injection H as <-. left. cbn. auto.
Qed.

(** *** The breakdown, without its loop *)

(** [tallied] in the terms of the code: its test of the key and its table
    of inherited names. *)
Lemma tallied_unfold k n :
  tallied k n
  = if (negb (truthy k) || String.eqb k "__proto__")%bool then None
    else match n with
         | O => None
         | S _ => Some (if inherited k then InheritedText n else Number n)
         end.
Proof.
  unfold tallied, truthy, inherited. rewrite negb_involutive. reflexivity.
Qed.

Lemma tallied_proto n : tallied "__proto__" n = None.
Proof. reflexivity. Qed.

Lemma tallied_0 k : tallied k 0 = None.
Proof.
  rewrite tallied_unfold.
  now destruct (negb (truthy k) || String.eqb k "__proto__")%bool.
Qed.

Lemma tallied_S k n :
  truthy k = true -> k <> "__proto__" ->
  tallied k (S n)
  = Some (if inherited k then InheritedText (S n) else Number (S n)).
Proof.
  intros Hk Hproto. rewrite tallied_unfold, Hk.
  destruct (String.eqb_spec k "__proto__"); [contradiction|reflexivity].
Qed.

Lemma bump_tallied ty counts (c : string -> nat) :
  truthy ty = true ->
  (forall k, counts !! k = tallied k (c k)) ->
  forall k,
    bump ty counts !! k
    = tallied k (c k + if decide (k = ty) then 1 else 0).
Proof.
  intros Hty Hinv k. unfold bump.
  destruct (String.eqb_spec ty "__proto__") as [->|Hproto].
  - rewrite Hinv. destruct (decide (k = "__proto__")) as [->|Hne];
      [reflexivity|now rewrite Nat.add_0_r].
  - rewrite (Hinv ty).
    destruct (decide (k = ty)) as [->|Hne].
    + destruct (c ty) as [|m].
      * rewrite tallied_0. cbn [Nat.add]. rewrite (tallied_S _ _ Hty Hproto).
        destruct (inherited ty); now rewrite lookup_insert_eq.
      * rewrite Nat.add_1_r, !(tallied_S _ _ Hty Hproto).
        destruct (inherited ty); now rewrite lookup_insert_eq.
    + rewrite Nat.add_0_r.
      destruct (c ty) as [|m].
      * rewrite tallied_0.
        destruct (inherited ty); rewrite lookup_insert_ne by congruence;
          apply Hinv.
      * rewrite (tallied_S _ _ Hty Hproto).
        destruct (inherited ty); rewrite lookup_insert_ne by congruence;
          apply Hinv.
Qed.

Lemma tally_byType passages :
  forall t (c : string -> nat),
    (forall k, t_byType t !! k = tallied k (c k)) ->
    forall k,
      t_byType (fold_left tallyPassage passages t) !! k
      = tallied k (c k + length (filter (typed k) passages)).
Proof.
  induction passages as [|p passages IH]; intros t c Hinv k.
  - cbn. now rewrite Nat.add_0_r.
  - cbn [fold_left].
    rewrite (IH _ (fun k => c k + if decide (typed k p) then 1 else 0)).
    + rewrite filter_cons. f_equal.
      destruct (decide (typed k p)); cbn [length]; lia.
    + intros k'. unfold tallyPassage. cbn [t_byType].
      destruct (decide (typed k' p)) as [Hty|Hty]; unfold typed in Hty.
      * rewrite Hty. destruct (truthy k') eqn:Hk.
        -- rewrite (bump_tallied k' _ c Hk Hinv). now rewrite decide_True.
        -- rewrite Hinv, !tallied_unfold. now rewrite Hk.
      * rewrite Nat.add_0_r.
        destruct (pm_type (p_meta p)) as [ty|]; [|apply Hinv].
        destruct (truthy ty) eqn:Htr; [|apply Hinv].
        rewrite (bump_tallied ty _ c Htr Hinv).
        rewrite decide_False by congruence. now rewrite Nat.add_0_r.
Qed.

Lemma tally_bySubtype passages :
  forall t (c : string -> nat),
    (forall k, t_bySubtype t !! k = tallied k (c k)) ->
    forall k,
      t_bySubtype (fold_left tallyPassage passages t) !! k
      = tallied k (c k + length (filter (subtyped k) passages)).
Proof.
  induction passages as [|p passages IH]; intros t c Hinv k.
  - cbn. now rewrite Nat.add_0_r.
  - cbn [fold_left].
    rewrite (IH _ (fun k => c k + if decide (subtyped k p) then 1 else 0)).
    + rewrite filter_cons. f_equal.
      destruct (decide (subtyped k p)); cbn [length]; lia.
    + intros k'. unfold tallyPassage. cbn [t_bySubtype].
      destruct (decide (subtyped k' p)) as [Hty|Hty]; unfold subtyped in Hty.
      * rewrite Hty. destruct (truthy k') eqn:Hk.
        -- rewrite (bump_tallied k' _ c Hk Hinv). now rewrite decide_True.
        -- rewrite Hinv, !tallied_unfold. now rewrite Hk.
      * rewrite Nat.add_0_r.
        destruct (pm_subtype (p_meta p)) as [ty|]; [|apply Hinv].
        destruct (truthy ty) eqn:Htr; [|apply Hinv].
        rewrite (bump_tallied ty _ c Htr Hinv).
        rewrite decide_False by congruence. now rewrite Nat.add_0_r.
Qed.

Lemma tally_pageNumbers passages :
  forall t,
    t_pageNumbers (fold_left tallyPassage passages t)
    = list_to_set (pageNumbers passages) ∪ t_pageNumbers t.
Proof.
  induction passages as [|p passages IH]; intros t.
  - cbn. now rewrite union_empty_l_L.
  - cbn [fold_left]. rewrite IH. unfold pageNumbers, tallyPassage.
    cbn [t_pageNumbers omap list_omap].
    destruct (pm_pageNumber (p_meta p)) as [n|]; cbn [list_to_set];
      [|reflexivity].
    rewrite union_assoc_L. f_equal. apply union_comm_L.
Qed.

Lemma computeBreakdown_tallied passages k :
  byType (computeBreakdown passages) !! k
  = tallied k (length (filter (typed k) passages))
  /\ bySubtype (computeBreakdown passages) !! k
     = tallied k (length (filter (subtyped k) passages))
  /\ pageCount (computeBreakdown passages)
     = size (list_to_set (pageNumbers passages) : gset Z).
Proof.
  unfold computeBreakdown. cbn [byType bySubtype pageCount].
  rewrite (tally_byType passages emptyTally (fun _ => 0)),
    (tally_bySubtype passages emptyTally (fun _ => 0)), tally_pageNumbers.
  - cbn [emptyTally t_pageNumbers Nat.add]. now rewrite union_empty_r_L.
  - intros k'. cbn. rewrite lookup_empty. now rewrite tallied_0.
  - intros k'. cbn. rewrite lookup_empty. now rewrite tallied_0.
Qed.

Lemma tallied_ordinary k n :
  ordinary k ->
  tallied k n = match n with O => None | S _ => Some (Number n) end.
Proof.
  intros (Hne & Hin & Hproto). unfold tallied.
  apply String.eqb_neq in Hne. rewrite Hne.
  destruct (String.eqb_spec k "__proto__"); [contradiction|].
  now rewrite bool_decide_eq_false_2.
Qed.

Lemma contentChars_sum passages :
  contentChars passages
  = sum_list (map (fun p => String.length (p_content p)) passages).
Proof.
  unfold contentChars.
  assert (forall acc,
            fold_left (fun sum p => sum + String.length (p_content p))
              passages acc
            = acc + sum_list (map (fun p => String.length (p_content p))
                                passages)) as Hacc.
  { induction passages as [|p passages IH]; intros acc; cbn;
      [lia|rewrite IH; lia]. }
  apply (Hacc 0).
Qed.

Lemma measured passages :
  Measured passages (length passages) (contentChars passages)
    (computeBreakdown passages).
Proof.
  split.
  - reflexivity.
  - apply contentChars_sum.
  - intros k. apply (computeBreakdown_tallied passages k).
  - intros k. apply (computeBreakdown_tallied passages k).
  - apply (computeBreakdown_tallied passages "").
Qed.

(** C2 (counterexample).  A file whose indexing completes with no passage
    at all: [benchmarkMethod] returns [indexing_completed] with
    [passageCount = 0], [contentCharsTotal = 0] and an empty breakdown, the
    values of a blank result, so "completed iff populated with non-default
    values" fails from left to right. *)
Lemma C2_completed_with_default_metrics :
  let r := benchmarkMethod (Scenarios.finishesAtPoll 1 [])
             Scenarios.quietRuntime Scenarios.basic in
  mr_status r = indexing_completed
  /\ mr_passageCount r = 0
  /\ mr_contentCharsTotal r = 0
  /\ mr_metaBreakdown r = emptyBreakdown
  /\ ~ (mr_status r = indexing_completed <-> populated r).
Proof.
  assert (mr_passageCount
            (benchmarkMethod (Scenarios.finishesAtPoll 1 [])
               Scenarios.quietRuntime Scenarios.basic) = 0) as Hzero
    by reflexivity.
  cbv zeta. repeat split; try reflexivity.
  intros [Hpop _]. destruct (Hpop eq_refl) as (Hcount & _).
  apply Hcount. exact Hzero.
Qed.

(** C2 (amended).  A result of [benchmarkMethod] whose status is not
    [indexing_completed] has [passageCount = 0], [contentCharsTotal = 0] and
    an empty breakdown; one whose status is [indexing_completed] carries the
    metrics computed from the passages fetched for its file: their number,
    the sum of the lengths of their contents, the number of distinct page
    numbers and, under each type and subtype that is an ordinary key, the
    number of passages that have it (a type that is the empty string or
    [__proto__] is not counted, and under a name every object inherits the
    counter holds a text); they are zero and empty when there is no
    passage.  A response of [getFileStatus] has the three fields exactly
    when its status is [indexing_completed], and they are then those
    metrics. *)
Theorem C2_metrics_follow_status
  (client : Client) (rt : Runtime) (method : MethodConfig)
  (poll : nat) (now : Z) (timeOf : string -> option Z) (fileId : string)
  (startedAt : option string) :
  let r := benchmarkMethod client rt method in
  (mr_status r <> indexing_completed ->
     mr_passageCount r = 0 /\ mr_contentCharsTotal r = 0
     /\ mr_metaBreakdown r = emptyBreakdown)
  /\ (mr_status r = indexing_completed ->
        exists passages,
          getAllPassages client (mr_fileId r) = Ok passages
          /\ Measured passages (mr_passageCount r) (mr_contentCharsTotal r)
               (mr_metaBreakdown r))
  /\ (forall resp,
        getFileStatus client poll now timeOf fileId startedAt = Ok resp ->
        (fs_status resp = indexing_completed <-> is_Some (fs_passageCount resp))
        /\ (fs_status resp = indexing_completed
            <-> is_Some (fs_contentCharsTotal resp))
        /\ (fs_status resp = indexing_completed
            <-> is_Some (fs_metaBreakdown resp))
        /\ (fs_status resp = indexing_completed ->
              exists passages passageCount contentCharsTotal breakdown,
                getAllPassages client fileId = Ok passages
                /\ fs_passageCount resp = Some passageCount
                /\ fs_contentCharsTotal resp = Some contentCharsTotal
                /\ fs_metaBreakdown resp = Some breakdown
                /\ Measured passages passageCount contentCharsTotal
                     breakdown)).
Proof.
  cbv zeta. split; [|split].
  - intros Hst.
    destruct (benchmarkMethod_outcome client rt method); cbn in *; auto.
    now contradiction Hst.
  - intros Hst.
    destruct (benchmarkMethod_outcome client rt method)
      as [e He|file f a Hf Hp Hcap|file f a Hf Hp Hcap Hfail
          |file f a ps Hf Hp Hcap Hfail Hps]; cbn in Hst |- *.
    + discriminate.
    + discriminate.
    + apply isFailure_status in Hfail as [Hs|Hs]; rewrite Hs in Hst;
        discriminate.
    + exists ps. split; [exact Hps|apply measured].
  - intros resp Hresp.
    destruct (getFileStatus_cases _ _ _ _ _ _ _ Hresp)
      as [(Hne & -> & -> & ->)|(Heq & ps & Hps & Hc & Hn & Hb)].
    + repeat split; intros H; try contradiction;
        try (destruct H as [? H]; discriminate).
    + rewrite Hc, Hn, Hb.
      do 3 (split; [split; eauto|]).
      intros _. exists ps, (length ps), (contentChars ps), (computeBreakdown ps).
      do 4 (split; [reflexivity || exact Hps|]). apply measured.
Qed.

(** ** The history store *)

(** *** Reading *)

Lemma getHistory_stored entries :
  getHistory (Some (TextOf (JArray entries))) = JArray entries.
Proof. reflexivity. Qed.

Lemma getHistory_degenerate st : degenerate st -> getHistory st = JArray [].
Proof. now intros [->|[->| ->]]. Qed.

Lemma getHistory_text st :
  degenerate st \/ exists v, st = Some (TextOf v) /\ getHistory st = v.
Proof.
  destruct st as [[| |v]|]; unfold degenerate; eauto.
Qed.

Lemma getHistory_commit st entries :
  getHistory (commit st (Ok entries)) = JArray entries.
Proof. reflexivity. Qed.

Lemma mapResult_total {A B} (f : A -> result B) (l : list A) :
  Forall (fun x => exists y, f x = Ok y) l ->
  exists ys, mapResult f l = Ok ys /\ length ys = length l.
Proof.
  induction 1 as [|x l (y & Hy) _ (ys & Hys & Hlen)]; cbn.
  - now exists [].
  - rewrite Hy, Hys. cbn. exists (y :: ys). cbn. auto.
Qed.

Lemma getRunById_array entries runId :
  getRunById (Some (TextOf (JArray entries))) runId
  = Ok (snd <$> list_find (hasRunId runId) entries).
Proof. reflexivity. Qed.

Lemma summarize_Ok h :
  (exists s, summarize h = Ok s)
  <-> is_Some (he_originalFile h) /\ exists methods, he_methods h = MethodList methods.
Proof.
  unfold summarize. split.
  - intros [s Hs]. destruct (he_originalFile h) as [file|]; [|discriminate].
    destruct (he_methods h) as [|methods|before rest]; try discriminate.
    eauto.
  - intros ([file ->] & methods & ->). cbn. eauto.
Qed.

(** C10 (supporting).  [getHistory] catches what reading the store throws:
    when the key is absent, holds the empty string, or holds a string that
    is not valid JSON, it returns the empty list, and in these three states
    [getRunById] returns null and [getHistorySummaries] the empty list.  In
    every other state the key holds a JSON text and [getHistory] returns
    what the text denotes, whatever it is; on a list of entries
    [getRunById] returns, and so does [getHistorySummaries] when each entry
    has its file and a list of method records. *)
Lemma C10_readers_total_on_degenerate_store (st : Storage) (runId : string) :
  (degenerate st ->
     getHistory st = JArray []
     /\ getRunById st runId = Ok None
     /\ getHistorySummaries st = Ok [])
  /\ (forall v, st = Some (TextOf v) -> getHistory st = v)
  /\ (forall entries,
        getHistory st = JArray entries ->
        (exists found, getRunById st runId = Ok found)
        /\ (Forall (fun h => is_Some (he_originalFile h)
                             /\ exists methods,
                                  he_methods h = MethodList methods)
               entries ->
            exists summaries,
              getHistorySummaries st = Ok summaries
              /\ length summaries = length entries)).
Proof.
  split; [|split].
  - now intros [->|[->| ->]].
  - now intros v ->.
  - intros entries Hh. split.
    + unfold getRunById. rewrite Hh. cbn. eauto.
    + intros Hall. unfold getHistorySummaries. rewrite Hh. cbn.
      apply mapResult_total.
      eapply Forall_impl; [exact Hall|]. cbn.
      intros h Hh'. now apply summarize_Ok.
Qed.

(** C10 (the code departs from the specification).  Specified: the
    readers never fail on a corrupted store.  When the key holds a text
    that is valid JSON but not an array, as [null] or [{}], [getHistory]
    returns the parsed value, which is no list, and [getRunById] and
    [getHistorySummaries], which call an array method on it, throw.  They
    throw as well when the key holds an array with a null in it, as
    [[null]]: [getRunById] unless an entry before the null has the runId,
    [getHistorySummaries] always.  Only the absent key, the empty string
    and the text that is no JSON are caught. *)
Theorem C10_readers_throw_on_stored_non_array
  (runId : string) (before : list HistoryEntry)
  (rest : list (option HistoryEntry)) :
  (* valid JSON, not an array *)
  getHistory (Some (TextOf JOther)) = JOther
  /\ getRunById (Some (TextOf JOther)) runId = Throw (ErrorObj "TypeError")
  /\ getHistorySummaries (Some (TextOf JOther))
     = Throw (ErrorObj "TypeError")
  (* an array that holds a null *)
  /\ getHistory (Some (TextOf (JArrayNull before rest)))
     = JArrayNull before rest
  /\ getRunById (Some (TextOf (JArrayNull before rest))) runId
     = match list_find (hasRunId runId) before with
       | Some (_, h) => Ok (Some h)
       | None => Throw (ErrorObj "TypeError")
       end
  /\ getRunById (Some (TextOf (JArrayNull [] rest))) runId
     = Throw (ErrorObj "TypeError")
  /\ getHistorySummaries (Some (TextOf (JArrayNull before rest)))
     = Throw (ErrorObj "TypeError")
  (* what is caught *)
  /\ getHistory None = JArray []
  /\ getHistory (Some EmptyText) = JArray []
  /\ getHistory (Some Unparsable) = JArray [].
Proof.
  repeat split.
  unfold getRunById. cbn.
  now destruct (list_find (hasRunId runId) before) as [[i h]|].
Qed.

(** *** Inserting *)

Lemma length_insertFront runId entry history :
  length (insertFront runId entry history) <= MAX_HISTORY_ITEMS.
Proof. unfold insertFront. rewrite length_take. lia. Qed.

Lemma filter_take_length {A} (P : A -> Prop) `{!forall x, Decision (P x)}
  (n : nat) (l : list A) :
  length (filter P (take n l)) <= length (filter P l).
Proof.
  rewrite <- (take_drop n l) at 2. rewrite filter_app, length_app. lia.
Qed.

Lemma filter_none {A} (P : A -> Prop) `{!forall x, Decision (P x)}
  (l : list A) :
  Forall (fun x => ~ P x) l -> filter P l = [].
Proof.
  induction 1 as [|x l Hx _ IH]; [reflexivity|].
  now rewrite filter_cons_False.
Qed.

Lemma filter_hasRunId_removed runId history :
  filter (hasRunId runId) (filter (fun h => ~ hasRunId runId h) history) = [].
Proof.
  apply filter_none, Forall_forall. intros h Hh.
  apply list_elem_of_filter in Hh. tauto.
Qed.

Lemma insertFront_spec runId entry history :
  hasRunId runId entry ->
  InsertedAtFront runId entry history (insertFront runId entry history).
Proof.
  intros Hid. unfold insertFront, MAX_HISTORY_ITEMS.
  set (rest := filter (fun h => ~ hasRunId runId h) history).
  assert (take 25 (entry :: rest) = entry :: take 24 rest) as Htake
    by reflexivity.
  split.
  - rewrite length_take. lia.
  - now rewrite Htake.
  - rewrite Htake, filter_cons_True by exact Hid. f_equal.
    apply filter_none, Forall_forall. intros h Hh.
    apply (subseteq_take 24 rest), list_elem_of_filter in Hh. tauto.
  - intros other Hne. rewrite Htake.
    rewrite filter_cons_False
      by (unfold hasRunId in *; rewrite Hid; congruence).
    etransitivity; [apply filter_take_length|].
    subst rest. rewrite list_filter_filter.
    clear. induction history as [|h l IH]; [reflexivity|].
    rewrite !filter_cons.
    repeat case_decide; cbn; try lia; tauto.
  - intros Hlen Hfresh.
    assert (rest = history) as Hrest.
    { subst rest. clear -Hfresh.
      induction Hfresh as [|h l Hh _ IH]; [reflexivity|].
      rewrite filter_cons_True by exact Hh. now f_equal. }
    rewrite Htake, Hrest.
    assert (history <> []) as Hne by (intros ->; discriminate).
    destruct (exists_last Hne) as (kept & oldest & Heq).
    exists kept, oldest. split; [exact Heq|].
    f_equal. rewrite Heq in *. rewrite length_app in Hlen. cbn in Hlen.
    rewrite take_app_length'; [reflexivity|lia].
  - intros Hlen Hin. apply Exists_exists in Hin as (h & Hh & Hhid).
    assert (length rest < length history) as Hlt.
    { subst rest. eapply length_filter_lt; [exact Hh|]. tauto. }
    rewrite Htake, take_ge by lia. split; [reflexivity|]. cbn. lia.
Qed.

(** C5.  After [addToHistory] or [createPendingEntry] on a store holding a
    list, the store holds at most 25 entries; the inserted run is the first
    entry and the only one with its runId, and no other runId gains an
    entry; inserting a run with a new runId into a store of 25 removes the
    last (oldest) entry and nothing else; inserting a run whose runId is
    present replaces the entries of that runId by the new one, at the front,
    the other entries being kept in order. *)
Theorem C5_insert_bound_and_eviction (st : Storage) (op : Insert) :
  let runId := insertedRunId op in
  let entry := insertedEntry op in
  match getHistory st with
  | JOther | JArrayNull _ _ =>
      (* nothing is inserted into a store that holds no list of entries *)
      insert op st = st
  | JArray history =>
      exists updated,
        getHistory (insert op st) = JArray updated
        (* the bound *)
        /\ length updated <= 25
        (* the new entry is the first one, and the only one with its runId *)
        /\ updated !! 0 = Some entry
        /\ filter (hasRunId runId) updated = [entry]
        (* no other runId gains an entry *)
        /\ (forall other, other <> runId ->
              length (filter (hasRunId other) updated)
              <= length (filter (hasRunId other) history))
        (* a 26th run pushes out the oldest entry, and only that one *)
        /\ (length history = 25 ->
            Forall (fun h => ~ hasRunId runId h) history ->
            exists kept oldest,
              history = kept ++ [oldest] /\ updated = entry :: kept)
        (* a run already present is replaced, nothing else being lost *)
        /\ (length history <= 25 ->
            Exists (hasRunId runId) history ->
            updated = entry :: filter (fun h => ~ hasRunId runId h) history
            /\ length updated <= length history)
  end.
Proof.
  intros runId entry.
  destruct (getHistory st) as [history|before rest|] eqn:Hst.
  2,3: destruct op as [r|pe]; cbn [insert];
         unfold addToHistory, createPendingEntry; now rewrite Hst.
  exists (insertFront runId entry history).
  split.
  { destruct op as [r|pe]; cbn [insert]; unfold addToHistory, createPendingEntry;
      rewrite Hst; apply getHistory_commit. }
  assert (hasRunId runId entry) as Hid by (destruct op; reflexivity).
  destruct (insertFront_spec runId entry history Hid)
    as [Hbound Hfront Hsingle Hothers Hevict Hreplace].
  repeat split; auto; now apply Hreplace.
Qed.

(** The 26th run, on the full store: [run-Y], the oldest, is gone, and the
    24 others follow the new run.  A run already there, [run-C], comes to
    the front and the store keeps its 25 runs. *)
Example insert_26th :
  getHistory (addToHistory Scenarios.newRun Scenarios.fullStore)
  = JArray (entryOfResult Scenarios.newRun
            :: map Scenarios.finishedEntry (seq 0 24))
  /\ getHistory (createPendingEntry Scenarios.againRunC Scenarios.fullStore)
     = JArray (pendingEntry Scenarios.againRunC
               :: map Scenarios.finishedEntry ([0; 1] ++ seq 3 22)).
Proof. vm_compute. split; reflexivity. Qed.

(** *** Export and import *)

Lemma forallb_Forall {A} (p : A -> bool) (l : list A) :
  forallb p l = true <-> Forall (fun x => p x = true) l.
Proof.
  induction l as [|x l IH]; cbn.
  - split; auto.
  - rewrite andb_true_iff, IH, Forall_cons. tauto.
Qed.

Lemma no_new_entries (history : list HistoryEntry) :
  filter (fun h => he_runId h ∉
                   (list_to_set (map he_runId history) : gset (option string)))
         history = [].
Proof.
  apply filter_none, Forall_forall. intros h Hh Hnot. apply Hnot.
  apply elem_of_list_to_set, list_elem_of_fmap. eauto.
Qed.

(** What [importHistory] does with a well-formed file. *)
Lemma importHistory_valid parsed st existing :
  forallb validEntry parsed = true ->
  getHistory st = JArray existing ->
  importHistory (TextOf (JArray parsed)) st
  = (true,
     Some (TextOf (JArray
       (take MAX_HISTORY_ITEMS
          (filter (fun h => he_runId h ∉
                     (list_to_set (map he_runId existing)
                        : gset (option string))) parsed
           ++ existing))))).
Proof.
  intros Hvalid Hst. unfold importHistory. cbn [JSON_parse bind].
  rewrite Hvalid, Hst. reflexivity.
Qed.

(** C4 (counterexample).  A store that holds one run whose runId is the
    empty string, as [addToHistory] leaves it when given such a run: the
    validation of [importHistory] refuses what [exportHistory] returns, the
    import returns false and the store is left as it was. *)
Lemma C4_import_refuses_exported_history :
  let st := addToHistory Scenarios.unnamedRun None in
  st = Some (TextOf (JArray [entryOfResult Scenarios.unnamedRun]))
  /\ exportHistory st = TextOf (JArray [entryOfResult Scenarios.unnamedRun])
  /\ importHistory (exportHistory st) st = (false, st).
Proof. repeat split. Qed.

(** C4 (amended).  For a store holding a history within the cap of 25, each
    entry of which has what [importHistory] checks (a non-empty runId, a
    file, a list of methods): importing what [exportHistory] returns
    succeeds and leaves the history as it was, so every entry is kept, the
    runIds after the import include the runIds before, and the store holds
    at most 25 entries. *)
Theorem C4_export_import_round_trip
  (st : Storage) (history : list HistoryEntry) :
  getHistory st = JArray history ->
  Forall (fun h => validEntry h = true) history ->
  length history <= MAX_HISTORY_ITEMS ->
  exists updated,
    importHistory (exportHistory st) st
    = (true, Some (TextOf (JArray updated)))
    /\ getHistory (snd (importHistory (exportHistory st) st)) = JArray updated
    /\ updated = history
    /\ (forall h, h ∈ history -> h ∈ updated)
    /\ (forall runId, runId ∈ map he_runId history ->
          runId ∈ map he_runId updated)
    /\ length updated <= MAX_HISTORY_ITEMS.
Proof.
  intros Hst Hvalid Hlen. exists history.
  assert (importHistory (exportHistory st) st
          = (true, Some (TextOf (JArray history)))) as Himport.
  { unfold exportHistory, JSON_stringify. rewrite Hst.
    rewrite (importHistory_valid history st history);
      [|now apply forallb_Forall|exact Hst].
    rewrite no_new_entries. cbn [app].
    now rewrite take_ge by exact Hlen. }
  rewrite Himport. cbn [snd]. repeat split; auto.
Qed.

Lemma C4_witness :
  getHistory Scenarios.fullStore = JArray Scenarios.fullHistory
  /\ Forall (fun h => validEntry h = true) Scenarios.fullHistory
  /\ length Scenarios.fullHistory <= MAX_HISTORY_ITEMS
  /\ exists updated,
       importHistory (exportHistory Scenarios.fullStore) Scenarios.fullStore
       = (true, Some (TextOf (JArray updated)))
       /\ getHistory (snd (importHistory (exportHistory Scenarios.fullStore)
                             Scenarios.fullStore)) = JArray updated
       /\ updated = Scenarios.fullHistory
       /\ (forall h, h ∈ Scenarios.fullHistory -> h ∈ updated)
       /\ (forall runId, runId ∈ map he_runId Scenarios.fullHistory ->
             runId ∈ map he_runId updated)
       /\ length updated <= MAX_HISTORY_ITEMS.
Proof.
  assert (Forall (fun h => validEntry h = true) Scenarios.fullHistory) as Hvalid.
  { apply forallb_Forall. vm_compute. reflexivity. }
  assert (length Scenarios.fullHistory <= MAX_HISTORY_ITEMS) as Hlen.
  { vm_compute. lia. }
  split; [reflexivity|]. split; [exact Hvalid|]. split; [exact Hlen|].
  exact (C4_export_import_round_trip Scenarios.fullStore Scenarios.fullHistory
           eq_refl Hvalid Hlen).
Defined.

(** *** Merging a method update *)

Import Scenarios.

Lemma getHistory_stringify v : getHistory (Some (JSON_stringify v)) = v.
Proof. reflexivity. Qed.

Lemma findRun_Some runId v index h :
  findRun runId v = Ok (Some (index, h))
  <-> list_find (hasRunId runId) (reachable v) = Some (index, h).
Proof.
  destruct v as [entries|before rest|]; cbn.
  - split; congruence.
  - destruct (list_find (hasRunId runId) before) as [[i x]|];
      split; congruence.
  - split; discriminate.
Qed.

Lemma reachable_replaceAt index h v :
  reachable (replaceAt index h v) = <[index := h]> (reachable v).
Proof. now destruct v. Qed.

Lemma getRunById_found st runId h :
  getRunById st runId = Ok (Some h) <->
  exists index,
    list_find (hasRunId runId) (reachable (getHistory st)) = Some (index, h).
Proof.
  unfold getRunById. split.
  - destruct (findRun runId (getHistory st)) as [[[index h']|]|e] eqn:Hf;
      cbn; intros [= <-].
    exists index. now apply findRun_Some.
  - intros (index & Hf). apply findRun_Some in Hf. now rewrite Hf.
Qed.

Lemma getRunById_in_array st runId history index h :
  getHistory st = JArray history ->
  list_find (hasRunId runId) history = Some (index, h) ->
  getRunById st runId = Ok (Some h).
Proof.
  intros Hst Hrun. apply getRunById_found. exists index. now rewrite Hst.
Qed.

(** Replacing an entry by one with the same runId does not move what a
    search by runId finds. *)
Lemma list_find_replace runId history index h h' :
  history !! index = Some h ->
  he_runId h' = he_runId h ->
  forall k x,
    list_find (hasRunId runId) history = Some (k, x) ->
    list_find (hasRunId runId) (<[index := h']> history)
    = Some (k, if decide (k = index) then h' else x).
Proof.
  intros Hidx Hid k x Hfind.
  apply list_find_Some in Hfind as (Hk & Hx & Hbefore).
  assert (index < length history) as Hlen by (eapply lookup_lt_Some; eauto).
  apply list_find_Some. split; [|split].
  - destruct (decide (k = index)) as [->|Hne].
    + now apply list_lookup_insert_eq.
    + rewrite list_lookup_insert_ne by congruence. exact Hk.
  - destruct (decide (k = index)) as [->|Hne]; [|exact Hx].
    unfold hasRunId in *. rewrite Hid. congruence.
  - intros j y Hj Hlt.
    destruct (decide (j = index)) as [->|Hne].
    + rewrite list_lookup_insert_eq in Hj by exact Hlen.
      injection Hj as <-. unfold hasRunId. rewrite Hid.
      exact (Hbefore index h Hidx Hlt).
    + rewrite list_lookup_insert_ne in Hj by congruence.
      exact (Hbefore j y Hj Hlt).
Qed.

(** What [updateMethodInHistory] does: nothing, or the replacement of the
    entry it found by what [mergeIntoEntry] makes of it. *)
Lemma updateMethodInHistory_cases now runId methodName update st :
  updateMethodInHistory now runId methodName update st = st
  \/ exists index h h',
       findRun runId (getHistory st) = Ok (Some (index, h))
       /\ mergeIntoEntry now methodName update h = Ok (Some h')
       /\ updateMethodInHistory now runId methodName update st
          = Some (JSON_stringify (replaceAt index h' (getHistory st))).
Proof.
  unfold updateMethodInHistory.
  destruct (findRun runId (getHistory st)) as [[[index h]|]|e]; cbn; auto.
  destruct (mergeIntoEntry now methodName update h) as [[h'|]|e] eqn:Hmerge;
    cbn; auto.
  right. exists index, h, h'. rewrite Hmerge. auto.
Qed.

Lemma mergeIntoEntry_Some now methodName update h h' :
  mergeIntoEntry now methodName update h = Ok (Some h') ->
  he_runId h' = he_runId h
  /\ ((exists methods i m,
         he_methods h = MethodList methods
         /\ list_find (hasMethod methodName) methods = Some (i, m)
         /\ h' = withMethods h (<[i := mergeMethod m update]> methods)
                  (if (forallb (fun m => isTerminal (hm_status m))
                         (<[i := mergeMethod m update]> methods)
                       && negb (truthy (he_completedAt h)))%bool
                   then now else he_completedAt h))
      \/ (exists before rest i m,
            he_methods h = MethodListNull before rest
            /\ list_find (hasMethod methodName) before = Some (i, m)
            /\ forallb (fun m => isTerminal (hm_status m))
                 (<[i := mergeMethod m update]> before) = false
            /\ h' = withMethodsBefore h
                      (<[i := mergeMethod m update]> before) rest)).
Proof.
  unfold mergeIntoEntry.
  destruct (he_methods h) as [|methods|before rest] eqn:Hms; [discriminate| |].
  - destruct (list_find (hasMethod methodName) methods) as [[i m]|] eqn:Hm;
      [|discriminate].
    intros [= <-]. split; [reflexivity|]. left. eauto 6.
  - destruct (list_find (hasMethod methodName) before) as [[i m]|] eqn:Hm;
      [|discriminate].
    destruct (forallb _ _) eqn:Hall; [discriminate|].
    intros [= <-]. split; [reflexivity|]. right.
    exists before, rest, i, m. auto.
Qed.

(** The merge that [updateMethodInHistory] performs once it has found the
    run and, in it, the method. *)
Lemma updateMethodInHistory_found
  now runId methodName update st index h methods i m :
  list_find (hasRunId runId) (reachable (getHistory st)) = Some (index, h) ->
  he_methods h = MethodList methods ->
  list_find (hasMethod methodName) methods = Some (i, m) ->
  let methods' := <[i := mergeMethod m update]> methods in
  let completedAt :=
    if (forallb (fun m => isTerminal (hm_status m)) methods'
        && negb (truthy (he_completedAt h)))%bool
    then now else he_completedAt h in
  updateMethodInHistory now runId methodName update st
  = Some (JSON_stringify
      (replaceAt index (withMethods h methods' completedAt) (getHistory st))).
Proof.
  intros Hrun Hms Hm. apply findRun_Some in Hrun.
  unfold updateMethodInHistory, mergeIntoEntry.
  rewrite Hrun. cbn [bind]. rewrite Hms, Hm. reflexivity.
Qed.

(** One merge, seen from any run of the store: the run is still found, with
    its runId; its [completedAt] is the one it had, unless it was empty and
    the merge left all its methods terminal, in which case it is [now]. *)
Lemma updateMethodInHistory_step now runId methodName update st watched h :
  getRunById st watched = Ok (Some h) ->
  exists h',
    getRunById (updateMethodInHistory now runId methodName update st) watched
    = Ok (Some h')
    /\ he_runId h' = he_runId h
    /\ ((h' = h)
        \/ (watched = runId
            /\ exists methods i m,
                 he_methods h = MethodList methods
                 /\ list_find (hasMethod methodName) methods = Some (i, m)
                 /\ he_methods h'
                    = MethodList (<[i := mergeMethod m update]> methods)
                 /\ he_completedAt h'
                    = if (allComplete h'
                          && negb (truthy (he_completedAt h)))%bool
                      then now else he_completedAt h)
        \/ (watched = runId
            /\ exists before rest i m,
                 he_methods h = MethodListNull before rest
                 /\ list_find (hasMethod methodName) before = Some (i, m)
                 /\ h' = withMethodsBefore h
                           (<[i := mergeMethod m update]> before) rest)).
Proof.
  intros Hwatched.
  apply getRunById_found in Hwatched as Hw. destruct Hw as (k & Hk).
  destruct (updateMethodInHistory_cases now runId methodName update st)
    as [->|(index & e & e' & Hrun & Hmerge & ->)]; [eauto|].
  apply findRun_Some in Hrun.
  apply mergeIntoEntry_Some in Hmerge as (Hid & Hcase).
  apply list_find_Some in Hrun as Hrun'. destruct Hrun' as (Hidx & Hide & _).
  pose proof (list_find_replace watched _ index e e' Hidx Hid k h Hk) as Hfind.
  exists (if decide (k = index) then e' else h). split.
  - apply getRunById_found. exists k.
    rewrite getHistory_stringify, reachable_replaceAt. exact Hfind.
  - destruct (decide (k = index)) as [->|Hne]; [|auto].
    apply list_find_Some in Hk as (Hkh & Hidh & _).
    assert (h = e) as -> by congruence.
    assert (watched = runId) as Hsame
      by (unfold hasRunId in *; congruence).
    split; [exact Hid|]. right.
    destruct Hcase as [(methods & i & m & Hms & Hm & ->)
                      |(before & rest & i & m & Hms & Hm & _ & ->)].
    + left. split; [exact Hsame|]. exists methods, i, m. repeat split; auto.
    + right. split; [exact Hsame|]. exists before, rest, i, m. auto.
Qed.

Lemma updateMethodInHistory_merged
  now runId methodName update st h methods i m :
  getRunById st runId = Ok (Some h) ->
  he_methods h = MethodList methods ->
  list_find (hasMethod methodName) methods = Some (i, m) ->
  let methods' := <[i := mergeMethod m update]> methods in
  getRunById (updateMethodInHistory now runId methodName update st) runId
  = Ok (Some (withMethods h methods'
                (if (forallb (fun m => isTerminal (hm_status m)) methods'
                     && negb (truthy (he_completedAt h)))%bool
                 then now else he_completedAt h))).
Proof.
  intros Hfound Hms Hm methods'.
  apply getRunById_found in Hfound as (index & Hrun).
  rewrite (updateMethodInHistory_found _ _ _ _ _ _ _ _ _ _ Hrun Hms Hm).
  cbv zeta. fold methods'.
  apply list_find_Some in Hrun as Hrun'. destruct Hrun' as (Hidx & _).
  apply getRunById_found. exists index.
  rewrite getHistory_stringify, reachable_replaceAt.
  erewrite list_find_replace; eauto. now rewrite decide_True.
Qed.

(** The record a merge leaves for the method it found. *)
Lemma merged_record now runId methodName update st h methods i m :
  getRunById st runId = Ok (Some h) ->
  he_methods h = MethodList methods ->
  list_find (hasMethod methodName) methods = Some (i, m) ->
  exists h' methods',
    getRunById (updateMethodInHistory now runId methodName update st) runId
    = Ok (Some h')
    /\ he_methods h' = MethodList methods'
    /\ methods' !! i = Some (mergeMethod m update).
Proof.
  intros Hfound Hms Hm.
  eexists _, (<[i := mergeMethod m update]> methods).
  split; [eapply updateMethodInHistory_merged; eauto|].
  split; [reflexivity|].
  apply list_find_Some in Hm as (Hi & _).
  apply list_lookup_insert_eq. eapply lookup_lt_Some; eauto.
Qed.

(** The store records [timeout] for the method [basic] of [run-1]; a merge
    carrying [indexing_completed], as the poller sends when a status
    response arrives, replaces it. *)
Example merge_overwrites_a_terminal_status :
  let st := Scenarios.timedOutStore in
  let st' := updateMethodInHistory "2025-01-01T00:05:02.000Z" "run-1" "basic"
               (Scenarios.statusUpdate indexing_completed (Some 12)) st in
  recordedStatus st "run-1" "basic" = Some timeout
  /\ isTerminal timeout = true
  /\ recordedStatus st' "run-1" "basic" = Some indexing_completed
  /\ indexing_completed <> timeout.
Proof. vm_compute. repeat split; discriminate. Qed.

Lemma list_find_insert_found {A} (P : A -> Prop) `{!forall x, Decision (P x)}
  (l : list A) i x y :
  list_find P l = Some (i, x) -> P y ->
  list_find P (<[i := y]> l) = Some (i, y).
Proof.
  intros Hf Hy. apply list_find_Some in Hf as (Hi & Hx & Hbefore).
  apply list_find_Some. split; [|split].
  - apply list_lookup_insert_eq. eapply lookup_lt_Some; eauto.
  - exact Hy.
  - intros j z Hj Hlt. rewrite list_lookup_insert_ne in Hj by lia. eauto.
Qed.

(** [updateMethodInHistory] guards no status: when it finds the run and, in
    it, the method, the record of that method becomes the merge of the
    update into it and the store records the status of the update, whatever
    status was recorded.  The other methods of the run are unchanged. *)
Lemma merge_sets_the_status_of_the_update
  (now runId methodName : string) (update : MethodUpdate) (st : Storage)
  (h : HistoryEntry) (methods : list StoredMethod) (i : nat)
  (m : StoredMethod) :
  getRunById st runId = Ok (Some h) ->
  he_methods h = MethodList methods ->
  list_find (hasMethod methodName) methods = Some (i, m) ->
  up_method update = None ->
  let st' := updateMethodInHistory now runId methodName update st in
  exists h' methods',
    getRunById st' runId = Ok (Some h')
    /\ he_methods h' = MethodList methods'
    /\ list_find (hasMethod methodName) methods'
       = Some (i, mergeMethod m update)
    /\ recordedStatus st' runId methodName = Some (up_status update)
    /\ length methods' = length methods
    /\ (forall j, j <> i -> methods' !! j = methods !! j).
Proof.
  intros Hfound Hms Hm Hup st'.
  assert (list_find (hasMethod methodName)
            (<[i := mergeMethod m update]> methods)
          = Some (i, mergeMethod m update)) as Hm'.
  { apply (list_find_insert_found _ _ _ m); [exact Hm|].
    apply list_find_Some in Hm as (_ & Hname & _).
    unfold hasMethod, mergeMethod in *. cbn. now rewrite Hup. }
  pose proof (updateMethodInHistory_merged now runId methodName update st
                h methods i m Hfound Hms Hm) as Hmerged.
  cbv zeta in Hmerged. fold st' in Hmerged.
  eexists _, (<[i := mergeMethod m update]> methods).
  split; [exact Hmerged|]. split; [reflexivity|]. split; [exact Hm'|].
  split; [|split].
  - unfold recordedStatus. rewrite Hmerged. cbn [he_methods withMethods].
    now rewrite Hm'.
  - apply length_insert.
  - intros j Hj. apply list_lookup_insert_ne. congruence.
Qed.

(** *** The poller writes what it is answered

    The side of the progressive poller: the deadline is tested before the
    request is made, and a response is recorded with the status it
    carries. *)

Import Poller.

Lemma poller_deadline_passed runId t dateNow isoNow method st :
  truthy (hm_fileId method) = true ->
  t <> 0%Z ->
  (MAX_POLL_TIME_MS < dateNow - t)%Z ->
  pollMethodStatus_begin runId (Some t) dateNow isoNow method st
  = TimedOutNow
      (updateMethodInHistory isoNow runId (hm_method method) timeoutUpdate st).
Proof.
  intros Hfile Ht Hlate. unfold pollMethodStatus_begin. rewrite Hfile.
  cbn [negb]. apply Z.eqb_neq in Ht. rewrite Ht.
  apply Z.ltb_lt in Hlate. now rewrite Hlate.
Qed.

Lemma poller_still_pending runId isoNow method status st :
  Benchmark.isPending (fs_status status) = true ->
  pollMethodStatus_resume runId isoNow method (FetchOk status) st
  = {| storeAfter := st; shownStatus := Some (fs_status status);
       nextPoll := true; passagesFetched := false |}.
Proof. intros Hp. unfold pollMethodStatus_resume. now rewrite Hp. Qed.

(** A response with a status that is not a pending one is merged as it is:
    the record of the method takes the status of the response, and no
    further poll is scheduled. *)
Lemma poller_records_the_fetched_status
  runId isoNow method status st h methods i m :
  Benchmark.isPending (fs_status status) = false ->
  getRunById st runId = Ok (Some h) ->
  he_methods h = MethodList methods ->
  list_find (hasMethod (hm_method method)) methods = Some (i, m) ->
  let r := pollMethodStatus_resume runId isoNow method (FetchOk status) st in
  nextPoll r = false
  /\ exists h' methods',
       getRunById (storeAfter r) runId = Ok (Some h')
       /\ he_methods h' = MethodList methods'
       /\ hm_status <$> methods' !! i = Some (fs_status status).
Proof.
  intros Hp Hfound Hms Hm. unfold pollMethodStatus_resume. rewrite Hp.
  cbn [nextPoll storeAfter]. split; [reflexivity|].
  destruct (merged_record isoNow runId (hm_method method)
              (finishedUpdate status) st h methods i m
              Hfound Hms Hm) as (h' & methods' & Hfound' & Hms' & Hi).
  exists h', methods'. rewrite Hi. auto.
Qed.

(** A status request made before the deadline and answered after it: in
    between, a second call for the same method finds the deadline passed
    and writes [timeout]; the answer, [indexing_completed], is then merged
    over it. *)
Example late_response_overwrites_timeout :
  let method := Scenarios.methodWith "basic" indexing_pending in
  let st0 := Scenarios.pollingStore in
  (* first call, 299 s after the polling began: the request goes out *)
  pollMethodStatus_begin "run-1" (Some 1000%Z) 300000%Z
    "2025-01-01T00:04:59.000Z" method st0 = Awaiting
  (* second call, at 302 s: the deadline has passed *)
  /\ exists st1,
       pollMethodStatus_begin "run-1" (Some 1000%Z) 303000%Z
         "2025-01-01T00:05:02.000Z" method st0 = TimedOutNow st1
       /\ recordedStatus st1 "run-1" "basic" = Some timeout
       (* the answer to the first request arrives *)
       /\ recordedStatus
            (storeAfter
               (pollMethodStatus_resume "run-1" "2025-01-01T00:05:03.000Z"
                  method (FetchOk Scenarios.completedResponse) st1))
            "run-1" "basic"
          = Some indexing_completed.
Proof. split; [reflexivity|]. eexists. repeat split. Qed.

(** C3 (the code departs from the specification).  Specified: once the
    recorded status of a method is terminal, no operation overwrites it
    with a different value.  The poller of the detail page does: a method
    of a stored run is pending and has a file,
    and its polling began at [t].  A call of [pollMethodStatus] made before
    the deadline sends its status request.  While the request is in flight
    the effect runs again, after its cleanup, which has deleted the timers:
    it finds no timer for the method and calls [pollMethodStatus] a second
    time; the deadline has passed, and the store records [timeout], a
    terminal status.  When the answer to the first request arrives with a
    status that is not pending, [updateMethodInHistory] merges it and the
    store records the status of the answer, [indexing_completed] for a file
    that was indexed, in place of [timeout]. *)
Theorem C3_late_answer_overwrites_recorded_timeout
  (runId : string) (st : Storage) (h : HistoryEntry)
  (methods : list StoredMethod) (i : nat) (method : StoredMethod)
  (refs : Refs) (t dateNow1 effectNow dateNow2 : Z)
  (isoNow1 isoNow2 isoNow3 : string) (loaded : bool)
  (status : FileStatusResponse) :
  getRunById st runId = Ok (Some h) ->
  he_methods h = MethodList methods ->
  list_find (hasMethod (hm_method method)) methods = Some (i, method) ->
  Benchmark.isPending (hm_status method) = true ->
  truthy (hm_fileId method) = true ->
  inheritedKey (hm_method method) = false ->
  pollStartTimes refs !! hm_method method = Some t ->
  t <> 0%Z ->
  (dateNow1 - t <= MAX_POLL_TIME_MS)%Z ->
  (MAX_POLL_TIME_MS < dateNow2 - t)%Z ->
  Benchmark.isPending (fs_status status) = false ->
  (* the first call: the request goes out *)
  pollMethodStatus_begin runId (pollStartTimes refs !! hm_method method)
    dateNow1 isoNow1 method st = Awaiting
  (* the effect runs again: a second call, which writes the timeout *)
  /\ exists st1,
       effectOnMethod runId effectNow dateNow2 isoNow2 loaded method
         (cleanup refs) st
       = (cleanup refs, Polling (TimedOutNow st1))
       /\ recordedStatus st1 runId (hm_method method) = Some timeout
       /\ isTerminal timeout = true
       (* the answer to the first request arrives *)
       /\ recordedStatus
            (storeAfter
               (pollMethodStatus_resume runId isoNow3 method (FetchOk status)
                  st1))
            runId (hm_method method)
          = Some (fs_status status)
       /\ (fs_status status = indexing_completed ->
           recordedStatus
             (storeAfter
                (pollMethodStatus_resume runId isoNow3 method
                   (FetchOk status) st1))
             runId (hm_method method)
           <> recordedStatus st1 runId (hm_method method)).
Proof.
  intros Hfound Hms Hm Hpending Hfile Hkey Hstart Ht Hearly Hlate Hdone.
  split.
  { unfold pollMethodStatus_begin. rewrite Hfile, Hstart. cbn [negb].
    apply Z.eqb_neq in Ht. rewrite Ht.
    now apply Z.ltb_ge in Hearly as ->. }
  destruct (merge_sets_the_status_of_the_update isoNow2 runId
              (hm_method method) timeoutUpdate st h methods i method
              Hfound Hms Hm eq_refl)
    as (h1 & methods1 & Hfound1 & Hms1 & Hm1 & Hrec1 & _).
  exists (updateMethodInHistory isoNow2 runId (hm_method method)
            timeoutUpdate st).
  assert (recordedStatus
            (storeAfter
               (pollMethodStatus_resume runId isoNow3 method (FetchOk status)
                  (updateMethodInHistory isoNow2 runId (hm_method method)
                     timeoutUpdate st)))
            runId (hm_method method)
          = Some (fs_status status)) as Hrec2.
  { unfold pollMethodStatus_resume. rewrite Hdone. cbn [storeAfter].
    destruct (merge_sets_the_status_of_the_update isoNow3 runId
                (hm_method method) (finishedUpdate status) _ h1 methods1 i _
                Hfound1 Hms1 Hm1 eq_refl)
      as (h2 & methods2 & _ & _ & _ & Hrec & _).
    exact Hrec. }
  split; [|split; [exact Hrec1|split; [reflexivity|split; [exact Hrec2|]]]].
  - unfold effectOnMethod, hasStartTime, hasTimer.
    cbn [cleanup pollStartTimes pollTimers].
    rewrite Hpending, Hfile, Hstart, Hkey. cbn [andb].
    apply Z.eqb_neq in Ht as Ht'. rewrite Ht'. cbn [negb].
    rewrite bool_decide_eq_false_2 by apply not_elem_of_empty.
    cbn [orb]. do 2 f_equal.
    change (pollStartTimes (cleanup refs)) with (pollStartTimes refs).
    rewrite Hstart. now apply poller_deadline_passed.
  - intros Hcompleted. rewrite Hrec2, Hrec1, Hcompleted. discriminate.
Qed.

(** The sequence on the store of the scenario: the polling of [basic] began
    at 1 s; the first call is made at 300 s, the effect runs again at 303 s,
    and the answer says [indexing_completed]. *)
Lemma C3_witness :
  let method := Scenarios.methodWith "basic" indexing_pending in
  let refs := {| pollStartTimes := {[ "basic" := 1000%Z ]};
                 pollTimers := {[ "basic" ]} |} in
  pollMethodStatus_begin "run-1" (pollStartTimes refs !! "basic") 300000%Z
    "2025-01-01T00:04:59.000Z" method Scenarios.pollingStore = Awaiting
  /\ exists st1,
       effectOnMethod "run-1" 303000%Z 303000%Z "2025-01-01T00:05:02.000Z"
         false method (cleanup refs) Scenarios.pollingStore
       = (cleanup refs, Polling (TimedOutNow st1))
       /\ recordedStatus st1 "run-1" "basic" = Some timeout
       /\ isTerminal timeout = true
       /\ recordedStatus
            (storeAfter
               (pollMethodStatus_resume "run-1" "2025-01-01T00:05:03.000Z"
                  method (FetchOk Scenarios.completedResponse) st1))
            "run-1" "basic"
          = Some indexing_completed
       /\ (indexing_completed = indexing_completed ->
           recordedStatus
             (storeAfter
                (pollMethodStatus_resume "run-1" "2025-01-01T00:05:03.000Z"
                   method (FetchOk Scenarios.completedResponse) st1))
             "run-1" "basic"
           <> recordedStatus st1 "run-1" "basic").
Proof.
  exact (C3_late_answer_overwrites_recorded_timeout
           "run-1" Scenarios.pollingStore _ _ 0
           (Scenarios.methodWith "basic" indexing_pending)
           {| pollStartTimes := {[ "basic" := 1000%Z ]};
              pollTimers := {[ "basic" ]} |}
           1000%Z 300000%Z 303000%Z 303000%Z
           "2025-01-01T00:04:59.000Z" "2025-01-01T00:05:02.000Z"
           "2025-01-01T00:05:03.000Z" false Scenarios.completedResponse
           eq_refl eq_refl eq_refl eq_refl eq_refl eq_refl eq_refl
           ltac:(discriminate) ltac:(vm_compute; discriminate)
           ltac:(reflexivity) eq_refl).
Defined.

(** *** completedAt *)

Lemma createPendingEntry_found pe st history :
  getHistory st = JArray history ->
  getRunById (createPendingEntry pe st) (pe_runId pe)
  = Ok (Some (pendingEntry pe)).
Proof.
  intros Hh. unfold createPendingEntry. rewrite Hh. cbn [asArray bind].
  apply getRunById_found. exists 0. rewrite getHistory_commit.
  unfold insertFront, MAX_HISTORY_ITEMS. cbn.
  now rewrite decide_True by reflexivity.
Qed.

Lemma applyMerges_keep_completedAt merges :
  forall st runId h,
    getRunById st runId = Ok (Some h) ->
    he_completedAt h <> "" ->
    exists h',
      getRunById (applyMerges merges st) runId = Ok (Some h')
      /\ he_completedAt h' = he_completedAt h.
Proof.
  induction merges as [|m merges IH]; intros st runId h Hfound Hset; cbn.
  - eauto.
  - destruct (updateMethodInHistory_step (mg_now m) (mg_runId m) (mg_method m)
                (mg_update m) st runId h Hfound)
      as (h1 & Hfound1 & _ & Hcase).
    assert (he_completedAt h1 = he_completedAt h) as Hsame.
    { destruct Hcase as [->|[(_ & ms & i & x & _ & _ & _ & ->)
                            |(_ & b & r & i & x & _ & _ & ->)]];
        [reflexivity| |reflexivity].
      apply truthy_true in Hset. rewrite Hset. now rewrite andb_false_r. }
    destruct (IH _ runId h1 Hfound1) as (h' & Hfound' & Heq);
      [congruence|].
    exists h'. split; [exact Hfound'|congruence].
Qed.

(** C8.  [createPendingEntry] records a run with an empty [completedAt].
    A merge by [updateMethodInHistory] leaves a non-empty [completedAt] of
    any run as it is, and so does any sequence of merges; it leaves an empty
    one empty as long as some method of the run is not terminal after the
    merge; and when it merges into a run whose [completedAt] is empty and
    all methods of the run are terminal after the merge, it sets
    [completedAt] to the current time.  On a store that holds an array
    with a null in it, [createPendingEntry] is thrown a [TypeError] by its
    filter and leaves the store as it is. *)
Theorem C8_completedAt_is_written_once
  (st : Storage) (runId : string) (h : HistoryEntry) :
  getRunById st runId = Ok (Some h) ->
  (* one merge, into any run and method *)
  (forall now r methodName update,
     exists h',
       getRunById (updateMethodInHistory now r methodName update st) runId
       = Ok (Some h')
       /\ (he_completedAt h <> "" -> he_completedAt h' = he_completedAt h)
       /\ (he_completedAt h = "" -> allComplete h' = false ->
           he_completedAt h' = ""))
  (* the merge that completes the run *)
  /\ (forall now methodName update methods i m,
        he_methods h = MethodList methods ->
        list_find (hasMethod methodName) methods = Some (i, m) ->
        exists h',
          getRunById (updateMethodInHistory now runId methodName update st)
            runId = Ok (Some h')
          /\ he_methods h'
             = MethodList (<[i := mergeMethod m update]> methods)
          /\ (he_completedAt h = "" -> allComplete h' = true ->
              he_completedAt h' = now))
  (* any later merges *)
  /\ (he_completedAt h <> "" ->
      forall merges,
        exists h',
          getRunById (applyMerges merges st) runId = Ok (Some h')
          /\ he_completedAt h' = he_completedAt h)
  (* where a pending run starts *)
  /\ (forall pe,
        match getHistory st with
        | JArray _ =>
            exists e,
              getRunById (createPendingEntry pe st) (pe_runId pe)
              = Ok (Some e)
              /\ he_completedAt e = ""
        | JArrayNull _ _ | JOther => createPendingEntry pe st = st
        end).
Proof.
  intros Hfound. split; [|split; [|split]].
  - intros now r methodName update.
    destruct (updateMethodInHistory_step now r methodName update st runId h
                Hfound) as (h' & Hfound' & _ & Hcase).
    exists h'. split; [exact Hfound'|].
    destruct Hcase as [->|[(_ & ms & i & x & _ & _ & _ & Hc)
                          |(_ & b & r' & i & x & _ & _ & ->)]].
    + split; [reflexivity|]. intros Hempty _. exact Hempty.
    + rewrite Hc. split.
      * intros Hset. apply truthy_true in Hset. rewrite Hset.
        now rewrite andb_false_r.
      * intros Hempty ->. cbn. exact Hempty.
    + split; [reflexivity|]. intros Hempty _. exact Hempty.
  - intros now methodName update methods i m Hms Hm.
    eexists. split; [eapply updateMethodInHistory_merged; eauto|].
    split; [reflexivity|].
    intros Hempty Hall. cbn in Hall |- *. rewrite Hall, Hempty. reflexivity.
  - intros Hset merges. now apply applyMerges_keep_completedAt.
  - intros pe. destruct (getHistory st) as [history|before rest|] eqn:Hh.
    + exists (pendingEntry pe). split; [|reflexivity].
      eapply createPendingEntry_found; eauto.
    + unfold createPendingEntry. now rewrite Hh.
    + unfold createPendingEntry. now rewrite Hh.
Qed.

Lemma C8_witness :
  let h := Scenarios.entryWith "run-1" ""
             [Scenarios.methodWith "basic" timeout;
              Scenarios.methodWith "vision" indexing_pending] in
  getRunById Scenarios.timedOutStore "run-1" = Ok (Some h)
  /\ exists h',
       getRunById
         (updateMethodInHistory "2025-01-01T00:05:02.000Z" "run-1" "vision"
            (Scenarios.statusUpdate indexing_failed None)
            Scenarios.timedOutStore) "run-1" = Ok (Some h')
       /\ he_methods h'
          = MethodList
              (<[1 := mergeMethod
                        (Scenarios.methodWith "vision" indexing_pending)
                        (Scenarios.statusUpdate indexing_failed None)]>
                 [Scenarios.methodWith "basic" timeout;
                  Scenarios.methodWith "vision" indexing_pending])
       /\ (he_completedAt h = "" -> allComplete h' = true ->
           he_completedAt h' = "2025-01-01T00:05:02.000Z").
Proof.
  split; [reflexivity|].
  exact (proj1 (proj2 (C8_completedAt_is_written_once
                         Scenarios.timedOutStore "run-1" _ eq_refl))
           "2025-01-01T00:05:02.000Z" "vision"
           (Scenarios.statusUpdate indexing_failed None) _ 1 _
           eq_refl eq_refl).
Defined.

(** The scenario of the report: the last method reaches a terminal status
    and [completedAt] is set; a later merge, at a later time, does not
    change it. *)
Example completedAt_set_then_kept :
  let st1 := updateMethodInHistory "2025-01-01T00:05:02.000Z" "run-1" "vision"
               (Scenarios.statusUpdate indexing_failed None)
               Scenarios.timedOutStore in
  let st2 := updateMethodInHistory "2025-01-01T00:09:00.000Z" "run-1" "basic"
               (Scenarios.statusUpdate indexing_completed (Some 12)) st1 in
  (he_completedAt <$> getRunById_value Scenarios.timedOutStore "run-1")
    = Some ""
  /\ (he_completedAt <$> getRunById_value st1 "run-1")
     = Some "2025-01-01T00:05:02.000Z"
  /\ (he_completedAt <$> getRunById_value st2 "run-1")
     = Some "2025-01-01T00:05:02.000Z".
Proof. vm_compute. repeat split. Qed.

(** ** Excerpts *)

Import AiCompare.

Lemma append_nil (b : string) : "" +:+ b = b.
Proof. reflexivity. Qed.

Lemma append_cons (c : ascii) (a b : string) :
  String c a +:+ b = String c (a +:+ b).
Proof. reflexivity. Qed.

Lemma append_assoc (a b c : string) : (a +:+ b) +:+ c = a +:+ (b +:+ c).
Proof.
  induction a as [|x a IH]; [reflexivity|].
  now rewrite !append_cons, IH.
Qed.

Lemma append_empty_r (a : string) : a +:+ "" = a.
Proof.
  induction a as [|x a IH]; [reflexivity|]. now rewrite append_cons, IH.
Qed.

Lemma length_append (a b : string) :
  String.length (a +:+ b) = String.length a + String.length b.
Proof.
  induction a as [|x a IH]; [reflexivity|].
  rewrite append_cons. cbn. now rewrite IH.
Qed.

(** *** trim removes white space at both ends, and nothing else *)

Lemma trimStart_split s :
  exists pre, s = pre +:+ trimStart s /\ allWhite pre = true.
Proof.
  induction s as [|c s (pre & Hs & Hpre)]; cbn.
  - now exists "".
  - destruct (isWhite c) eqn:Hc.
    + exists (String c pre). split; [now rewrite append_cons, <- Hs|].
      cbn. now rewrite Hc, Hpre.
    + now exists "".
Qed.

Lemma trimEnd_split s :
  exists post, s = trimEnd s +:+ post /\ allWhite post = true.
Proof.
  induction s as [|c s (post & Hs & Hpost)]; cbn.
  - now exists "".
  - destruct (trimEnd s) as [|d r] eqn:Hr.
    + rewrite append_nil in Hs. destruct (isWhite c) eqn:Hc.
      * exists (String c post). split; [now rewrite append_nil, <- Hs|].
        cbn. now rewrite Hc, Hpost.
      * exists post. split; [|exact Hpost].
        now rewrite append_cons, append_nil, <- Hs.
    + exists post. split; [|exact Hpost]. now rewrite append_cons, <- Hs.
Qed.

Lemma trim_split s :
  exists pre post,
    s = pre +:+ trim s +:+ post
    /\ allWhite pre = true /\ allWhite post = true.
Proof.
  destruct (trimStart_split s) as (pre & Hs & Hpre).
  destruct (trimEnd_split (trimStart s)) as (post & Ht & Hpost).
  exists pre, post. unfold trim. now rewrite <- Ht.
Qed.

Lemma length_trim s : String.length (trim s) <= String.length s.
Proof.
  destruct (trim_split s) as (pre & post & Hs & _).
  rewrite Hs at 2. rewrite !length_append. lia.
Qed.

Lemma trimStart_white w : allWhite w = true -> trimStart w = "".
Proof.
  induction w as [|c w IH]; cbn; [reflexivity|].
  intros [-> Hw]%andb_true_iff. auto.
Qed.

Lemma trimEnd_white w : allWhite w = true -> trimEnd w = "".
Proof.
  induction w as [|c w IH]; cbn; [reflexivity|].
  intros [-> Hw]%andb_true_iff. now rewrite IH.
Qed.

Lemma trimEnd_append_white x w :
  allWhite w = true -> trimEnd (x +:+ w) = trimEnd x.
Proof.
  intros Hw. induction x as [|c x IH].
  - rewrite append_nil. now apply trimEnd_white.
  - rewrite append_cons. cbn. now rewrite IH.
Qed.

Lemma trimStart_append_white t w :
  allWhite w = true ->
  trimStart (t +:+ w) = if allWhite t then "" else trimStart t +:+ w.
Proof.
  intros Hw. induction t as [|c t IH].
  - rewrite append_nil. now apply trimStart_white.
  - rewrite append_cons. cbn.
    destruct (isWhite c); cbn; [exact IH|reflexivity].
Qed.

Lemma trim_append_white t w : allWhite w = true -> trim (t +:+ w) = trim t.
Proof.
  intros Hw. unfold trim. rewrite trimStart_append_white by exact Hw.
  destruct (allWhite t) eqn:Ht.
  - now rewrite trimStart_white.
  - now apply trimEnd_append_white.
Qed.

(** *** The loop *)

Lemma paragraphs_snoc passages p :
  paragraphs (passages ++ [p])
  = (paragraphs passages +:+ p_content p) +:+ paragraphBreak.
Proof.
  induction passages as [|q l IH]; cbn [paragraphs app].
  - now rewrite append_nil, append_empty_r.
  - rewrite IH. now rewrite !append_assoc.
Qed.

(** The loop stops at the first passage that does not fit after what is
    already there; what it has added before is whole passages. *)
Lemma excerptLoop_spec passages :
  forall excerpt,
  exists k,
    k <= length passages
    /\ excerptLoop excerpt passages
       = excerpt +:+ paragraphs (take k passages)
    /\ (forall i p, i < k -> passages !! i = Some p ->
          String.length (excerpt +:+ paragraphs (take i passages))
          + String.length (p_content p) <= EXCERPT_CHAR_LIMIT)
    /\ (forall p, passages !! k = Some p ->
          EXCERPT_CHAR_LIMIT
          < String.length (excerpt +:+ paragraphs (take k passages))
            + String.length (p_content p)).
Proof.
  induction passages as [|q rest IH]; intros excerpt.
  - exists 0. cbn. rewrite append_empty_r.
    repeat split; [lia|intros; lia|discriminate].
  - cbn [excerptLoop].
    destruct (Nat.ltb_spec EXCERPT_CHAR_LIMIT
                (String.length excerpt + String.length (p_content q)))
      as [Hover|Hfits].
    + exists 0. cbn. rewrite append_empty_r.
      repeat split; [lia|intros; lia|]. now intros p [= <-].
    + destruct (IH (excerpt +:+ p_content q +:+ paragraphBreak))
        as (k & Hk & Hloop & Hin & Hout).
      assert (forall n,
                (excerpt +:+ p_content q +:+ paragraphBreak)
                +:+ paragraphs (take n rest)
                = excerpt +:+ paragraphs (take (S n) (q :: rest))) as Hshift.
      { intros n. cbn. now rewrite !append_assoc. }
      exists (S k). split; [cbn; lia|]. split; [now rewrite Hloop, Hshift|].
      split.
      * intros [|i] p Hi Hp.
        -- injection Hp as <-. cbn. rewrite append_empty_r. exact Hfits.
        -- rewrite <- Hshift. apply Hin; [lia|exact Hp].
      * intros p Hp. rewrite <- Hshift. now apply Hout.
Qed.

(** C6 (counterexample).  A service that answers the request for 50
    passages with a page of 60: [getExcerpt] reads the 60 and, as they fit
    in the budget, puts all of them into the excerpt. *)
Lemma C6_more_than_50_passages_are_read :
  let passages := map toPassage Scenarios.sixtyPassages in
  getFilePassages Scenarios.generousClient "file-1" 50 = Ok (passages, None)
  /\ length passages = 60
  /\ excerptLoop "" passages = paragraphs passages
  /\ getExcerpt Scenarios.generousClient "file-1" = trim (paragraphs passages)
  /\ String.length (getExcerpt Scenarios.generousClient "file-1") = 178.
Proof. vm_compute. repeat split. Qed.

(** C6 (amended).  [getExcerpt] makes one request for the passages of the
    file, with limit 50, and does not follow its token; it reads every
    passage of the page it is answered, as many as the service put on it.
    It returns the text of a prefix of them, each passage whole and
    followed by a paragraph break, with the white space at both ends
    trimmed (or a placeholder when nothing is left).  Every passage of that
    prefix fitted, with what preceded it, in the budget of 4000 characters;
    the first passage left out did not; the excerpt returned has at most
    4000 characters. *)
Theorem C6_excerpt_is_a_prefix_of_whole_passages
  (client : Client) (fileId : string) (passages : list Passage)
  (nextToken : option string) :
  getFilePassages client fileId 50 = Ok (passages, nextToken) ->
  exists k body,
    k <= length passages
    /\ length passages = firstPageLength (listFilePassages client fileId 50)
    /\ body = paragraphs (take k passages)
    /\ excerptLoop "" passages = body
    /\ getExcerpt client fileId
       = (if truthy (trim body) then trim body else "[No content extracted]")
    /\ (exists pre post,
          body = pre +:+ trim body +:+ post
          /\ allWhite pre = true /\ allWhite post = true)
    /\ (forall i p, i < k -> passages !! i = Some p ->
          String.length (paragraphs (take i passages))
          + String.length (p_content p) <= EXCERPT_CHAR_LIMIT)
    /\ (forall p, passages !! k = Some p ->
          EXCERPT_CHAR_LIMIT
          < String.length body + String.length (p_content p))
    /\ String.length (trim body) <= EXCERPT_CHAR_LIMIT.
Proof.
  intros Hpage.
  destruct (excerptLoop_spec passages "") as (k & Hk & Hloop & Hin & Hout).
  rewrite append_nil in Hloop.
  exists k, (paragraphs (take k passages)).
  split; [exact Hk|]. split.
  { unfold getFilePassages in Hpage.
    destruct (listFilePassages client fileId 50) as [e|ps|ps tok rest];
      [discriminate| |]; injection Hpage as <- _;
      now rewrite length_map. }
  split; [reflexivity|].
  split; [exact Hloop|]. split.
  { unfold getExcerpt. rewrite Hpage. cbn [fst]. now rewrite Hloop. }
  split; [apply trim_split|]. split.
  { intros i p Hi Hp. specialize (Hin i p Hi Hp).
    now rewrite append_nil in Hin. }
  split.
  { intros p Hp. specialize (Hout p Hp). now rewrite append_nil in Hout. }
  destruct k as [|j]; [rewrite take_0; apply Nat.le_0_l|].
  destruct (lookup_lt_is_Some_2 passages j) as [p Hp]; [lia|].
  rewrite (take_S_r _ _ _ Hp), paragraphs_snoc.
  rewrite trim_append_white by reflexivity.
  etransitivity; [apply length_trim|].
  rewrite length_append. specialize (Hin j p (Nat.lt_succ_diag_r j) Hp).
  now rewrite append_nil in Hin.
Qed.

Lemma C6_witness :
  getFilePassages Scenarios.excerptClient "file-1" 50
  = Ok (map toPassage Scenarios.threePassages, None)
  /\ exists k body,
       k <= length (map toPassage Scenarios.threePassages)
       /\ length (map toPassage Scenarios.threePassages)
          = firstPageLength
              (listFilePassages Scenarios.excerptClient "file-1" 50)
       /\ body = paragraphs (take k (map toPassage Scenarios.threePassages))
       /\ excerptLoop "" (map toPassage Scenarios.threePassages) = body
       /\ getExcerpt Scenarios.excerptClient "file-1"
          = (if truthy (trim body) then trim body
             else "[No content extracted]")
       /\ (exists pre post,
             body = pre +:+ trim body +:+ post
             /\ allWhite pre = true /\ allWhite post = true)
       /\ (forall i p, i < k ->
             map toPassage Scenarios.threePassages !! i = Some p ->
             String.length
               (paragraphs (take i (map toPassage Scenarios.threePassages)))
             + String.length (p_content p) <= EXCERPT_CHAR_LIMIT)
       /\ (forall p, map toPassage Scenarios.threePassages !! k = Some p ->
             EXCERPT_CHAR_LIMIT
             < String.length body + String.length (p_content p))
       /\ String.length (trim body) <= EXCERPT_CHAR_LIMIT.
Proof.
  split; [reflexivity|].
  exact (C6_excerpt_is_a_prefix_of_whole_passages Scenarios.excerptClient
           "file-1" (map toPassage Scenarios.threePassages) None eq_refl).
Defined.

(** On that file the excerpt is the first two passages: the third would
    bring the 3999 characters gathered to 4019. *)
Example excerpt_of_three_passages :
  getExcerpt Scenarios.excerptClient "file-1"
  = "Title" +:+ paragraphBreak +:+ Scenarios.filler 3990
  /\ String.length (excerptLoop "" (map toPassage Scenarios.threePassages))
     = 3999.
Proof. vm_compute. split; reflexivity. Qed.

(** ** Parallel search *)

Import SearchRoute.

Lemma searchOne_method search query runId limit method :
  sm_method (searchOne search query runId limit method) = method.
Proof.
  unfold searchOne.
  now destruct (search query runId method limit).
Qed.

(** C7 (counterexample).  With a search that throws [new Error('')] for
    [vision], the entry of [vision] carries an error field that is the empty
    string; and a request whose query is empty is answered with status 400
    and no result entry at all. *)
Lemma C7_error_field_can_be_empty :
  GET (Scenarios.visionFails (ErrorObj "")) (Some "revenue table")
    (Some "run-1") 10
  = Json200 "revenue table"
      [ {| sm_method := "basic";
           sm_passages := [Scenarios.hit "revenue table, basic" "file-basic"];
           sm_error := None |};
        {| sm_method := "vision"; sm_passages := []; sm_error := Some "" |};
        {| sm_method := "landing-ai";
           sm_passages :=
             [Scenarios.hit "revenue table, landing-ai" "file-landing-ai"];
           sm_error := None |} ]
  /\ GET (Scenarios.visionFails (ErrorObj "")) (Some "") (Some "run-1") 10
     = JsonError 400 "Missing query or runId".
Proof. split; reflexivity. Qed.

(** C7 (amended).  For a request with a non-empty query and a non-empty
    runId the response has one result entry per method, three entries in
    the order basic, vision, landing-ai.  The entry of a method whose search
    returned carries the passages returned and no error field.  The entry
    of a method whose search threw carries an empty passages list and an
    error field: the message of the error thrown, or 'Search failed' when
    what was thrown is not an Error; the field is non-empty unless an Error
    with an empty message was thrown.  The entry of a method depends on the
    search of that method alone: it is the same under any other behaviour
    of the searches of the other methods. *)
Theorem C7_each_search_is_caught_on_its_own
  (searchFilesByMethod : string -> string -> string -> Z
                         -> result (list SearchPassage))
  (query runId : string) (limit : Z) :
  truthy query = true ->
  truthy runId = true ->
  exists results,
    GET searchFilesByMethod (Some query) (Some runId) limit
    = Json200 query results
    /\ map sm_method results = ["basic"; "vision"; "landing-ai"]
    /\ length results = 3
    /\ forall i method,
         methods !! i = Some method ->
         exists entry,
           results !! i = Some entry
           /\ sm_method entry = method
           /\ (forall passages,
                 searchFilesByMethod query runId method limit = Ok passages ->
                 sm_passages entry = passages /\ sm_error entry = None)
           /\ (forall e,
                 searchFilesByMethod query runId method limit = Throw e ->
                 sm_passages entry = []
                 /\ exists text,
                      sm_error entry = Some text
                      /\ text = match e with
                                | ErrorObj message => message
                                | NonError _ => "Search failed"
                                end
                      /\ (e <> ErrorObj "" -> text <> ""))
           /\ (forall others,
                 others query runId method limit
                 = searchFilesByMethod query runId method limit ->
                 exists results',
                   GET others (Some query) (Some runId) limit
                   = Json200 query results'
                   /\ results' !! i = Some entry).
Proof.
  intros Hq Hr.
  exists (map (searchOne searchFilesByMethod query runId limit) methods).
  assert (forall search,
            GET search (Some query) (Some runId) limit
            = Json200 query (map (searchOne search query runId limit) methods))
    as Hget.
  { intros search. unfold GET. now rewrite Hq, Hr. }
  split; [apply Hget|]. split.
  { cbn. now rewrite !searchOne_method. }
  split; [reflexivity|].
  intros i method Hi.
  exists (searchOne searchFilesByMethod query runId limit method).
  split; [now rewrite list_lookup_fmap, Hi|].
  split; [apply searchOne_method|]. split; [|split].
  - intros passages Hok. unfold searchOne. now rewrite Hok.
  - intros e He. unfold searchOne. rewrite He. cbn. split; [reflexivity|].
    eexists. split; [reflexivity|]. split; [reflexivity|].
    destruct e as [message|rendered]; [congruence|discriminate].
  - intros others Hsame. eexists. split; [apply Hget|].
    rewrite list_lookup_fmap, Hi. cbn. unfold searchOne. now rewrite Hsame.
Qed.

Lemma C7_witness :
  truthy "revenue table" = true
  /\ truthy "run-1" = true
  /\ exists results,
       GET (Scenarios.visionFails (ErrorObj "index not ready"))
         (Some "revenue table") (Some "run-1") 10
       = Json200 "revenue table" results
       /\ map sm_method results = ["basic"; "vision"; "landing-ai"]
       /\ length results = 3.
Proof.
  split; [reflexivity|]. split; [reflexivity|].
  destruct (C7_each_search_is_caught_on_its_own
              (Scenarios.visionFails (ErrorObj "index not ready"))
              "revenue table" "run-1" 10 eq_refl eq_refl)
    as (results & Hget & Hnames & Hlen & _).
  exists results. auto.
Defined.

(** * Further properties of the code *)

(** ** The router *)

Lemma stripPrefix_Some p :
  forall s rest, Router.stripPrefix p s = Some rest <-> s = p +:+ rest.
Proof.
  induction p as [|a p IH]; intros s rest.
  - rewrite append_nil. simpl. split; [intros [= ->]|intros ->]; reflexivity.
  - rewrite append_cons. destruct s as [|b s]; simpl.
    + split; discriminate.
    + destruct (Ascii.eqb_spec a b) as [->|Hne].
      * rewrite IH. split; [intros -> | intros [= ->]]; reflexivity.
      * split; [discriminate | intros H; congruence].
Qed.

(** X1. [parseRoute] answers the detail page of a run exactly on the path
    the pages navigate to for it, [/runs/<runId>], and only for a run
    identifier that is not empty and holds no slash. *)
Theorem parseRoute_detail_iff (pathname runId : string) :
  Router.parseRoute pathname = Router.Detail runId
  <-> pathname = Router.runPath runId
      /\ runId <> "" /\ Router.hasSlash runId = false.
Proof.
  unfold Router.parseRoute, Router.matchRun, Router.runPath. split.
  - destruct (String.eqb pathname "/" || String.eqb pathname "")%bool;
      [discriminate|].
    destruct (Router.stripPrefix "/runs/" pathname) as [rest|] eqn:Hs;
      [|discriminate].
    destruct (truthy rest) eqn:Ht; simpl; [|discriminate].
    destruct (Router.hasSlash rest) eqn:Hsl; simpl; [discriminate|].
    intros [= <-]. apply stripPrefix_Some in Hs. apply truthy_true in Ht. auto.
  - intros (-> & Hne & Hsl).
    assert (Router.stripPrefix "/runs/" ("/runs/" +:+ runId) = Some runId)
      as Hs by now apply stripPrefix_Some.
    rewrite Hs. apply truthy_true in Hne. rewrite Hne, Hsl.
    rewrite !append_cons. reflexivity.
Qed.

(** ** The client and the health route *)

(** X2. The health route reports [configured] exactly when a first call of
    [getBotpressClient] builds a client; that client is then kept: every
    later call returns it, whatever the environment has become; and a first
    call that fails throws the message naming the two variables. *)
Theorem client_is_built_once_when_configured
  (connect : string -> string -> option string -> Client)
  (env : BotpressClient.Env) :
  ((exists h, Routes.GET_health env = Routes.Json h
              /\ Routes.h_status h = "configured")
   <-> exists client,
         BotpressClient.getBotpressClient connect env None
         = Ok (client, Some client))
  /\ (forall client cache,
        BotpressClient.getBotpressClient connect env None = Ok (client, cache) ->
        forall env',
          BotpressClient.getBotpressClient connect env' cache
          = Ok (client, cache))
  /\ (forall e,
        BotpressClient.getBotpressClient connect env None = Throw e ->
        e = ErrorObj
              "Missing BOTPRESS_TOKEN or BOTPRESS_BOT_ID environment variables"
        /\ exists h, Routes.GET_health env = Routes.Json h
                     /\ Routes.h_status h = "missing_credentials").
Proof.
  unfold BotpressClient.getBotpressClient, Routes.GET_health,
    BotpressClient.hasCredentials.
  destruct env as [token botId apiUrl]. cbn [BotpressClient.BOTPRESS_TOKEN
    BotpressClient.BOTPRESS_BOT_ID BotpressClient.BOTPRESS_API_URL
    BotpressClient.hasBotId BotpressClient.hasToken truthyOpt].
  destruct token as [token|], botId as [botId|]; cbn [truthyOpt];
    try destruct (truthy token); try destruct (truthy botId); cbn;
    (split; [split|split]);
    try (intros (h & [= <-] & Hst); cbn in Hst; discriminate);
    try (intros (client & [=]); fail);
    try (intros client cache [=]; fail);
    try (intros _; eexists; split; reflexivity);
    try (intros _; eexists; reflexivity);
    try (intros e [=]; fail);
    try (intros client cache [= <- <-] env'; reflexivity);
    try (intros e [= <-]; split; [reflexivity|eexists; split; reflexivity]).
Qed.

(** ** beautifyText *)

Lemma occurs_append c a b :
  occurs c (a +:+ b) = (occurs c a || occurs c b)%bool.
Proof.
  induction a as [|d a IH]; [reflexivity|].
  rewrite append_cons. simpl. rewrite IH. now rewrite orb_assoc.
Qed.

Lemma expandTabs_no_tab s : occurs TAB (expandTabs s) = false.
Proof.
  induction s as [|c s IH]; [reflexivity|].
  cbn [expandTabs]. destruct (Ascii.eqb_spec c TAB) as [->|Hne]; cbn [occurs].
  - replace (Ascii.eqb TAB " ") with false by reflexivity. exact IH.
  - destruct (Ascii.eqb_spec TAB c) as [Heq|_]; [now subst|exact IH].
Qed.

Lemma collapseBlankLines_occurs c s :
  forall run, occurs c (collapseBlankLines run s) = true -> occurs c s = true.
Proof.
  induction s as [|d s IH]; intros run; simpl; [auto|].
  destruct (Ascii.eqb d LF); [destruct (Nat.ltb run 2)|]; simpl; intros H.
  - apply orb_true_iff in H as [->|H]; [reflexivity|].
    rewrite (IH _ H). apply orb_true_r.
  - rewrite (IH _ H). apply orb_true_r.
  - apply orb_true_iff in H as [->|H]; [reflexivity|].
    rewrite (IH _ H). apply orb_true_r.
Qed.

Lemma noTripleLF_collapse s :
  forall run, noTripleLF (Nat.min run 2) (collapseBlankLines run s) = true.
Proof.
  induction s as [|c s IH]; intros run; simpl; [reflexivity|].
  destruct (Ascii.eqb c LF) eqn:Hc.
  - destruct (Nat.ltb_spec run 2) as [Hlt|Hge].
    + simpl. rewrite Hc, Nat.min_l by lia.
      assert (Nat.ltb run 2 = true) as -> by (apply Nat.ltb_lt; lia).
      specialize (IH (S run)). rewrite Nat.min_l in IH by lia. exact IH.
    + specialize (IH (S run)). rewrite Nat.min_r in IH by lia.
      rewrite Nat.min_r by lia. exact IH.
  - simpl. rewrite Hc. apply (IH 0).
Qed.

Lemma noTripleLF_mono s :
  forall k k', k' <= k -> noTripleLF k s = true -> noTripleLF k' s = true.
Proof.
  induction s as [|c s IH]; intros k k' Hle; simpl; [auto|].
  destruct (Ascii.eqb c LF); [|auto].
  intros H. apply andb_true_iff in H as [Hk H]. apply Nat.ltb_lt in Hk.
  apply andb_true_iff. split; [apply Nat.ltb_lt; lia|].
  apply (IH (S k)); [lia|exact H].
Qed.

Lemma noTripleLF_suffix a :
  forall k b, noTripleLF k (a +:+ b) = true -> noTripleLF 0 b = true.
Proof.
  induction a as [|c a IH]; intros k b.
  - rewrite append_nil. apply noTripleLF_mono. lia.
  - rewrite append_cons. simpl. destruct (Ascii.eqb c LF).
    + intros H. apply andb_true_iff in H as [_ H]. eapply IH, H.
    + apply IH.
Qed.

Lemma trimStart_head s c rest :
  trimStart s = String c rest -> isWhite c = false.
Proof.
  induction s as [|d s IH]; simpl; [discriminate|].
  destruct (isWhite d) eqn:Hd; [exact IH|]. now intros [= <- _].
Qed.

Lemma trimEnd_head s c rest :
  trimEnd s = String c rest -> exists rest', s = String c rest'.
Proof.
  destruct s as [|d s]; simpl; [discriminate|].
  destruct (trimEnd s); [destruct (isWhite d); [discriminate|]|];
    intros [= -> _]; eauto.
Qed.

Lemma trimEnd_last s :
  forall rest c, trimEnd s = rest +:+ String c "" -> isWhite c = false.
Proof.
  induction s as [|d s IH]; intros rest c; simpl.
  - destruct rest; [rewrite append_nil|rewrite append_cons]; discriminate.
  - destruct (trimEnd s) as [|e t] eqn:Ht.
    + destruct (isWhite d) eqn:Hd.
      * destruct rest; [rewrite append_nil|rewrite append_cons]; discriminate.
      * destruct rest as [|x rest];
          [rewrite append_nil; intros [= <-]; exact Hd|].
        rewrite append_cons. intros [= _ H].
        destruct rest; [rewrite append_nil in H|rewrite append_cons in H];
          discriminate.
    + destruct rest as [|x rest].
      * rewrite append_nil. intros [= _ H].
      * rewrite append_cons. intros [= _ H]. apply (IH rest c). exact H.
Qed.

Lemma isWhite_white c : isWhite c = true <-> white c.
Proof.
  unfold isWhite, white, whiteCodes. cbv zeta.
  rewrite !orb_true_iff, !Nat.eqb_eq, !elem_of_cons, elem_of_nil. tauto.
Qed.

Lemma not_white c : isWhite c = false <-> ~ white c.
Proof.
  rewrite <- isWhite_white. now destruct (isWhite c).
Qed.




(** X3. Whatever the text, [beautifyText] returns a text with no tab, no
    three line feeds in a row, and no white space at its start or at its
    end: none of the code units 9 to 13, 32 and 160. *)
Theorem beautifyText_normal_form (text : string) :
  (forall a b, beautifyText text <> a +:+ String TAB b)
  /\ (forall a b, beautifyText text <> a +:+ threeLF +:+ b)
  /\ (forall c rest,
        beautifyText text = String c rest ->
        ~ nat_of_ascii c ∈ [9; 10; 11; 12; 13; 32; 160])
  /\ (forall rest c,
        beautifyText text = rest +:+ String c "" ->
        ~ nat_of_ascii c ∈ [9; 10; 11; 12; 13; 32; 160])
  /\ cleanEnds (beautifyText text).
Proof.
  assert ((forall c rest,
             beautifyText text = String c rest -> ~ white c)
          /\ (forall rest c,
                beautifyText text = rest +:+ String c "" -> ~ white c))
    as [Hstart Hend].
  { unfold beautifyText. split.
    - intros c rest Heq. unfold trim in Heq.
      apply trimEnd_head in Heq as (rest' & Heq).
      apply trimStart_head in Heq. now apply not_white.
    - intros rest c Heq. unfold trim in Heq. apply trimEnd_last in Heq.
      now apply not_white. }
  split; [|split; [|split; [exact Hstart|split; [exact Hend|now split]]]];
    clear Hstart Hend; unfold beautifyText;
    set (tabsOut := expandTabs (replaceCRLF text));
    set (u := collapseBlankLines 0 tabsOut);
    destruct (trim_split u) as (pre & post & Hu & _ & _).
  - intros a b Heq.
    assert (occurs TAB u = true) as Hocc.
    { rewrite Hu, Heq, !occurs_append. cbn [occurs]. rewrite Ascii.eqb_refl.
      destruct (occurs TAB pre), (occurs TAB a); reflexivity. }
    apply collapseBlankLines_occurs in Hocc.
    unfold tabsOut in Hocc. now rewrite expandTabs_no_tab in Hocc.
  - intros a b Heq.
    pose proof (noTripleLF_collapse tabsOut 0) as Hno. fold u in Hno.
    rewrite Hu, Heq in Hno. apply noTripleLF_suffix in Hno.
    rewrite append_assoc in Hno. apply noTripleLF_suffix in Hno.
    unfold threeLF in Hno. rewrite !append_cons in Hno. discriminate.
Qed.











(** ** getAllPassages *)

Lemma collectPages_acc l :
  forall acc,
    collectPages l acc
    = bind (collectPages l []) (fun later => Ok (acc ++ later)).
Proof.
  induction l as [e|ps|ps nextToken rest IH]; intros acc; simpl.
  - reflexivity.
  - reflexivity.
  - destruct (truthy nextToken); [|reflexivity].
    rewrite IH, (IH (map toPassage ps)).
    destruct (collectPages rest []) as [later|e]; simpl; [|reflexivity].
    now rewrite app_assoc.
Qed.

Lemma collectPages_pagesRead l :
  collectPages l []
  = match readFailure l with
    | Some e => Throw e
    | None => Ok (map toPassage (concat (pagesRead l)))
    end.
Proof.
  induction l as [e|ps|ps nextToken rest IH]; simpl.
  - reflexivity.
  - now rewrite app_nil_r.
  - destruct (truthy nextToken); simpl; [|now rewrite app_nil_r].
    rewrite collectPages_acc, IH.
    destruct (readFailure rest); simpl; [reflexivity|].
    now rewrite map_app.
Qed.

(** X4. [getAllPassages] follows the tokens of the listing: it returns the
    passages of every page up to the first one that carries no token, in the
    order of the pages, or throws what a page threw, nothing of the earlier
    pages being returned then.  The page [getFilePassages] returns for the
    same limit is the start of that list, and the whole of it when the page
    carries no token. *)
Theorem getAllPassages_reads_every_page (client : Client) (fileId : string) :
  let listing := listFilePassages client fileId 200 in
  getAllPassages client fileId
  = match readFailure listing with
    | Some e => Throw e
    | None => Ok (map toPassage (concat (pagesRead listing)))
    end
  /\ (forall page nextToken passages,
        getFilePassages client fileId 200 = Ok (page, nextToken) ->
        getAllPassages client fileId = Ok passages ->
        (exists later, passages = page ++ later)
        /\ (truthyOpt nextToken = false -> passages = page))
  /\ (forall e, getFilePassages client fileId 200 = Throw e ->
        getAllPassages client fileId = Throw e).
Proof.
  cbv zeta. unfold getAllPassages, getFilePassages.
  rewrite collectPages_pagesRead.
  destruct (listFilePassages client fileId 200) as [e|ps|ps tok rest];
    simpl; (split; [reflexivity|split]).
  - discriminate.
  - now intros e' [= <-].
  - intros page nextToken passages [= <- <-] [= <-].
    rewrite app_nil_r. split; [exists []|]; now rewrite ?app_nil_r.
  - discriminate.
  - intros page nextToken passages [= <- <-].
    destruct (truthy tok) eqn:Htok; simpl.
    + destruct (readFailure rest); [discriminate|]. intros [= <-].
      rewrite map_app. split; [eauto|]. rewrite Htok. discriminate.
    + intros [= <-]. rewrite app_nil_r.
      split; [exists []|]; now rewrite ?app_nil_r.
  - discriminate.
Qed.

(** ** The breakdown by type, subtype and page *)

Lemma size_list_to_set_le (l : list Z) :
  size (list_to_set l : gset Z) <= length l.
Proof.
  induction l as [|x l IH]; cbn [list_to_set length].
  - pose proof (size_empty (C := gset Z)) as H. rewrite H. lia.
  - rewrite size_union_alt, size_singleton.
    pose proof (subseteq_size (list_to_set l ∖ {[x]}) (list_to_set l : gset Z))
      as Hsub.
    specialize (Hsub (subseteq_difference_l _ _ _ (reflexivity _))).
    lia.
Qed.

Lemma length_pageNumbers passages :
  length (pageNumbers passages) <= length passages.
Proof.
  unfold pageNumbers.
  induction passages as [|p passages IH]; cbn [omap list_omap length]; [lia|].
  destruct (pm_pageNumber (p_meta p)); cbn [length]; lia.
Qed.

(** X5. In the breakdown computed from a list of passages, [byType] holds
    under a key what a plain object counting the passages of that type
    comes to hold: nothing when no passage has the type, when the type is
    the empty string, or when it is [__proto__]; the number of these
    passages under an ordinary key; and, under a name that every object
    inherits ([constructor], [toString], ...), no number but a text, one
    character longer for each of these passages.  The same for
    [bySubtype].  [pageCount] is the number of distinct page numbers the
    passages carry, hence at most the number of passages. *)
Theorem breakdown_counts_passages (passages : list Passage) (k : string) :
  let ofType := length (filter (typed k) passages) in
  let ofSubtype := length (filter (subtyped k) passages) in
  byType (computeBreakdown passages) !! k
  = (if (String.eqb k "" || String.eqb k "__proto__")%bool then None
     else match ofType with
          | O => None
          | S _ => Some (if bool_decide (k ∈ prototypeNames)
                         then InheritedText ofType else Number ofType)
          end)
  /\ bySubtype (computeBreakdown passages) !! k
     = (if (String.eqb k "" || String.eqb k "__proto__")%bool then None
        else match ofSubtype with
             | O => None
             | S _ => Some (if bool_decide (k ∈ prototypeNames)
                            then InheritedText ofSubtype
                            else Number ofSubtype)
             end)
  /\ pageCount (computeBreakdown passages)
     = size (list_to_set (pageNumbers passages) : gset Z)
  /\ pageCount (computeBreakdown passages) <= length passages.
Proof.
  cbv zeta.
  destruct (computeBreakdown_tallied passages k) as (-> & -> & ->).
  unfold tallied. repeat split.
  pose proof (size_list_to_set_le (pageNumbers passages)).
  pose proof (length_pageNumbers passages). lia.
Qed.

(** ** The result of benchmarkMethod *)

Lemma substring_prefix n :
  forall s,
    exists rest,
      s = substring 0 n s +:+ rest
      /\ String.length (substring 0 n s) = Nat.min n (String.length s).
Proof.
  induction n as [|n IH]; intros s.
  - exists s. destruct s; simpl; auto.
  - destruct s as [|c s]; cbn [substring String.length].
    + exists "". auto.
    + destruct (IH s) as (rest & Hs & Hl). exists rest.
      rewrite append_cons. split; [congruence|]. rewrite Hl. reflexivity.
Qed.

(** X6. The sample text of a result of [benchmarkMethod] has at most 2000
    characters.  It is empty unless the status is [indexing_completed], and
    is then the start of the first three passages joined by a rule; it is
    cut only when that text is longer than 2000 characters. *)
Theorem sampleText_is_a_bounded_prefix
  (client : Client) (rt : Runtime) (method : MethodConfig) :
  let r := benchmarkMethod client rt method in
  String.length (mr_sampleText r) <= 2000
  /\ (mr_status r <> indexing_completed -> mr_sampleText r = "")
  /\ (mr_status r = indexing_completed ->
        exists passages rest,
          getAllPassages client (mr_fileId r) = Ok passages
          /\ String.concat sampleSeparator (map p_content (take 3 passages))
             = mr_sampleText r +:+ rest
          /\ (rest <> "" -> String.length (mr_sampleText r) = 2000)).
Proof.
  cbv zeta.
  destruct (benchmarkMethod_outcome client rt method)
    as [e He|file f a Hf Hp Hcap|file f a Hf Hp Hcap Hfail
        |file f a ps Hf Hp Hcap Hfail Hps];
    cbn [mr_sampleText mr_status mr_fileId blankResult completedResult].
  - repeat split; [apply Nat.le_0_l|discriminate].
  - repeat split; [apply Nat.le_0_l|discriminate].
  - repeat split; [apply Nat.le_0_l|].
    intros Hst. apply isFailure_status in Hfail as [Hs|Hs];
      rewrite Hs in Hst; discriminate.
  - unfold computeSampleText, sliceTo.
    destruct (substring_prefix 2000
                (String.concat sampleSeparator (map p_content (take 3 ps))))
      as (rest & Hs & Hl).
    split; [rewrite Hl; apply Nat.le_min_l|].
    split; [intros Hst; now contradiction Hst|].
    intros _. exists ps, rest. split; [exact Hps|]. split; [exact Hs|].
    intros Hrest. rewrite Hl. apply Nat.min_l.
    apply (f_equal String.length) in Hs. rewrite length_append, Hl in Hs.
    destruct rest as [|c rest]; [now contradiction Hrest|].
    cbn [String.length] in Hs.
    destruct (Nat.le_gt_cases 2000
                (String.length
                   (String.concat sampleSeparator
                      (map p_content (take 3 ps))))) as [Hle|Hgt];
      [exact Hle|].
    rewrite Nat.min_r in Hs by (apply Nat.lt_le_incl, Hgt).
    exfalso. revert Hs. generalize (String.length
      (String.concat sampleSeparator (map p_content (take 3 ps)))).
    intros n Hn. apply (Nat.lt_irrefl n). rewrite Hn at 2.
    apply Nat.lt_add_pos_r, Nat.lt_0_succ.
Qed.

Lemma benchmarkMethod_terminal client rt method :
  isTerminal (mr_status (benchmarkMethod client rt method)) = true.
Proof.
  destruct (benchmarkMethod_outcome client rt method)
    as [e He|file f a Hf Hp Hcap|file f a Hf Hp Hcap Hfail
        |file f a ps Hf Hp Hcap Hfail Hps];
    cbn [mr_status blankResult completedResult]; try reflexivity.
  apply isFailure_status in Hfail as [Hs|Hs]; now rewrite Hs.
Qed.

Lemma benchmarkMethod_method client rt method :
  mr_method (benchmarkMethod client rt method) = mc_name method.
Proof.
  now destruct (benchmarkMethod_outcome client rt method).
Qed.

(** X7. Whatever the service does, the status of a result of
    [benchmarkMethod] is one of the four terminal ones, never a pending one;
    the result has no [failedReason] exactly when the status is
    [indexing_completed]; it names the method it was asked for, and its
    [fileId] is the one of the file registered for it, or empty. *)
Theorem benchmarkMethod_ends_in_a_terminal_status
  (client : Client) (rt : Runtime) (method : MethodConfig) :
  let r := benchmarkMethod client rt method in
  isTerminal (mr_status r) = true
  /\ isPending (mr_status r) = false
  /\ (mr_failedReason r = None <-> mr_status r = indexing_completed)
  /\ mr_method r = mc_name method
  /\ mr_label r = mc_label method
  /\ mr_processingTimeMs r = (endTime rt - startTime rt)%Z
  /\ (mr_fileId r = ""
      \/ exists file,
           upsertFile client (mc_name method) = Ok file
           /\ mr_fileId r = rf_id file).
Proof.
  cbv zeta.
  destruct (benchmarkMethod_outcome client rt method)
    as [e He|file f a Hf Hp Hcap|file f a Hf Hp Hcap Hfail
        |file f a ps Hf Hp Hcap Hfail Hps];
    cbn [mr_status mr_failedReason mr_method mr_label mr_fileId
         mr_processingTimeMs blankResult completedResult].
  - repeat split; try discriminate; auto.
  - repeat split; try discriminate; eauto.
  - apply isFailure_status in Hfail as [Hs|Hs]; rewrite Hs;
      repeat split; try discriminate; eauto.
  - repeat split; eauto.
Qed.

(** ** The status route and getFileStatus *)

(** X8. With the credentials set, the status route answers with the status
    of the service as it is.  Its answer has a [failedReason] exactly on the
    two failure statuses: the reason of the service, or [Unknown error]
    when the service gives none or an empty one.  It has a processing time
    exactly when the status is [indexing_completed] and a non-empty
    [startedAt] was sent: the time elapsed since [startedAt], or [NaN]
    (which the JSON of the answer renders as null) when [startedAt] is no
    date.  It has a passage count exactly when the status is
    [indexing_completed], the number of passages of the file.  It answers
    500, with the message of the error, exactly when the request for the
    file throws or the passages of a completed file cannot be listed. *)
Theorem status_route_answers (client : Client) (poll : nat) (now : Z)
  (timeOf : string -> option Z) (fileId : string)
  (startedAt : option string) :
  match Routes.GET_status (Ok client) poll now timeOf fileId startedAt with
  | Routes.Json r =>
      exists fileData,
        getFile client fileId poll = Ok fileData
        /\ fs_fileId r = fileId
        /\ fs_status r = rf_status fileData
        /\ (is_Some (fs_failedReason r) <-> isFailure (fs_status r) = true)
        /\ fs_failedReason r
           = (if (String.eqb (rf_status fileData) indexing_failed
                  || String.eqb (rf_status fileData) upload_failed)%bool
              then Some match rf_failedStatusReason fileData with
                        | Some reason =>
                            if String.eqb reason "" then "Unknown error"
                            else reason
                        | None => "Unknown error"
                        end
              else None)
        /\ (is_Some (fs_processingTimeMs r)
            <-> fs_status r = indexing_completed
                /\ truthyOpt startedAt = true)
        /\ fs_processingTimeMs r
           = (if String.eqb (rf_status fileData) indexing_completed
              then match startedAt with
                   | Some s =>
                       if String.eqb s "" then None
                       else Some match timeOf s with
                                 | Some started => Millis (now - started)
                                 | None => NaN
                                 end
                   | None => None
                   end
              else None)
        /\ (if String.eqb (rf_status fileData) indexing_completed
            then exists passages,
                   getAllPassages client fileId = Ok passages
                   /\ fs_passageCount r = Some (length passages)
            else fs_passageCount r = None)
  | Routes.JsonError status error =>
      status = 500
      /\ exists e,
           error = match e with
                   | ErrorObj message => message
                   | NonError _ => "Failed to get status"
                   end
           /\ (getFile client fileId poll = Throw e
               \/ exists fileData,
                    getFile client fileId poll = Ok fileData
                    /\ rf_status fileData = indexing_completed
                    /\ getAllPassages client fileId = Throw e)
  end.
Proof.
  unfold Routes.GET_status, getFileStatus. cbn [bind].
  destruct (getFile client fileId poll) as [fileData|e]; cbn [bind];
    [|cbn; split; [reflexivity|]; exists e; split; [now destruct e|auto]].
  assert ((if (String.eqb (rf_status fileData) indexing_failed
               || String.eqb (rf_status fileData) upload_failed)%bool
           then Some (orElse (rf_failedStatusReason fileData) "Unknown error")
           else None)
          = (if (String.eqb (rf_status fileData) indexing_failed
                 || String.eqb (rf_status fileData) upload_failed)%bool
             then Some match rf_failedStatusReason fileData with
                       | Some reason =>
                           if String.eqb reason "" then "Unknown error"
                           else reason
                       | None => "Unknown error"
                       end
             else None)) as Hreason.
  { destruct (_ || _)%bool; [|reflexivity]. f_equal. unfold orElse, truthy.
    destruct (rf_failedStatusReason fileData) as [reason|]; [|reflexivity].
    now destruct (String.eqb reason ""). }
  assert (is_Some
            (if (String.eqb (rf_status fileData) indexing_failed
                 || String.eqb (rf_status fileData) upload_failed)%bool
             then Some (orElse (rf_failedStatusReason fileData)
                          "Unknown error")
             else None)
          <-> isFailure (rf_status fileData) = true) as Hsome.
  { unfold isFailure. destruct (_ || _)%bool; split; eauto;
      try discriminate. intros [? ?]. discriminate. }
  assert (match startedAt with
          | Some s =>
              if truthy s
              then Some match timeOf s with
                        | Some started => Millis (now - started)
                        | None => NaN
                        end
              else None
          | None => None
          end
          = match startedAt with
            | Some s =>
                if String.eqb s "" then None
                else Some match timeOf s with
                          | Some started => Millis (now - started)
                          | None => NaN
                          end
            | None => None
            end) as Htime.
  { destruct startedAt as [s|]; [|reflexivity]. unfold truthy.
    now destruct (String.eqb s ""). }
  assert (match startedAt with
          | Some s => if truthy s then Some s else None
          | None => None
          end = (if truthyOpt startedAt then startedAt else None)) as Hparam.
  { destruct startedAt as [s|]; [|reflexivity]. cbn.
    now destruct (truthy s). }
  destruct (String.eqb (rf_status fileData) indexing_completed) eqn:Heq.
  - apply String.eqb_eq in Heq as Hc.
    destruct (getAllPassages client fileId) as [passages|e] eqn:Hps;
      cbn [bind Routes.orStatus500].
    + exists fileData.
      cbn [fs_fileId fs_status fs_failedReason fs_processingTimeMs
           fs_passageCount]. rewrite Heq.
      split; [reflexivity|]. split; [reflexivity|]. split; [reflexivity|].
      split; [exact Hsome|]. split; [exact Hreason|].
      split; [|split; [|eauto]].
      * destruct startedAt as [s|]; cbn.
        -- destruct (truthy s) eqn:Hs; cbn; rewrite ?Hs.
           ++ split; eauto.
           ++ split; [intros [? ?]; discriminate|intros [_ ?]; discriminate].
        -- split; [intros [? ?]; discriminate|intros [_ ?]; discriminate].
      * destruct startedAt as [s|]; cbn; [|reflexivity].
        unfold truthy. destruct (String.eqb s "") eqn:Hs; cbn;
          rewrite ?Hs; reflexivity.
    + split; [reflexivity|]. exists e. split; [now destruct e|].
      right. eauto.
  - apply String.eqb_neq in Heq as Hc.
    cbn [bind Routes.orStatus500]. exists fileData.
    cbn [fs_fileId fs_status fs_failedReason fs_processingTimeMs
         fs_passageCount]. rewrite Heq.
    split; [reflexivity|]. split; [reflexivity|]. split; [reflexivity|].
    split; [exact Hsome|]. split; [exact Hreason|].
    split; [|split; reflexivity].
    split; [intros [? ?]; discriminate|intros [? _]; contradiction].
Qed.

(** ** Starting one method *)

Lemma method_names methodName :
  methodName ∈ map mc_name METHODS ->
  exists method,
    method ∈ METHODS /\ mc_name method = methodName
    /\ getMethodConfig methodName = Some method.
Proof.
  cbn [map METHODS mc_name]. rewrite !elem_of_cons, elem_of_nil.
  intros [->|[->|[->|[]]]].
  - exists {| mc_name := "basic"; mc_label := "Basic"; mc_config := "{}" |}.
    repeat split. unfold METHODS. rewrite !elem_of_cons. auto.
  - exists {| mc_name := "vision"; mc_label := "Vision";
              mc_config := "{vision:{transcribePages:true}}" |}.
    repeat split. unfold METHODS. rewrite !elem_of_cons. auto.
  - exists {| mc_name := "landing-ai"; mc_label := "Landing AI";
              mc_config := "{parsing:{mode:'agent'}}" |}.
    repeat split. unfold METHODS. rewrite !elem_of_cons. auto.
Qed.

Lemma startMethod_steps client rt isoNow method :
  getMethodConfig (mc_name method) = Some method ->
  startMethod (Ok client) rt isoNow (mc_name method)
  = bind (upsertFile client (mc_name method)) (fun file =>
      bind (match rf_uploadUrl file with
            | Some u =>
                if truthy u then Ok u
                else Throw (ErrorObj "No uploadUrl returned from upsertFile")
            | None => Throw (ErrorObj "No uploadUrl returned from upsertFile")
            end) (fun uploadUrl =>
        bind (fetchPut rt uploadUrl) (fun _ =>
          Ok {| st_fileId := rf_id file;
                st_method := mc_name method;
                st_label := mc_label method;
                st_startedAt := isoNow |}))).
Proof. intros Hm. unfold startMethod. cbn [bind]. now rewrite Hm. Qed.

(** X9. The start route answers 400 for a method name that is not one of the
    three configured ones, and 400 for a configured one when the form has
    no file.  Otherwise [startMethod] is run: when the form can be read,
    the credentials are set, the service registers the file with an upload
    address and the upload succeeds, the route answers 200 with the method
    asked for, the time of the call and the file the service registered;
    and it answers 500, with the message of what was thrown, when the
    form, the client, the registration or the upload throws, or when the
    service gave no upload address. *)
Theorem start_route_answers (getBotpressClient : result Client)
  (rt : Runtime) (isoNow methodName : string)
  (formData : result (option Routes.Upload)) :
  match Routes.POST_start getBotpressClient rt isoNow methodName formData with
  | Routes.Json r =>
      methodName ∈ ["basic"; "vision"; "landing-ai"]
      /\ st_method r = methodName
      /\ st_startedAt r = isoNow
      /\ exists client upload file u,
           getBotpressClient = Ok client
           /\ formData = Ok (Some upload)
           /\ upsertFile client methodName = Ok file
           /\ rf_uploadUrl file = Some u
           /\ u <> ""
           /\ fetchPut rt u = Ok tt
           /\ st_fileId r = rf_id file
  | Routes.JsonError status error =>
      (status = 400
       /\ ~ methodName ∈ ["basic"; "vision"; "landing-ai"]
       /\ error = "Invalid method: " +:+ methodName
                  +:+ ". Valid methods: basic, vision, landing-ai")
      \/ (status = 400
          /\ methodName ∈ ["basic"; "vision"; "landing-ai"]
          /\ formData = Ok None /\ error = "No file provided")
      \/ (status = 500
          /\ methodName ∈ ["basic"; "vision"; "landing-ai"]
          /\ exists e,
               error = match e with
                       | ErrorObj message => message
                       | NonError _ => "Failed to start method"
                       end
               /\ (formData = Throw e
                   \/ exists upload,
                        formData = Ok (Some upload)
                        /\ (getBotpressClient = Throw e
                            \/ exists client,
                                 getBotpressClient = Ok client
                                 /\ (upsertFile client methodName = Throw e
                                     \/ exists file,
                                          upsertFile client methodName = Ok file
                                          /\ ((truthyOpt (rf_uploadUrl file)
                                               = false
                                               /\ e = ErrorObj
                                                   "No uploadUrl returned from upsertFile")
                                              \/ exists u,
                                                   rf_uploadUrl file = Some u
                                                   /\ u <> ""
                                                   /\ fetchPut rt u
                                                      = Throw e)))))
  end.
Proof.
  unfold Routes.POST_start.
  destruct (decide (methodName ∈ map mc_name METHODS)) as [Hin|Hnin].
  - rewrite bool_decide_eq_true_2 by exact Hin. cbn [negb].
    assert (methodName ∈ ["basic"; "vision"; "landing-ai"]) as Hin'
      by exact Hin.
    destruct (method_names _ Hin) as (method & Hm & <- & Hcfg).
    destruct formData as [[upload|]|e]; cbn [bind Routes.orStatus500].
    + destruct getBotpressClient as [client|e].
      * rewrite startMethod_steps by exact Hcfg.
        destruct (upsertFile client (mc_name method)) as [file|e] eqn:Hup;
          cbn [bind Routes.orStatus500].
        -- destruct (rf_uploadUrl file) as [u|] eqn:Hurl.
           ++ destruct (truthy u) eqn:Hu; cbn [bind Routes.orStatus500].
              ** apply truthy_true in Hu as Hne.
                 destruct (fetchPut rt u) as [[]|e] eqn:Hput;
                   cbn [bind Routes.orStatus500].
                 --- split; [exact Hin'|]. split; [reflexivity|].
                     split; [reflexivity|].
                     exists client, upload, file, u. auto 8.
                 --- right; right. split; [reflexivity|].
                     split; [exact Hin'|]. exists e.
                     split; [now destruct e|]. right. exists upload.
                     split; [reflexivity|]. right. exists client.
                     split; [reflexivity|]. right. exists file.
                     split; [exact Hup|]. right. exists u. auto.
              ** right; right. split; [reflexivity|].
                 split; [exact Hin'|].
                 exists (ErrorObj "No uploadUrl returned from upsertFile").
                 split; [reflexivity|]. right. exists upload.
                 split; [reflexivity|]. right. exists client.
                 split; [reflexivity|]. right. exists file.
                 split; [exact Hup|]. left. rewrite Hurl. cbn. auto.
           ++ right; right. split; [reflexivity|].
              split; [exact Hin'|].
              exists (ErrorObj "No uploadUrl returned from upsertFile").
              split; [reflexivity|]. right. exists upload.
              split; [reflexivity|]. right. exists client.
              split; [reflexivity|]. right. exists file.
              split; [exact Hup|]. left. rewrite Hurl. cbn. auto.
        -- right; right. split; [reflexivity|].
           split; [exact Hin'|]. exists e.
           split; [now destruct e|]. right. exists upload.
           split; [reflexivity|]. right. exists client. auto.
      * right; right. split; [reflexivity|].
        split; [exact Hin'|]. exists e.
        split; [now destruct e|]. right. exists upload. auto.
    + right; left. auto.
    + right; right. split; [reflexivity|].
      split; [exact Hin'|]. exists e. split; [now destruct e|]. auto.
  - rewrite bool_decide_eq_false_2 by exact Hnin. cbn [negb Routes.orStatus500].
    left. repeat split. exact Hnin.
Qed.

Lemma getMethodConfig_configured method :
  method ∈ METHODS -> getMethodConfig (mc_name method) = Some method.
Proof.
  unfold METHODS. rewrite !elem_of_cons, elem_of_nil.
  intros [->|[->|[->|[]]]]; reflexivity.
Qed.

(** X10. For a configured method, [startMethod] and [benchmarkMethod] take
    the same first steps, the registration of the file and the upload.  On
    the same answers of the service to these two steps, what [startMethod]
    throws, [benchmarkMethod] catches and reports as [indexing_failed] with
    that message and no file; and when [startMethod] returns, its answer
    names the method, its label and the time of the call, and the file it
    names is the one [benchmarkMethod] reports, unless a later step of
    [benchmarkMethod] threw. *)
Theorem startMethod_throws_what_benchmarkMethod_catches
  (client : Client) (rt : Runtime) (isoNow : string) (method : MethodConfig) :
  method ∈ METHODS ->
  match startMethod (Ok client) rt isoNow (mc_name method) with
  | Throw e =>
      benchmarkMethod client rt method
      = blankResult method "" indexing_failed
          match e with
          | ErrorObj message => message
          | NonError rendered => rendered
          end
          (endTime rt - startTime rt)%Z
  | Ok r =>
      st_method r = mc_name method
      /\ st_label r = mc_label method
      /\ st_startedAt r = isoNow
      /\ (mr_fileId (benchmarkMethod client rt method) = st_fileId r
          \/ (mr_fileId (benchmarkMethod client rt method) = ""
              /\ mr_status (benchmarkMethod client rt method)
                 = indexing_failed))
  end.
Proof.
  intros Hm. rewrite startMethod_steps by now apply getMethodConfig_configured.
  assert (forall e,
            benchmarkMethodTry client rt method = Throw e ->
            benchmarkMethod client rt method
            = blankResult method "" indexing_failed
                match e with
                | ErrorObj message => message
                | NonError rendered => rendered
                end
                (endTime rt - startTime rt)%Z) as benchmarkMethod_caught'.
  { intros e He. rewrite (benchmarkMethod_caught _ _ _ _ He). now destruct e. }
  destruct (upsertFile client (mc_name method)) as [file|e] eqn:Hup;
    cbn [bind].
  - destruct (rf_uploadUrl file) as [u|] eqn:Hurl.
    + destruct (truthy u) eqn:Hu; cbn [bind].
      * destruct (fetchPut rt u) as [[]|e] eqn:Hput; cbn [bind].
        -- cbn [st_method st_label st_startedAt st_fileId].
           repeat split.
           destruct (benchmarkMethod_outcome client rt method)
             as [e He|file' f a Hf Hp Hcap|file' f a Hf Hp Hcap Hfail
                 |file' f a ps Hf Hp Hcap Hfail Hps];
             cbn [mr_fileId mr_status blankResult completedResult];
             [right; auto| | |];
             left; rewrite Hup in Hf; now injection Hf as <-.
        -- apply benchmarkMethod_caught'. unfold benchmarkMethodTry.
           rewrite Hup. cbn [bind]. rewrite Hurl, Hu. cbn [bind].
           now rewrite Hput.
      * apply (benchmarkMethod_caught'
                 (ErrorObj "No uploadUrl returned from upsertFile")).
        unfold benchmarkMethodTry.
        rewrite Hup. cbn [bind]. now rewrite Hurl, Hu.
    + apply (benchmarkMethod_caught'
               (ErrorObj "No uploadUrl returned from upsertFile")).
      unfold benchmarkMethodTry.
      rewrite Hup. cbn [bind]. now rewrite Hurl.
  - apply benchmarkMethod_caught'. unfold benchmarkMethodTry. now rewrite Hup.
Qed.

Lemma startMethod_throws_what_benchmarkMethod_catches_witness :
  Scenarios.basic ∈ METHODS
  /\ match startMethod (Ok Scenarios.refusingClient) Scenarios.quietRuntime
           "2025-02-01T00:00:00.000Z" (mc_name Scenarios.basic) with
     | Throw e =>
         benchmarkMethod Scenarios.refusingClient Scenarios.quietRuntime
           Scenarios.basic
         = blankResult Scenarios.basic "" indexing_failed
             match e with
             | ErrorObj message => message
             | NonError rendered => rendered
             end
             (endTime Scenarios.quietRuntime
              - startTime Scenarios.quietRuntime)%Z
     | Ok r =>
         st_method r = mc_name Scenarios.basic
         /\ st_label r = mc_label Scenarios.basic
         /\ st_startedAt r = "2025-02-01T00:00:00.000Z"
         /\ (mr_fileId (benchmarkMethod Scenarios.refusingClient
                          Scenarios.quietRuntime Scenarios.basic)
             = st_fileId r
             \/ (mr_fileId (benchmarkMethod Scenarios.refusingClient
                              Scenarios.quietRuntime Scenarios.basic) = ""
                 /\ mr_status (benchmarkMethod Scenarios.refusingClient
                                 Scenarios.quietRuntime Scenarios.basic)
                    = indexing_failed))
     end.
Proof.
  assert (Scenarios.basic ∈ METHODS) as Hm
    by (unfold METHODS, Scenarios.basic; rewrite !elem_of_cons; auto).
  split; [exact Hm|].
  exact (startMethod_throws_what_benchmarkMethod_catches
           Scenarios.refusingClient Scenarios.quietRuntime
           "2025-02-01T00:00:00.000Z" Scenarios.basic Hm).
Defined.

(** ** The benchmark route *)

(** X11. The benchmark route answers 400 exactly when the form has no file,
    and 500, with the message of the error, exactly when the form cannot be
    read or, the form having a file, the credentials are missing.
    Otherwise it answers 200 whatever the service does: the run has one
    result for each of the three methods, in their order, each in a
    terminal status; it carries the name and the size of the file, and as
    its content type the type of the file, or [application/octet-stream]
    when the file has none. *)
Theorem benchmark_route_answers (getBotpressClient : result Client)
  (runtimeOf : string -> Runtime) (runId startedAt completedAt : string)
  (formData : result (option Routes.Upload)) :
  match Routes.POST_benchmark getBotpressClient runtimeOf runId startedAt
          completedAt formData with
  | Routes.Json run =>
      exists client upload,
        getBotpressClient = Ok client
        /\ formData = Ok (Some upload)
        /\ br_runId run = runId
        /\ map mr_method (br_methods run) = ["basic"; "vision"; "landing-ai"]
        /\ Forall (fun m => isTerminal (mr_status m) = true) (br_methods run)
        /\ of_name (br_originalFile run) = Routes.fl_name upload
        /\ of_size (br_originalFile run) = Routes.fl_byteLength upload
        /\ of_contentType (br_originalFile run) <> ""
        /\ of_contentType (br_originalFile run)
           = (if String.eqb (Routes.fl_type upload) ""
              then "application/octet-stream" else Routes.fl_type upload)
  | Routes.JsonError status error =>
      (status = 400 /\ error = "No file provided" /\ formData = Ok None)
      \/ (status = 500
          /\ exists e,
               error = match e with
                       | ErrorObj message => message
                       | NonError _ => "Benchmark failed"
                       end
               /\ (formData = Throw e
                   \/ exists upload,
                        formData = Ok (Some upload)
                        /\ getBotpressClient = Throw e))
  end.
Proof.
  unfold Routes.POST_benchmark, runBenchmark.
  destruct formData as [[upload|]|e]; cbn [bind Routes.orStatus500].
  - destruct getBotpressClient as [client|e]; cbn [bind Routes.orStatus500].
    + exists client, upload.
      cbn [br_runId br_methods br_originalFile of_name of_size of_contentType].
      split; [reflexivity|]. split; [reflexivity|]. split; [reflexivity|].
      split; [|split; [|split; [reflexivity|split; [reflexivity|split]]]].
      * unfold METHODS. cbn [map]. now rewrite !benchmarkMethod_method.
      * unfold METHODS. cbn [map]. repeat constructor;
          apply benchmarkMethod_terminal.
      * unfold Routes.contentTypeOf.
        destruct (truthy (Routes.fl_type upload)) eqn:Ht;
          [now apply truthy_true|discriminate].
      * unfold Routes.contentTypeOf, truthy.
        now destruct (String.eqb (Routes.fl_type upload) "").
    + right. split; [reflexivity|]. exists e. split; [now destruct e|]. eauto.
  - left. auto.
  - right. split; [reflexivity|]. exists e. split; [now destruct e|]. auto.
Qed.

(** ** The history store: lookups after a write *)

Lemma find_cons {A} (P : A -> Prop) `{!forall x, Decision (P x)} x l :
  snd <$> list_find P (x :: l)
  = if decide (P x) then Some x else snd <$> list_find P l.
Proof.
  cbn [list_find]. destruct (decide (P x)); [reflexivity|].
  now destruct (list_find P l) as [[]|].
Qed.

Lemma find_filter {A} (P Q : A -> Prop) `{!forall x, Decision (P x)}
  `{!forall x, Decision (Q x)} (l : list A) :
  (forall x, P x -> Q x) ->
  snd <$> list_find P (filter Q l) = snd <$> list_find P l.
Proof.
  intros HPQ. induction l as [|x l IH]; [reflexivity|].
  rewrite filter_cons. destruct (decide (Q x)) as [HQ|HQ].
  - rewrite !find_cons. now destruct (decide (P x)).
  - rewrite find_cons, decide_False by auto. exact IH.
Qed.

Lemma find_app_skip {A} (P : A -> Prop) `{!forall x, Decision (P x)}
  (l1 l2 : list A) :
  Forall (fun x => ~ P x) l1 ->
  snd <$> list_find P (l1 ++ l2) = snd <$> list_find P l2.
Proof.
  induction 1 as [|x l1 Hx _ IH]; [reflexivity|].
  cbn [app]. now rewrite find_cons, decide_False.
Qed.

Lemma find_insert_irrelevant {A} (P : A -> Prop) `{!forall x, Decision (P x)}
  (l : list A) :
  forall i x x',
    l !! i = Some x -> ~ P x -> ~ P x' ->
    list_find P (<[i := x']> l) = list_find P l.
Proof.
  induction l as [|y l IH]; intros i x x' Hi Hx Hx'; [reflexivity|].
  destruct i as [|i]; cbn in Hi |- *.
  - injection Hi as ->. now rewrite !decide_False.
  - destruct (decide (P y)); [reflexivity|].
    f_equal. exact (IH i x x' Hi Hx Hx').
Qed.

Lemma alter_insert_found {A} (f : A -> A) (l : list A) i x :
  l !! i = Some x -> alter f i l = <[i := f x]> l.
Proof.
  intros Hi. apply list_eq. intros j. destruct (decide (i = j)) as [<-|Hne].
  - rewrite list_lookup_alter_eq, Hi, list_lookup_insert_eq;
      [reflexivity|now apply lookup_lt_Some in Hi].
  - now rewrite list_lookup_alter_ne, list_lookup_insert_ne.
Qed.

Lemma getRunById_stored history runId :
  getRunById (Some (TextOf (JArray history))) runId
  = Ok (snd <$> list_find (hasRunId runId) history).
Proof. reflexivity. Qed.

Lemma insert_stored op st history :
  getHistory st = JArray history ->
  insert op st
  = Some (TextOf (JArray
      (insertFront (insertedRunId op) (insertedEntry op) history))).
Proof.
  intros Hh.
  destruct op; cbn [insert insertedRunId insertedEntry];
    unfold addToHistory, createPendingEntry; now rewrite Hh.
Qed.

(** X12. After a run is inserted into a history that is below its cap, the
    run is found under its identifier, and every other identifier is looked
    up as before the insertion. *)
Theorem insert_then_lookup (op : Insert) (st : Storage)
  (history : list HistoryEntry) (other : string) :
  getHistory st = JArray history ->
  length history < MAX_HISTORY_ITEMS ->
  other <> insertedRunId op ->
  getRunById (insert op st) (insertedRunId op) = Ok (Some (insertedEntry op))
  /\ getRunById (insert op st) other = getRunById st other.
Proof.
  intros Hh Hlen Hother.
  assert (he_runId (insertedEntry op) = Some (insertedRunId op)) as Hid
    by now destruct op.
  rewrite (insert_stored _ _ _ Hh), !getRunById_stored.
  unfold insertFront. rewrite take_ge.
  2:{ cbn [length].
      pose proof (length_filter
                    (fun h => ~ hasRunId (insertedRunId op) h) history).
      unfold MAX_HISTORY_ITEMS in *. lia. }
  rewrite !find_cons. split.
  - now rewrite decide_True.
  - rewrite decide_False by (unfold hasRunId; congruence).
    rewrite find_filter by (unfold hasRunId; congruence).
    unfold getRunById. now rewrite Hh.
Qed.

Lemma insert_then_lookup_witness :
  getHistory Scenarios.timedOutStore
  = JArray [Scenarios.entryWith "run-1" ""
              [Scenarios.methodWith "basic" timeout;
               Scenarios.methodWith "vision" indexing_pending]]
  /\ getRunById (insert (AddToHistory Scenarios.newRun) Scenarios.timedOutStore)
       (insertedRunId (AddToHistory Scenarios.newRun))
     = Ok (Some (insertedEntry (AddToHistory Scenarios.newRun)))
  /\ getRunById (insert (AddToHistory Scenarios.newRun) Scenarios.timedOutStore)
       "run-1"
     = getRunById Scenarios.timedOutStore "run-1".
Proof.
  split; [reflexivity|].
  refine (insert_then_lookup (AddToHistory Scenarios.newRun)
            Scenarios.timedOutStore _ "run-1" eq_refl _ _).
  - unfold MAX_HISTORY_ITEMS. cbn [length]. lia.
  - discriminate.
Defined.

Lemma alterAt_replaceAt f index v h :
  reachable v !! index = Some h -> alterAt f index v = replaceAt index (f h) v.
Proof.
  intros Hi. destruct v as [entries|before rest|]; cbn in *;
    [| |reflexivity]; now rewrite (alter_insert_found _ _ _ _ Hi).
Qed.

Lemma findRun_replaceAt_other other index h h' v :
  reachable v !! index = Some h ->
  ~ hasRunId other h -> ~ hasRunId other h' ->
  findRun other (replaceAt index h' v) = findRun other v.
Proof.
  intros Hi Hh Hh'. destruct v as [entries|before rest|]; cbn in *;
    [| |reflexivity];
    now rewrite (find_insert_irrelevant (hasRunId other) _ index h h' Hi).
Qed.

(** The comparison attached to an entry. *)
Lemma attached_comparison runId ai st index h :
  list_find (hasRunId runId) (reachable (getHistory st)) = Some (index, h) ->
  let h' := {| he_runId := he_runId h;
               he_startedAt := he_startedAt h;
               he_completedAt := he_completedAt h;
               he_originalFile := he_originalFile h;
               he_methods := he_methods h;
               he_aiComparison := Some ai |} in
  let st' := updateHistoryWithAiComparison runId ai st in
  getHistory st' = replaceAt index h' (getHistory st)
  /\ map he_runId (<[index := h']> (reachable (getHistory st)))
     = map he_runId (reachable (getHistory st))
  /\ getRunById st' runId = Ok (Some h')
  /\ (forall other, other <> runId ->
        getRunById st' other = getRunById st other).
Proof.
  intros Hfind h' st'.
  apply list_find_Some in Hfind as Hspec. destruct Hspec as (Hi & Hh & _).
  assert (getHistory st' = replaceAt index h' (getHistory st)) as Hst'.
  { unfold st', updateHistoryWithAiComparison.
    apply findRun_Some in Hfind as ->.
    now rewrite getHistory_stringify, (alterAt_replaceAt _ _ _ _ Hi). }
  split; [exact Hst'|]. split.
  { change (map he_runId) with (fmap (M := list) he_runId).
    rewrite list_fmap_insert. apply list_insert_id.
    now rewrite list_lookup_fmap, Hi. }
  split.
  - apply getRunById_found. exists index.
    rewrite Hst', reachable_replaceAt.
    rewrite (list_find_replace runId _ index h h' Hi eq_refl _ _ Hfind).
    now rewrite decide_True.
  - intros other Hother. unfold getRunById. rewrite Hst'.
    rewrite (findRun_replaceAt_other other index h h' _ Hi);
      [reflexivity| |]; unfold hasRunId in *; cbn; congruence.
Qed.

(** X13. [updateHistoryWithAiComparison] attaches the comparison to the run
    of that identifier and changes nothing else: the run keeps its other
    fields, the history keeps its runs in their order, and every other run
    is looked up as before.  When no run has the identifier, or the stored
    value is no list, the store is left as it is.  On a stored array with a
    null in it, the same holds of the entries before the null when the run
    is among them, and the store is left as it is when it is not. *)
Theorem ai_comparison_is_attached_to_its_run
  (runId : string) (ai : AiComparisonResult) (st : Storage) :
  let st' := updateHistoryWithAiComparison runId ai st in
  match getHistory st with
  | JOther => st' = st
  | JArray history =>
      match getRunById st runId with
      | Ok (Some h) =>
          exists history' h',
            getHistory st' = JArray history'
            /\ map he_runId history' = map he_runId history
            /\ getRunById st' runId = Ok (Some h')
            /\ he_aiComparison h' = Some ai
            /\ he_runId h' = he_runId h
            /\ he_startedAt h' = he_startedAt h
            /\ he_completedAt h' = he_completedAt h
            /\ he_originalFile h' = he_originalFile h
            /\ he_methods h' = he_methods h
            /\ (forall other, other <> runId ->
                  getRunById st' other = getRunById st other)
      | _ => st' = st
      end
  | JArrayNull before rest =>
      match getRunById st runId with
      | Ok (Some h) =>
          exists before' h',
            getHistory st' = JArrayNull before' rest
            /\ map he_runId before' = map he_runId before
            /\ getRunById st' runId = Ok (Some h')
            /\ he_aiComparison h' = Some ai
            /\ he_runId h' = he_runId h
            /\ he_startedAt h' = he_startedAt h
            /\ he_completedAt h' = he_completedAt h
            /\ he_originalFile h' = he_originalFile h
            /\ he_methods h' = he_methods h
            /\ (forall other, other <> runId ->
                  getRunById st' other = getRunById st other)
      | _ => st' = st
      end
  end.
Proof.
  cbv zeta.
  destruct (getHistory st) as [history|before rest|] eqn:Hst.
  - destruct (getRunById st runId) as [[h|]|e] eqn:Hfound.
    + apply getRunById_found in Hfound as (index & Hfind).
      destruct (attached_comparison runId ai st index h Hfind)
        as (Hst' & Hids & Hrun & Hothers).
      rewrite Hst in Hst', Hids. cbn in Hst', Hids.
      eexists _, _. split; [exact Hst'|]. split; [exact Hids|].
      split; [exact Hrun|]. repeat split. exact Hothers.
    + unfold getRunById in Hfound. unfold updateHistoryWithAiComparison.
      destruct (findRun runId (getHistory st)) as [[[index h]|]|e];
        [discriminate|reflexivity|reflexivity].
    + unfold getRunById in Hfound. unfold updateHistoryWithAiComparison.
      destruct (findRun runId (getHistory st)) as [[[index h]|]|e'];
        [discriminate|reflexivity|reflexivity].
  - destruct (getRunById st runId) as [[h|]|e] eqn:Hfound.
    + apply getRunById_found in Hfound as (index & Hfind).
      destruct (attached_comparison runId ai st index h Hfind)
        as (Hst' & Hids & Hrun & Hothers).
      rewrite Hst in Hst', Hids. cbn in Hst', Hids.
      eexists _, _. split; [exact Hst'|]. split; [exact Hids|].
      split; [exact Hrun|]. repeat split. exact Hothers.
    + unfold getRunById in Hfound. unfold updateHistoryWithAiComparison.
      destruct (findRun runId (getHistory st)) as [[[index h]|]|e];
        [discriminate|reflexivity|reflexivity].
    + unfold getRunById in Hfound. unfold updateHistoryWithAiComparison.
      destruct (findRun runId (getHistory st)) as [[[index h]|]|e'];
        [discriminate|reflexivity|reflexivity].
  - unfold updateHistoryWithAiComparison. now rewrite Hst.
Qed.

(** ** The history store: export, clear and import *)

Lemma filter_all {A} (P : A -> Prop) `{!forall x, Decision (P x)}
  (l : list A) :
  Forall P l -> filter P l = l.
Proof.
  induction 1 as [|x l Hx _ IH]; [reflexivity|].
  now rewrite filter_cons, decide_True, IH.
Qed.

(** X14. A history that was exported is restored by an import into the
    cleared store when each of its entries has a non-empty runId, an
    original file and a list of methods: the store then holds its first 25
    entries, all of them when it was within the cap.  When an entry lacks
    one of the three, or the stored value was no list, the import returns
    false and the store stays empty. *)
Theorem export_clear_import (st : Storage) :
  let restored := importHistory (exportHistory st) (clearHistory st) in
  match getHistory st with
  | JArray history =>
      if forallb validEntry history
      then restored
           = (true, Some (TextOf (JArray (take MAX_HISTORY_ITEMS history))))
           /\ (length history <= MAX_HISTORY_ITEMS ->
               getHistory (snd restored) = getHistory st)
      else restored = (false, None)
  | JArrayNull _ _ | JOther => restored = (false, None)
  end.
Proof.
  cbv zeta. unfold exportHistory, clearHistory, JSON_stringify.
  destruct (getHistory st) as [history|before rest|] eqn:Hh;
    [|reflexivity|reflexivity].
  destruct (forallb validEntry history) eqn:Hvalid.
  - rewrite (importHistory_valid history None [] Hvalid eq_refl).
    cbn [map list_to_set]. rewrite app_nil_r.
    rewrite filter_all.
    + split; [reflexivity|]. intros Hlen. cbn [snd].
      rewrite getHistory_stored. now rewrite take_ge.
    + apply Forall_forall. intros h _. apply not_elem_of_empty.
  - unfold importHistory, JSON_stringify. cbn [JSON_parse bind].
    now rewrite Hvalid.
Qed.

Lemma imported_ids_known parsed existing :
  filter (fun h => he_runId h ∉
            (list_to_set
               (map he_runId
                  (filter (fun h => he_runId h ∉
                             (list_to_set (map he_runId existing)
                                : gset (option string))) parsed
                   ++ existing)) : gset (option string)))
         parsed = [].
Proof.
  apply filter_none. apply Forall_forall. intros h Hin Hnot. apply Hnot.
  apply elem_of_list_to_set.
  change (map he_runId) with (fmap (M := list) he_runId).
  rewrite fmap_app, elem_of_app, !list_elem_of_fmap.
  destruct (decide (he_runId h ∈
              (list_to_set (map he_runId existing) : gset (option string))))
    as [Hex|Hnew].
  - right. apply elem_of_list_to_set in Hex.
    now apply list_elem_of_fmap in Hex.
  - left. exists h. split; [reflexivity|].
    apply list_elem_of_filter. auto.
Qed.

(** X15. An import into a store that has room for all of the file merges
    the two histories with the stored runs winning: every run found before
    the import is found unchanged after it, every imported entry whose runId
    was not in the store is added, and a second import of the same file
    changes nothing. *)
Theorem import_keeps_the_stored_runs
  (parsed existing : list HistoryEntry) (st : Storage) :
  getHistory st = JArray existing ->
  forallb validEntry parsed = true ->
  length parsed + length existing <= MAX_HISTORY_ITEMS ->
  let st' := snd (importHistory (TextOf (JArray parsed)) st) in
  fst (importHistory (TextOf (JArray parsed)) st) = true
  /\ (forall runId h,
        getRunById st runId = Ok (Some h) ->
        getRunById st' runId = Ok (Some h))
  /\ (exists history',
        getHistory st' = JArray history'
        /\ (forall h, h ∈ existing -> h ∈ history')
        /\ (forall h, h ∈ parsed -> he_runId h ∉ map he_runId existing ->
              h ∈ history')
        /\ (forall h, h ∈ history' -> h ∈ parsed \/ h ∈ existing))
  /\ importHistory (TextOf (JArray parsed)) st' = (true, st').
Proof.
  intros Hh Hvalid Hlen. cbv zeta.
  rewrite (importHistory_valid parsed st existing Hvalid Hh). cbn [fst snd].
  set (ids := list_to_set (map he_runId existing) : gset (option string)).
  set (new := filter (fun h => he_runId h ∉ ids) parsed).
  assert (length new <= length parsed) as Hnew by apply length_filter.
  rewrite take_ge by (rewrite length_app; lia).
  split; [reflexivity|]. split; [|split].
  - intros runId h Hfound. rewrite getRunById_stored.
    unfold getRunById in Hfound. rewrite Hh in Hfound. cbn in Hfound.
    rewrite find_app_skip; [exact Hfound|].
    apply Forall_forall. intros x Hx Hid.
    apply list_elem_of_filter in Hx as [Hx _]. apply Hx.
    unfold ids. apply elem_of_list_to_set.
    injection Hfound as Hfound.
    destruct (list_find (hasRunId runId) existing) as [[k y]|] eqn:Hk;
      [|discriminate].
    apply list_find_Some in Hk as (Hk & Hy & _).
    apply list_elem_of_lookup_2 in Hk.
    unfold hasRunId in Hid, Hy. rewrite Hid, <- Hy.
    change (map he_runId) with (fmap (M := list) he_runId).
    now apply list_elem_of_fmap_2.
  - exists (new ++ existing). split; [reflexivity|].
    split; [|split].
    + intros h Hin. apply elem_of_app. now right.
    + intros h Hin Hid. apply elem_of_app. left.
      apply list_elem_of_filter. split; [|exact Hin].
      unfold ids. now rewrite elem_of_list_to_set.
    + intros h Hin. apply elem_of_app in Hin as [Hin|Hin]; [|now right].
      apply list_elem_of_filter in Hin as [_ Hin]. now left.
  - rewrite (importHistory_valid parsed
               (Some (TextOf (JArray (new ++ existing)))) (new ++ existing)
               Hvalid eq_refl).
    unfold new, ids. rewrite imported_ids_known. cbn [app].
    rewrite take_ge; [reflexivity|].
    rewrite length_app. fold ids. fold new. lia.
Qed.

Lemma import_keeps_the_stored_runs_witness :
  let parsed := [Scenarios.finishedEntry 0] in
  let st := Scenarios.timedOutStore in
  let st' := snd (importHistory (TextOf (JArray parsed)) st) in
  fst (importHistory (TextOf (JArray parsed)) st) = true
  /\ (forall runId h,
        getRunById st runId = Ok (Some h) ->
        getRunById st' runId = Ok (Some h))
  /\ (exists history',
        getHistory st' = JArray history'
        /\ (forall h,
              h ∈ [Scenarios.entryWith "run-1" ""
                     [Scenarios.methodWith "basic" timeout;
                      Scenarios.methodWith "vision" indexing_pending]] ->
              h ∈ history')
        /\ (forall h, h ∈ parsed ->
              he_runId h ∉
                map he_runId
                  [Scenarios.entryWith "run-1" ""
                     [Scenarios.methodWith "basic" timeout;
                      Scenarios.methodWith "vision" indexing_pending]] ->
              h ∈ history')
        /\ (forall h, h ∈ history' ->
              h ∈ parsed
              \/ h ∈ [Scenarios.entryWith "run-1" ""
                        [Scenarios.methodWith "basic" timeout;
                         Scenarios.methodWith "vision" indexing_pending]]))
  /\ importHistory (TextOf (JArray parsed)) st' = (true, st').
Proof.
  refine (import_keeps_the_stored_runs [Scenarios.finishedEntry 0] _
            Scenarios.timedOutStore eq_refl eq_refl _).
  unfold MAX_HISTORY_ITEMS. cbn [length]. lia.
Defined.

(** ** The history store: what every operation keeps *)

Lemma complete_valid h : validEntry h = true -> complete h.
Proof.
  unfold validEntry, complete. rewrite !andb_true_iff, !bool_decide_eq_true.
  intros [[Hid Hfile] Hmethods]. repeat split; auto.
  destruct (he_runId h); [eauto|discriminate].
Qed.

Lemma mapResult_cases {A B} (f : A -> result B) (l : list A) :
  match mapResult f l with
  | Ok ys => Forall2 (fun x y => f x = Ok y) l ys
  | Throw _ => Exists (fun x => exists e, f x = Throw e) l
  end.
Proof.
  induction l as [|x l IH]; cbn [mapResult]; [constructor|].
  destruct (f x) as [y|e] eqn:Hx; cbn [bind].
  - destruct (mapResult f l) as [ys|e']; cbn [bind].
    + now constructor.
    + now apply Exists_cons_tl.
  - apply Exists_cons_hd. eauto.
Qed.

Lemma mapResult_thrown {A B} (f : A -> result B) (l : list A) e0 :
  (forall x e, f x = Throw e -> e = e0) ->
  forall e, mapResult f l = Throw e -> e = e0.
Proof.
  intros Hf. induction l as [|x l IH]; intros e; cbn [mapResult];
    [discriminate|].
  destruct (f x) as [y|e1] eqn:Hx; cbn [bind].
  - destruct (mapResult f l) as [ys|e2]; cbn [bind]; [discriminate|].
    intros [= <-]. now apply IH.
  - intros [= <-]. eauto.
Qed.

Lemma summarize_thrown h e :
  summarize h = Throw e ->
  e = ErrorObj "TypeError" /\ (he_originalFile h = None \/ ~ listed h).
Proof.
  unfold summarize, listed.
  destruct (he_originalFile h) as [file|]; cbn.
  - destruct (he_methods h) as [|methods|before rest]; cbn;
      intros [= <-]; (split; [reflexivity|right; intros [ms Hms]; discriminate]).
  - intros [= <-]. auto.
Qed.

(** A property of the entries that every write keeps. *)
Section Kept.

Variable P : HistoryEntry -> Prop.
Variable allowed : Operation -> Prop.

Hypothesis P_result : forall r, P (entryOfResult r).
Hypothesis P_pending : forall entry, P (pendingEntry entry).
Hypothesis P_merged : forall now methodName update h h',
  mergeIntoEntry now methodName update h = Ok (Some h') -> P h -> P h'.
Hypothesis P_attached : forall h ai,
  P h ->
  P {| he_runId := he_runId h;
       he_startedAt := he_startedAt h;
       he_completedAt := he_completedAt h;
       he_originalFile := he_originalFile h;
       he_methods := he_methods h;
       he_aiComparison := Some ai |}.
Hypothesis P_imported : forall parsed,
  allowed (OpImport (TextOf (JArray parsed))) ->
  forallb validEntry parsed = true -> Forall P parsed.

Lemma kept_insertFront runId entry history :
  P entry -> Forall P history -> Forall P (insertFront runId entry history).
Proof.
  intros He Hall. unfold insertFront. apply Forall_take.
  constructor; [exact He|].
  apply Forall_forall. intros h Hin.
  apply list_elem_of_filter in Hin as [_ Hin].
  now apply (proj1 (Forall_forall _ _) Hall).
Qed.

Lemma kept_perform st op history :
  getHistory st = JArray history ->
  length history <= MAX_HISTORY_ITEMS ->
  Forall P history ->
  allowed op ->
  exists history',
    getHistory (perform st op) = JArray history'
    /\ length history' <= MAX_HISTORY_ITEMS
    /\ Forall P history'.
Proof.
  intros Hh Hlen Hall Hop.
  destruct op as [r|entry|now runId methodName update|runId ai|json|];
    cbn [perform].
  - unfold addToHistory. rewrite Hh. cbn [asArray bind commit].
    eexists. split; [reflexivity|]. split; [apply length_insertFront|].
    now apply kept_insertFront.
  - unfold createPendingEntry. rewrite Hh. cbn [asArray bind commit].
    eexists. split; [reflexivity|]. split; [apply length_insertFront|].
    now apply kept_insertFront.
  - destruct (updateMethodInHistory_cases now runId methodName update st)
      as [->|(index & h & h' & Hrun & Hmerge & ->)]; [eauto|].
    rewrite getHistory_stringify, Hh. cbn [replaceAt].
    rewrite Hh in Hrun. cbn [findRun] in Hrun. injection Hrun as Hrun.
    apply list_find_Some in Hrun as (Hi & _ & _).
    eexists. split; [reflexivity|].
    split; [now rewrite length_insert|].
    apply Forall_insert; [exact Hall|].
    eapply P_merged; [exact Hmerge|].
    exact (Forall_lookup_1 _ _ _ _ Hall Hi).
  - unfold updateHistoryWithAiComparison. rewrite Hh. cbn [findRun].
    destruct (list_find (hasRunId runId) history) as [[index h]|] eqn:Hfind;
      [|eauto].
    apply list_find_Some in Hfind as (Hi & _ & _).
    rewrite getHistory_stringify. cbn [alterAt].
    rewrite (alter_insert_found _ _ _ _ Hi).
    eexists. split; [reflexivity|].
    split; [now rewrite length_insert|].
    apply Forall_insert; [exact Hall|]. apply P_attached.
    exact (Forall_lookup_1 _ _ _ _ Hall Hi).
  - unfold importHistory.
    destruct json as [| |[parsed|before rest|]]; cbn [JSON_parse bind snd];
      try (now exists history).
    destruct (forallb validEntry parsed) eqn:Hvalid; cbn [bind snd];
      [|now exists history].
    rewrite Hh. cbn [asArray bind snd].
    eexists. split; [reflexivity|].
    split; [rewrite length_take; unfold MAX_HISTORY_ITEMS; lia|].
    apply Forall_take, Forall_app. split; [|exact Hall].
    apply Forall_forall. intros h Hin.
    apply list_elem_of_filter in Hin as [_ Hin].
    exact (proj1 (Forall_forall _ _) (P_imported parsed Hop Hvalid) h Hin).
  - exists []. repeat split; [cbn; lia|constructor].
Qed.

Lemma kept_performAll ops :
  forall st history,
    getHistory st = JArray history ->
    length history <= MAX_HISTORY_ITEMS ->
    Forall P history ->
    Forall allowed ops ->
    exists history',
      getHistory (performAll ops st) = JArray history'
      /\ length history' <= MAX_HISTORY_ITEMS
      /\ Forall P history'.
Proof.
  unfold performAll.
  induction ops as [|op ops IH]; intros st history Hh Hlen Hall Hops;
    [eauto|].
  cbn [fold_left]. apply Forall_cons in Hops as [Hop Hops].
  destruct (kept_perform st op history Hh Hlen Hall Hop)
    as (history1 & Hh1 & Hlen1 & Hall1).
  exact (IH _ history1 Hh1 Hlen1 Hall1 Hops).
Qed.

End Kept.

Lemma complete_merged now methodName update h h' :
  mergeIntoEntry now methodName update h = Ok (Some h') ->
  complete h -> complete h'.
Proof.
  intros Hmerge (Hid & Hfile & _).
  apply mergeIntoEntry_Some in Hmerge
    as (_ & [(ms & i & m & _ & _ & ->)|(b & r & i & m & _ & _ & _ & ->)]);
    now repeat split.
Qed.

Lemma listed_merged now methodName update h h' :
  mergeIntoEntry now methodName update h = Ok (Some h') ->
  listed h -> listed h'.
Proof.
  intros Hmerge [methods Hms].
  apply mergeIntoEntry_Some in Hmerge
    as (_ & [(ms & i & m & _ & _ & ->)|(b & r & i & m & Hnull & _)]).
  - now eexists.
  - congruence.
Qed.

Lemma wellFormed_performAll ops st :
  wellFormed st -> wellFormed (performAll ops st).
Proof.
  intros (history & Hh & Hlen & Hall).
  assert (forall r, complete (entryOfResult r)) as Hresult
    by (intros r; repeat split; cbn; eauto).
  assert (forall entry, complete (pendingEntry entry)) as Hpending
    by (intros entry; repeat split; cbn; eauto).
  assert (forall h ai,
            complete h ->
            complete {| he_runId := he_runId h;
                        he_startedAt := he_startedAt h;
                        he_completedAt := he_completedAt h;
                        he_originalFile := he_originalFile h;
                        he_methods := he_methods h;
                        he_aiComparison := Some ai |}) as Hattached
    by (intros h ai (Hid & Hfile & Hms); now repeat split).
  assert (forall parsed,
            True -> forallb validEntry parsed = true ->
            Forall complete parsed) as Himported.
  { intros parsed _ Hvalid. apply forallb_Forall in Hvalid.
    eapply Forall_impl; [exact Hvalid|]. apply complete_valid. }
  apply (kept_performAll complete (fun _ => True) Hresult Hpending
           complete_merged Hattached Himported ops st history Hh Hlen Hall).
  apply Forall_forall. auto.
Qed.

Lemma listed_performAll ops :
  Forall listedOp ops ->
  exists history,
    getHistory (performAll ops None) = JArray history
    /\ Forall listed history.
Proof.
  intros Hops.
  assert (forall r, listed (entryOfResult r)) as Hresult
    by (intros r; now eexists).
  assert (forall entry, listed (pendingEntry entry)) as Hpending
    by (intros entry; now eexists).
  assert (forall h ai,
            listed h ->
            listed {| he_runId := he_runId h;
                      he_startedAt := he_startedAt h;
                      he_completedAt := he_completedAt h;
                      he_originalFile := he_originalFile h;
                      he_methods := he_methods h;
                      he_aiComparison := Some ai |}) as Hattached
    by (intros h ai [methods Hms]; now exists methods).
  assert (forall parsed,
            listedOp (OpImport (TextOf (JArray parsed))) ->
            forallb validEntry parsed = true ->
            Forall listed parsed) as Himported by (intros parsed H _; exact H).
  destruct (kept_performAll listed listedOp Hresult Hpending listed_merged
              Hattached Himported ops None [] eq_refl) as (history & Hh & _ & Hall);
    [cbn; lia|constructor|exact Hops|eauto].
Qed.

(** A file whose only entry has a [methods] array that holds a null passes
    the validation of [importHistory]; after the import
    [getHistorySummaries] throws, and [getRunById] still answers. *)
Example imported_null_method_breaks_the_summaries :
  let entry := {| he_runId := Some "run-9";
                  he_startedAt := "2025-03-01T00:00:00.000Z";
                  he_completedAt := "";
                  he_originalFile := Some Scenarios.someFile;
                  he_methods := MethodListNull [] [];
                  he_aiComparison := None |} in
  let st := perform None (OpImport (TextOf (JArray [entry]))) in
  importHistory (TextOf (JArray [entry])) None
  = (true, Some (TextOf (JArray [entry])))
  /\ getHistorySummaries st = Throw (ErrorObj "TypeError")
  /\ getRunById st "run-9" = Ok (Some entry).
Proof. vm_compute. repeat split. Qed.

(** X16. Whatever sequence of writes is made from an empty store (runs added,
    pending runs created, methods and comparisons merged, files imported,
    history cleared), the store holds a list of at most 25 entries, each
    with a runId, an original file and a [methods] array, and [getRunById]
    answers on it.  [getHistorySummaries] returns, one summary for each
    entry, exactly when no entry has a null in its [methods] array, and
    throws otherwise; no entry has one when no imported file brought one. *)
Theorem store_stays_well_formed (ops : list Operation) (runId : string) :
  let st := performAll ops None in
  exists history,
    getHistory st = JArray history
    /\ length history <= MAX_HISTORY_ITEMS
    /\ Forall complete history
    /\ (exists found, getRunById st runId = Ok found)
    /\ ((exists summaries,
           getHistorySummaries st = Ok summaries
           /\ length summaries = length history)
        <-> Forall listed history)
    /\ (Forall listed history
        \/ getHistorySummaries st = Throw (ErrorObj "TypeError"))
    /\ (Forall listedOp ops -> Forall listed history).
Proof.
  cbv zeta.
  destruct (wellFormed_performAll ops None) as (history & Hh & Hlen & Hall).
  { exists []. repeat split; [cbn; lia|constructor]. }
  exists history. split; [exact Hh|]. split; [exact Hlen|].
  split; [exact Hall|].
  split; [unfold getRunById; rewrite Hh; cbn; eauto|].
  assert ((exists summaries,
             getHistorySummaries (performAll ops None) = Ok summaries
             /\ length summaries = length history)
          <-> Forall listed history) as Hiff.
  { unfold getHistorySummaries. rewrite Hh. cbn [asArray bind]. split.
    - intros (summaries & Hs & _).
      pose proof (mapResult_cases summarize history) as Hcases.
      rewrite Hs in Hcases. apply Forall_forall. intros h Hin.
      apply list_elem_of_lookup_1 in Hin as [k Hk].
      destruct (Forall2_lookup_l _ _ _ _ _ Hcases Hk) as (s & _ & Hsum).
      apply (proj1 (summarize_Ok h)). eauto.
    - intros Hlisted. apply mapResult_total.
      apply Forall_forall. intros h Hin. apply summarize_Ok.
      split; [|exact (proj1 (Forall_forall _ _) Hlisted h Hin)].
      exact (proj1 (proj2 (proj1 (Forall_forall _ _) Hall h Hin))). }
  split; [exact Hiff|]. split.
  - unfold getHistorySummaries in *. rewrite Hh in *. cbn [asArray bind] in *.
    destruct (mapResult summarize history) as [summaries|e] eqn:Hs.
    + left. pose proof (mapResult_cases summarize history) as Hcases.
      rewrite Hs in Hcases.
      assert (Forall listed history) as Hlisted.
      { apply Hiff. exists summaries. split; [reflexivity|].
        symmetry. exact (Forall2_length _ _ _ Hcases). }
      exact Hlisted.
    + right. f_equal.
      apply (mapResult_thrown summarize history (ErrorObj "TypeError"));
        [|exact Hs].
      intros h e' He. now apply summarize_thrown in He.
  - intros Hops. destruct (listed_performAll ops Hops) as (history' & Hh' & Hl).
    rewrite Hh in Hh'. now injection Hh' as <-.
Qed.

(** ** The history store: a merge touches one run *)

Lemma map_insert_same {A B} (f : A -> B) (l : list A) i x x' :
  l !! i = Some x -> f x' = f x -> map f (<[i := x']> l) = map f l.
Proof.
  intros Hi Hf. change (map f) with (fmap (M := list) f).
  rewrite list_fmap_insert. apply list_insert_id.
  now rewrite list_lookup_fmap, Hi, Hf.
Qed.

(** What a merge does to the entries a search reaches. *)
Lemma merge_replaces_one_entry now runId methodName update st :
  let st' := updateMethodInHistory now runId methodName update st in
  st' = st
  \/ exists index h h',
       list_find (hasRunId runId) (reachable (getHistory st))
       = Some (index, h)
       /\ getHistory st' = replaceAt index h' (getHistory st)
       /\ he_runId h' = he_runId h
       /\ he_startedAt h' = he_startedAt h
       /\ he_originalFile h' = he_originalFile h
       /\ he_aiComparison h' = he_aiComparison h
       /\ (forall methods methods',
             he_methods h = MethodList methods ->
             he_methods h' = MethodList methods' ->
             length methods' = length methods
             /\ map hm_startedAt methods' = map hm_startedAt methods
             /\ (up_method update = None ->
                 map hm_method methods' = map hm_method methods)).
Proof.
  cbv zeta.
  destruct (updateMethodInHistory_cases now runId methodName update st)
    as [->|(index & h & h' & Hrun & Hmerge & ->)]; [now left|].
  right. exists index, h, h'. apply findRun_Some in Hrun.
  split; [exact Hrun|]. split; [apply getHistory_stringify|].
  apply mergeIntoEntry_Some in Hmerge
    as (Hid & [(ms & i & m & Hms & Hm & ->)|(b & r & i & m & Hms & _ & _ & ->)]).
  - do 4 (split; [reflexivity|]).
    intros methods methods' Hms0 Hms'. rewrite Hms in Hms0.
    injection Hms0 as <-. cbn in Hms'. injection Hms' as <-.
    apply list_find_Some in Hm as (Hmi & _ & _).
    split; [now rewrite length_insert|].
    split; [now apply (map_insert_same hm_startedAt _ _ m)|].
    intros Hnone. apply (map_insert_same hm_method _ _ m); [exact Hmi|].
    cbn. now rewrite Hnone.
  - do 4 (split; [reflexivity|]).
    intros methods methods' Hms0. congruence.
Qed.

Lemma merge_on_reachable now runId methodName update st :
  let st' := updateMethodInHistory now runId methodName update st in
  let entries := reachable (getHistory st) in
  st' = st
  \/ exists index h h',
       list_find (hasRunId runId) entries = Some (index, h)
       /\ getHistory st' = replaceAt index h' (getHistory st)
       /\ length (<[index := h']> entries) = length entries
       /\ map he_runId (<[index := h']> entries) = map he_runId entries
       /\ map he_startedAt (<[index := h']> entries)
          = map he_startedAt entries
       /\ map he_originalFile (<[index := h']> entries)
          = map he_originalFile entries
       /\ map he_aiComparison (<[index := h']> entries)
          = map he_aiComparison entries
       /\ (forall other, other <> runId ->
             getRunById st' other = getRunById st other)
       /\ getRunById st runId = Ok (Some h)
       /\ getRunById st' runId = Ok (Some h')
       /\ (forall methods methods',
             he_methods h = MethodList methods ->
             he_methods h' = MethodList methods' ->
             length methods' = length methods
             /\ map hm_startedAt methods' = map hm_startedAt methods
             /\ (up_method update = None ->
                 map hm_method methods' = map hm_method methods)).
Proof.
  cbv zeta.
  destruct (merge_replaces_one_entry now runId methodName update st)
    as [Hsame|(index & h & h' & Hfind & Hst' & Hid & Hstart & Hfile & Hai
               & Hmethods)]; [now left|].
  right. exists index, h, h'.
  apply list_find_Some in Hfind as Hspec. destruct Hspec as (Hi & Hrun & _).
  split; [exact Hfind|]. split; [exact Hst'|].
  split; [now rewrite length_insert|].
  split; [now apply (map_insert_same he_runId _ _ h)|].
  split; [now apply (map_insert_same he_startedAt _ _ h)|].
  split; [now apply (map_insert_same he_originalFile _ _ h)|].
  split; [now apply (map_insert_same he_aiComparison _ _ h)|].
  split; [|split; [|split; [|exact Hmethods]]].
  - intros other Hother. unfold getRunById. rewrite Hst'.
    rewrite (findRun_replaceAt_other other index h h' _ Hi);
      [reflexivity| |]; unfold hasRunId in *; congruence.
  - apply getRunById_found. now exists index.
  - apply getRunById_found. exists index.
    rewrite Hst', reachable_replaceAt.
    rewrite (list_find_replace runId _ index h h' Hi Hid _ _ Hfind).
    now rewrite decide_True.
Qed.

(** X17. A merge by [updateMethodInHistory] changes the run of the given
    identifier only.  The history keeps its length and, entry by entry, the
    runId, the times of start, the original file and the comparison; every
    other run is looked up as before; and in the run itself the list of
    methods keeps its length and the time each method started, and keeps
    the names of the methods when the update carries no [method] key.  On a
    stored array with a null in it, the same holds of the entries before
    the null. *)
Theorem merge_touches_one_run
  (now runId methodName : string) (update : MethodUpdate) (st : Storage) :
  let st' := updateMethodInHistory now runId methodName update st in
  match getHistory st with
  | JOther => st' = st
  | JArray history =>
      exists history',
        getHistory st' = JArray history'
        /\ length history' = length history
        /\ map he_runId history' = map he_runId history
        /\ map he_startedAt history' = map he_startedAt history
        /\ map he_originalFile history' = map he_originalFile history
        /\ map he_aiComparison history' = map he_aiComparison history
        /\ (forall other, other <> runId ->
              getRunById st' other = getRunById st other)
        /\ (forall h h' methods methods',
              getRunById st runId = Ok (Some h) ->
              getRunById st' runId = Ok (Some h') ->
              he_methods h = MethodList methods ->
              he_methods h' = MethodList methods' ->
              length methods' = length methods
              /\ map hm_startedAt methods' = map hm_startedAt methods
              /\ (up_method update = None ->
                  map hm_method methods' = map hm_method methods))
  | JArrayNull before rest =>
      exists before',
        getHistory st' = JArrayNull before' rest
        /\ length before' = length before
        /\ map he_runId before' = map he_runId before
        /\ map he_startedAt before' = map he_startedAt before
        /\ map he_originalFile before' = map he_originalFile before
        /\ map he_aiComparison before' = map he_aiComparison before
        /\ (forall other, other <> runId ->
              getRunById st' other = getRunById st other)
        /\ (forall h h' methods methods',
              getRunById st runId = Ok (Some h) ->
              getRunById st' runId = Ok (Some h') ->
              he_methods h = MethodList methods ->
              he_methods h' = MethodList methods' ->
              length methods' = length methods
              /\ map hm_startedAt methods' = map hm_startedAt methods
              /\ (up_method update = None ->
                  map hm_method methods' = map hm_method methods))
  end.
Proof.
  cbv zeta.
  pose proof (merge_on_reachable now runId methodName update st) as Hcases.
  cbv zeta in Hcases.
  destruct (getHistory st) as [history|before rest|] eqn:Hh.
  - destruct Hcases
      as [Hsame|(index & h & h' & Hfind & Hst' & Hlen & H1 & H2 & H3 & H4
                 & Hothers & Hrun & Hrun' & Hmethods)].
    + rewrite Hsame. exists history. split; [exact Hh|].
      do 6 (split; [reflexivity|]).
      intros h h' methods methods' Hb Ha Hm Hm'.
      rewrite Hb in Ha. injection Ha as <-.
      rewrite Hm in Hm'. injection Hm' as <-. auto.
    + exists (<[index := h']> history). cbn in *.
      split; [exact Hst'|]. split; [exact Hlen|]. split; [exact H1|].
      split; [exact H2|]. split; [exact H3|]. split; [exact H4|].
      split; [exact Hothers|].
      intros h0 h0' methods methods' Hb Ha Hm Hm'.
      rewrite Hrun in Hb. injection Hb as <-.
      rewrite Hrun' in Ha. injection Ha as <-.
      exact (Hmethods methods methods' Hm Hm').
  - destruct Hcases
      as [Hsame|(index & h & h' & Hfind & Hst' & Hlen & H1 & H2 & H3 & H4
                 & Hothers & Hrun & Hrun' & Hmethods)].
    + rewrite Hsame. exists before. split; [exact Hh|].
      do 6 (split; [reflexivity|]).
      intros h h' methods methods' Hb Ha Hm Hm'.
      rewrite Hb in Ha. injection Ha as <-.
      rewrite Hm in Hm'. injection Hm' as <-. auto.
    + exists (<[index := h']> before). cbn in *.
      split; [exact Hst'|]. split; [exact Hlen|]. split; [exact H1|].
      split; [exact H2|]. split; [exact H3|]. split; [exact H4|].
      split; [exact Hothers|].
      intros h0 h0' methods methods' Hb Ha Hm Hm'.
      rewrite Hrun in Hb. injection Hb as <-.
      rewrite Hrun' in Ha. injection Ha as <-.
      exact (Hmethods methods methods' Hm Hm').
  - unfold updateMethodInHistory. now rewrite Hh.
Qed.

(** ** The history store: summaries *)

(** X18. [getHistorySummaries] throws, a [TypeError], exactly when the
    stored value is no list of entries (no array, or an array that holds a
    null) or some entry lacks its original file or has no list of method
    records as its [methods] (no array, or an array that holds a null);
    otherwise it returns one summary for each entry, in the order of the
    history, with the runId, the time of start, the name and size of the
    file, the names, labels and statuses of the methods, and whether a
    comparison is attached. *)
Theorem summaries_follow_the_history (st : Storage) :
  match getHistory st, getHistorySummaries st with
  | JOther, r | JArrayNull _ _, r => r = Throw (ErrorObj "TypeError")
  | JArray history, Throw e =>
      e = ErrorObj "TypeError"
      /\ Exists (fun h => he_originalFile h = None \/ ~ listed h) history
  | JArray history, Ok summaries =>
      Forall2
        (fun h s =>
           hs_runId s = he_runId h
           /\ hs_startedAt s = he_startedAt h
           /\ (of_name <$> he_originalFile h) = Some (hs_fileName s)
           /\ (of_size <$> he_originalFile h) = Some (hs_fileSize s)
           /\ (exists methods,
                 he_methods h = MethodList methods
                 /\ hs_methods s
                    = map (fun m => (hm_method m, hm_label m, hm_status m))
                        methods)
           /\ hs_hasAiComparison s
              = bool_decide (is_Some (he_aiComparison h)))
        history summaries
  end.
Proof.
  unfold getHistorySummaries.
  destruct (getHistory st) as [history|before rest|];
    [|reflexivity|reflexivity].
  cbn [asArray bind].
  pose proof (mapResult_cases summarize history) as Hcases.
  destruct (mapResult summarize history) as [summaries|e] eqn:Hmap.
  - eapply Forall2_impl; [exact Hcases|].
    intros h s Hs. unfold summarize in Hs.
    destruct (he_originalFile h) as [file|]; [|discriminate].
    destruct (he_methods h) as [|methods|b r]; try discriminate.
    cbn in Hs. injection Hs as <-. cbn.
    repeat split. eauto.
  - split.
    + apply (mapResult_thrown summarize history (ErrorObj "TypeError"));
        [|exact Hmap].
      intros h e' He. now apply summarize_thrown in He.
    + eapply Exists_impl; [exact Hcases|].
      intros h [e' He]. now apply summarize_thrown in He.
Qed.

(** ** From a pending run to the stored answer of the poller *)

Lemma find_pending_method name (methods : list PendingMethod) i pm :
  list_find (fun m => pd_method m = name) methods = Some (i, pm) ->
  list_find (hasMethod name) (map pendingMethod methods)
  = Some (i, pendingMethod pm).
Proof.
  intros Hfind. apply list_find_Some in Hfind as (Hi & Hname & Hfirst).
  apply list_find_Some. split; [|split].
  - change (map pendingMethod) with (fmap (M := list) pendingMethod).
    now rewrite list_lookup_fmap, Hi.
  - exact Hname.
  - intros j y Hj Hlt.
    change (map pendingMethod) with (fmap (M := list) pendingMethod) in Hj.
    rewrite list_lookup_fmap in Hj.
    destruct (methods !! j) as [y0|] eqn:Hy0; [|discriminate].
    injection Hj as <-. exact (Hfirst j y0 Hy0 Hlt).
Qed.

(** X19. When the poller is answered a status that is not a pending one for
    a method of a run made by [createPendingEntry] on a store that holds a
    list of entries (the first of its name in the run), the record stored
    for
    the method takes the status, the reason, the processing time and the
    metrics of the answer as they are, absent ones included; it keeps the
    name, the label, the file and the time of start of the pending record,
    and its sample text stays empty.  No further poll is scheduled. *)
Theorem poller_stores_the_answer
  (entry : PendingHistoryEntry) (st0 : Storage)
  (history : list HistoryEntry) (i : nat)
  (pm : PendingMethod) (status : FileStatusResponse) (isoNow : string) :
  getHistory st0 = JArray history ->
  list_find (fun m => pd_method m = pd_method pm) (pe_methods entry)
  = Some (i, pm) ->
  isPending (fs_status status) = false ->
  let r := pollMethodStatus_resume (pe_runId entry) isoNow (pendingMethod pm)
             (FetchOk status) (createPendingEntry entry st0) in
  nextPoll r = false
  /\ exists h methods,
       getRunById (storeAfter r) (pe_runId entry) = Ok (Some h)
       /\ he_methods h = MethodList methods
       /\ length methods = length (pe_methods entry)
       /\ methods !! i
          = Some {| hm_method := pd_method pm;
                    hm_label := pd_label pm;
                    hm_fileId := pd_fileId pm;
                    hm_status := fs_status status;
                    hm_failedReason := fs_failedReason status;
                    hm_processingTimeMs := fs_processingTimeMs status;
                    hm_passageCount := fs_passageCount status;
                    hm_contentCharsTotal := fs_contentCharsTotal status;
                    hm_metaBreakdown := fs_metaBreakdown status;
                    hm_sampleText := Some "";
                    hm_startedAt := Some (pd_startedAt pm) |}.
Proof.
  intros Hst0 Hfind Hpending. cbv zeta. unfold pollMethodStatus_resume.
  rewrite Hpending. cbn [nextPoll storeAfter]. split; [reflexivity|].
  pose proof (createPendingEntry_found entry st0 history Hst0) as Hfound.
  pose proof (find_pending_method _ _ _ _ Hfind) as Hm.
  pose proof (updateMethodInHistory_merged isoNow (pe_runId entry)
                (hm_method (pendingMethod pm)) (finishedUpdate status)
                _ (pendingEntry entry)
                (map pendingMethod (pe_methods entry)) i (pendingMethod pm)
                Hfound eq_refl Hm) as Hmerged.
  cbv zeta in Hmerged. rewrite Hmerged.
  eexists _, _. split; [reflexivity|]. split; [reflexivity|].
  apply list_find_Some in Hm as (Hi & _ & _). apply lookup_lt_Some in Hi.
  split.
  - now rewrite length_insert, length_map.
  - now rewrite list_lookup_insert_eq.
Qed.

Lemma poller_stores_the_answer_witness :
  let entry := Scenarios.newPending in
  let pm := {| pd_method := "basic"; pd_label := "Basic"; pd_fileId := "f1";
               pd_status := upload_pending;
               pd_startedAt := "2025-02-01T00:00:00.000Z" |} in
  let status := Scenarios.completedResponse in
  let r := pollMethodStatus_resume (pe_runId entry)
             "2025-02-01T00:03:00.000Z" (pendingMethod pm)
             (FetchOk status) (createPendingEntry entry None) in
  nextPoll r = false
  /\ exists h methods,
       getRunById (storeAfter r) (pe_runId entry) = Ok (Some h)
       /\ he_methods h = MethodList methods
       /\ length methods = length (pe_methods entry)
       /\ methods !! 0
          = Some {| hm_method := pd_method pm;
                    hm_label := pd_label pm;
                    hm_fileId := pd_fileId pm;
                    hm_status := fs_status status;
                    hm_failedReason := fs_failedReason status;
                    hm_processingTimeMs := fs_processingTimeMs status;
                    hm_passageCount := fs_passageCount status;
                    hm_contentCharsTotal := fs_contentCharsTotal status;
                    hm_metaBreakdown := fs_metaBreakdown status;
                    hm_sampleText := Some "";
                    hm_startedAt := Some (pd_startedAt pm) |}.
Proof.
  exact (poller_stores_the_answer Scenarios.newPending None [] 0
           {| pd_method := "basic"; pd_label := "Basic"; pd_fileId := "f1";
              pd_status := upload_pending;
              pd_startedAt := "2025-02-01T00:00:00.000Z" |}
           Scenarios.completedResponse "2025-02-01T00:03:00.000Z"
           eq_refl eq_refl eq_refl).
Defined.

(** ** The AI comparison *)

Lemma insertByRank_perm x l : Comparison.insertByRank x l ≡ₚ x :: l.
Proof.
  induction l as [|y l IH]; cbn [Comparison.insertByRank]; [reflexivity|].
  destruct (QArith_base.Qle_bool (Comparison.rk_rank x)
              (Comparison.rk_rank y)); [reflexivity|].
  rewrite IH. apply perm_swap.
Qed.

Lemma sortByRank_perm l : Comparison.sortByRank l ≡ₚ l.
Proof.
  unfold Comparison.sortByRank.
  induction l as [|x l IH]; cbn [foldr]; [reflexivity|].
  now rewrite insertByRank_perm, IH.
Qed.

Lemma insertByRank_sorted x l :
  Sorted.StronglySorted byRank l ->
  Sorted.StronglySorted byRank (Comparison.insertByRank x l).
Proof.
  induction 1 as [|y l Hsorted IH Hy]; cbn [Comparison.insertByRank].
  - repeat constructor.
  - destruct (QArith_base.Qle_bool (Comparison.rk_rank x)
                (Comparison.rk_rank y)) eqn:Hle.
    + apply QArith_base.Qle_bool_iff in Hle.
      constructor; [now constructor|].
      constructor; [exact Hle|].
      eapply Forall_impl; [exact Hy|].
      intros z Hz. unfold byRank in *.
      eapply QArith_base.Qle_trans; eassumption.
    + constructor; [exact IH|].
      rewrite insertByRank_perm. constructor; [|exact Hy].
      unfold byRank. apply QArith_base.Qlt_le_weak, QArith_base.Qnot_le_lt.
      intros Hxy. apply QArith_base.Qle_bool_iff in Hxy. congruence.
Qed.

Lemma sortByRank_sorted l :
  Sorted.StronglySorted byRank (Comparison.sortByRank l).
Proof.
  unfold Comparison.sortByRank.
  induction l as [|x l IH]; cbn [foldr]; [constructor|].
  now apply insertByRank_sorted.
Qed.

Lemma insertByRank_filter r x l :
  filter (ranked r) (Comparison.insertByRank x l)
  = filter (ranked r) (x :: l).
Proof.
  induction l as [|y l IH]; cbn [Comparison.insertByRank]; [reflexivity|].
  destruct (QArith_base.Qle_bool (Comparison.rk_rank x)
              (Comparison.rk_rank y)) eqn:Hle; [reflexivity|].
  rewrite (filter_cons _ y), IH, !(filter_cons _ x), (filter_cons _ y).
  destruct (decide (ranked r x)) as [Hx|Hx]; [|reflexivity].
  destruct (decide (ranked r y)) as [Hy|Hy]; [|reflexivity].
  exfalso. unfold ranked in Hx, Hy.
  assert (QArith_base.Qle_bool (Comparison.rk_rank x) (Comparison.rk_rank y)
          = true) as Habs; [|congruence].
  apply QArith_base.Qle_bool_iff, QArith_base.Qle_lteq. right.
  eapply QArith_base.Qeq_trans; [exact Hx|].
  now apply QArith_base.Qeq_sym.
Qed.

Lemma sortByRank_filter r l :
  filter (ranked r) (Comparison.sortByRank l) = filter (ranked r) l.
Proof.
  unfold Comparison.sortByRank.
  induction l as [|x l IH]; cbn [foldr]; [reflexivity|].
  now rewrite insertByRank_filter, !filter_cons, IH.
Qed.

(** X20. A comparison that [runAiComparison] returns carries the ranking of
    the extraction made on the prompt built from the three excerpts, in
    ascending order of rank: the same items, those of equal rank in the
    order the extraction gave them; with the summary, the recommendation
    and the three notes of the extraction, under the run asked for.  The
    function throws only what [getBotpressClient] or that extraction
    throws: a file whose passages cannot be listed does not make it
    throw. *)
Theorem comparison_ranking_is_sorted
  (getBotpressClient : result Client)
  (extract : string -> result Comparison.Extraction) (isoNow runId : string)
  (fileIds : Comparison.FileIds) (instructions : option string) :
  match Comparison.runAiComparison getBotpressClient extract isoNow runId
          fileIds instructions with
  | Ok result =>
      exists client comparison,
        getBotpressClient = Ok client
        /\ extract (promptOf client fileIds instructions) = Ok comparison
        /\ Comparison.cr_ranking result ≡ₚ Comparison.ex_ranking comparison
        /\ Sorted.StronglySorted byRank (Comparison.cr_ranking result)
        /\ (forall r,
              filter (ranked r) (Comparison.cr_ranking result)
              = filter (ranked r) (Comparison.ex_ranking comparison))
        /\ Comparison.cr_runId result = runId
        /\ Comparison.cr_generatedAt result = isoNow
        /\ Comparison.cr_summary result = Comparison.ex_summary comparison
        /\ Comparison.cr_recommendedMethod result
           = Comparison.ex_recommendedMethod comparison
        /\ Comparison.cr_perMethodNotes result !! "basic"
           = Some (Comparison.ex_basicNotes comparison)
        /\ Comparison.cr_perMethodNotes result !! "vision"
           = Some (Comparison.ex_visionNotes comparison)
        /\ Comparison.cr_perMethodNotes result !! "landing-ai"
           = Some (Comparison.ex_landingAiNotes comparison)
  | Throw e =>
      getBotpressClient = Throw e
      \/ exists client,
           getBotpressClient = Ok client
           /\ extract (promptOf client fileIds instructions) = Throw e
  end.
Proof.
  unfold Comparison.runAiComparison.
  destruct getBotpressClient as [client|e]; cbn [bind]; [|now left].
  fold (promptOf client fileIds instructions).
  destruct (extract (promptOf client fileIds instructions))
    as [comparison|e] eqn:Hextract; cbn [bind];
    [|right; eauto].
  exists client, comparison. cbn.
  split; [reflexivity|]. split; [exact Hextract|].
  split; [apply sortByRank_perm|].
  split; [apply sortByRank_sorted|].
  split; [intros r; apply sortByRank_filter|].
  repeat split.
Qed.

(** X21. The comparison route answers 400 exactly when the body can be read
    and lacks the runId or one of the three file identifiers, or holds an
    empty one, whatever the credentials are, and then nothing is compared.
    When the body has the four, it answers 200 exactly when the
    credentials are set and the extraction on the prompt built from the
    excerpts of the three files returns: the answer is the comparison
    [runAiComparison] makes of it for the run of the body.  It answers 500,
    with the message of the error, exactly when the body cannot be read,
    or the body has the four and the credentials are missing or that
    extraction throws. *)
Theorem comparison_route_answers (getBotpressClient : result Client)
  (extract : string -> result Comparison.Extraction) (isoNow : string)
  (json : result Routes.CompareBody) :
  match Routes.POST_ai_compare getBotpressClient extract isoNow json with
  | Routes.Json result =>
      exists body client comparison,
        json = Ok body
        /\ filled body
        /\ getBotpressClient = Ok client
        /\ extract
             (promptOf client (fileIdsOf body) (Routes.cb_instructions body))
           = Ok comparison
        /\ Routes.cb_runId body = Some (Comparison.cr_runId result)
        /\ Comparison.runAiComparison (Ok client) extract isoNow
             (Comparison.cr_runId result) (fileIdsOf body)
             (Routes.cb_instructions body)
           = Ok result
        /\ Comparison.cr_summary result = Comparison.ex_summary comparison
        /\ Comparison.cr_ranking result
           = Comparison.sortByRank (Comparison.ex_ranking comparison)
  | Routes.JsonError status error =>
      (status = 400
       /\ error = "Missing runId or fileIds"
       /\ exists body, json = Ok body /\ ~ filled body)
      \/ (status = 500
          /\ exists e,
               error = match e with
                       | ErrorObj message => message
                       | NonError _ => "AI comparison failed"
                       end
               /\ (json = Throw e
                   \/ exists body,
                        json = Ok body
                        /\ filled body
                        /\ (getBotpressClient = Throw e
                            \/ exists client,
                                 getBotpressClient = Ok client
                                 /\ extract
                                      (promptOf client (fileIdsOf body)
                                         (Routes.cb_instructions body))
                                    = Throw e)))
  end.
Proof.
  unfold Routes.POST_ai_compare.
  destruct json as [body|e]; cbn [bind Routes.orStatus500];
    [|right; split; [reflexivity|]; exists e; split; [now destruct e|auto]].
  assert ((negb (truthy (default "" (Routes.cb_runId body)))
           || negb (truthy (Routes.fileIdAt Routes.cf_basic
                              (Routes.cb_fileIds body)))
           || negb (truthy (Routes.fileIdAt Routes.cf_vision
                              (Routes.cb_fileIds body)))
           || negb (truthy (Routes.fileIdAt Routes.cf_landingAi
                              (Routes.cb_fileIds body))))%bool = false
          <-> filled body) as Hfilled.
  { unfold filled, Routes.fileIdAt.
    rewrite !orb_false_iff, !negb_false_iff, !truthy_true. split.
    - intros (((Hr & Hb) & Hv) & Hl).
      destruct (Routes.cb_runId body) as [runId|]; [|now contradiction Hr].
      destruct (Routes.cb_fileIds body) as [ids|]; [|now contradiction Hb].
      destruct (Routes.cf_basic ids) as [basic|] eqn:Eb;
        [|now contradiction Hb].
      destruct (Routes.cf_vision ids) as [vision|] eqn:Ev;
        [|now contradiction Hv].
      destruct (Routes.cf_landingAi ids) as [landingAi|] eqn:El;
        [|now contradiction Hl].
      exists runId, basic, vision, landingAi, ids. cbn in *.
      split; [reflexivity|]. split; [exact Hr|]. split; [reflexivity|].
      split; [exact Eb|]. split; [exact Hb|]. split; [exact Ev|].
      split; [exact Hv|]. split; [exact El|exact Hl].
    - intros (runId & basic & vision & landingAi & ids & -> & Hr & -> & ->
              & Hb & -> & Hv & -> & Hl). cbn. auto. }
  destruct (negb (truthy (default "" (Routes.cb_runId body)))
            || negb (truthy (Routes.fileIdAt Routes.cf_basic
                               (Routes.cb_fileIds body)))
            || negb (truthy (Routes.fileIdAt Routes.cf_vision
                               (Routes.cb_fileIds body)))
            || negb (truthy (Routes.fileIdAt Routes.cf_landingAi
                               (Routes.cb_fileIds body))))%bool eqn:Hmissing.
  { cbn [Routes.orStatus500]. left. split; [reflexivity|].
    split; [reflexivity|]. exists body. split; [reflexivity|].
    intros Hc. apply Hfilled in Hc. discriminate. }
  assert (filled body) as Hc by now apply Hfilled.
  unfold Comparison.runAiComparison.
  destruct getBotpressClient as [client|e]; cbn [bind Routes.orStatus500].
  2:{ right. split; [reflexivity|]. exists e. split; [now destruct e|].
      right. exists body. auto. }
  match goal with
  | |- context [extract ?p] =>
      change p with
        (promptOf client (fileIdsOf body) (Routes.cb_instructions body))
  end.
  destruct (extract _) as [comparison|e] eqn:Hextract;
    cbn [bind Routes.orStatus500].
  2:{ right. split; [reflexivity|]. exists e. split; [now destruct e|].
      right. exists body. split; [reflexivity|]. split; [exact Hc|].
      right. exists client. auto. }
  exists body, client, comparison. cbn [Comparison.cr_runId].
  split; [reflexivity|]. split; [exact Hc|]. split; [reflexivity|].
  split; [exact Hextract|].
  destruct Hc as (runId & _ & _ & _ & _ & Hrun & _). rewrite Hrun.
  cbn [default].
  split; [reflexivity|]. split; [|split; reflexivity].
  cbn [bind]. fold (promptOf client (fileIdsOf body) (Routes.cb_instructions body)).
  now rewrite Hextract.
Qed.

(** ** The run page and the comparison *)

Lemma fileIdOf_three (h : HistoryEntry) (b v l : StoredMethod) :
  he_methods h = MethodList [b; v; l] ->
  hm_method b = "basic" -> hm_method v = "vision" ->
  hm_method l = "landing-ai" ->
  RunPage.fileIdOf h "basic" = Ok (hm_fileId b)
  /\ RunPage.fileIdOf h "vision" = Ok (hm_fileId v)
  /\ RunPage.fileIdOf h "landing-ai" = Ok (hm_fileId l).
Proof.
  intros Hm Hb Hv Hl. unfold RunPage.fileIdOf. rewrite Hm.
  cbn [list_find].
  repeat split.
  - rewrite decide_True; [reflexivity|exact Hb].
  - rewrite decide_False by (unfold hasMethod; rewrite Hb; discriminate).
    rewrite decide_True; [reflexivity|exact Hv].
  - rewrite decide_False by (unfold hasMethod; rewrite Hb; discriminate).
    rewrite decide_False by (unfold hasMethod; rewrite Hv; discriminate).
    rewrite decide_True; [reflexivity|exact Hl].
Qed.

(** X22. On a run that [runBenchmark] returned, the run page lets the
    comparison go exactly when each of the three methods has a file
    identifier, and sends these three identifiers; it shows its message
    when one of them is empty.  The statuses of the methods play no part in
    it. *)
Theorem comparison_needs_the_three_files (client : Client)
  (runtimeOf : string -> Runtime) (runId startedAt completedAt : string)
  (fileName : string) (byteLength : nat) (contentType : string) :
  exists run,
    runBenchmark (Ok client) runtimeOf runId startedAt completedAt fileName
      byteLength contentType = Ok run
    /\ match RunPage.comparisonFileIds (entryOfResult run) with
       | Ok (inl fileIds) =>
           map mr_fileId (br_methods run)
           = [Comparison.fi_basic fileIds; Comparison.fi_vision fileIds;
              Comparison.fi_landingAi fileIds]
           /\ Forall (fun m => mr_fileId m <> "") (br_methods run)
       | Ok (inr message) =>
           message = "Cannot run AI comparison: some methods failed"
           /\ Exists (fun m => mr_fileId m = "") (br_methods run)
       | Throw _ => False
       end.
Proof.
  eexists. split; [reflexivity|].
  unfold RunPage.comparisonFileIds.
  cbn [br_methods METHODS map mc_name].
  match goal with
  | |- context [entryOfResult ?r] => set (run := r)
  end.
  set (b := benchmarkMethod client (runtimeOf "basic")
              {| mc_name := "basic"; mc_label := "Basic"; mc_config := "{}" |}).
  set (v := benchmarkMethod client (runtimeOf "vision")
              {| mc_name := "vision"; mc_label := "Vision";
                 mc_config := "{vision:{transcribePages:true}}" |}).
  set (l := benchmarkMethod client (runtimeOf "landing-ai")
              {| mc_name := "landing-ai"; mc_label := "Landing AI";
                 mc_config := "{parsing:{mode:'agent'}}" |}).
  destruct (fileIdOf_three (entryOfResult run) (storeMethod b) (storeMethod v)
              (storeMethod l) eq_refl
              (benchmarkMethod_method _ _ _) (benchmarkMethod_method _ _ _)
              (benchmarkMethod_method _ _ _)) as (-> & -> & ->).
  cbn [bind storeMethod hm_fileId].
  destruct (truthy (mr_fileId b)) eqn:Hb; cbn [negb orb].
  - destruct (truthy (mr_fileId v)) eqn:Hv; cbn [negb orb].
    + destruct (truthy (mr_fileId l)) eqn:Hl; cbn [negb orb].
      * split; [reflexivity|].
        repeat constructor; now apply truthy_true.
      * split; [reflexivity|].
        apply Exists_cons_tl, Exists_cons_tl, Exists_cons_hd.
        now apply truthy_false.
    + split; [reflexivity|].
      apply Exists_cons_tl, Exists_cons_hd. now apply truthy_false.
  - split; [reflexivity|]. apply Exists_cons_hd. now apply truthy_false.
Qed.

(** ** From the upload to the page of the run *)

Lemma parseRoute_runPath runId :
  runId <> "" -> Router.hasSlash runId = false ->
  Router.parseRoute ("/runs/" +:+ runId) = Router.Detail runId.
Proof.
  intros Hne Hsl. unfold Router.parseRoute, Router.matchRun.
  assert (Router.stripPrefix "/runs/" ("/runs/" +:+ runId) = Some runId)
    as Hs by now apply stripPrefix_Some.
  rewrite Hs. apply truthy_true in Hne. rewrite Hne, Hsl.
  rewrite !append_cons. reflexivity.
Qed.

Lemma insert_found op st history :
  getHistory st = JArray history ->
  getRunById (insert op st) (insertedRunId op) = Ok (Some (insertedEntry op)).
Proof.
  intros Hh. rewrite (insert_stored _ _ _ Hh), getRunById_stored.
  unfold insertFront, MAX_HISTORY_ITEMS. cbn [take].
  rewrite find_cons, decide_True; [reflexivity|].
  now destruct op.
Qed.

(** An entry of which [getHistorySummaries] can make a summary. *)
Lemma summaries_after_insert op st history :
  getHistory st = JArray history ->
  Forall (fun h => is_Some (he_originalFile h) /\ listed h) history ->
  exists summaries, getHistorySummaries (insert op st) = Ok summaries.
Proof.
  intros Hh Hall. rewrite (insert_stored _ _ _ Hh).
  unfold getHistorySummaries. cbn [getHistory JSON_parse asArray bind].
  destruct (mapResult_total summarize
              (insertFront (insertedRunId op) (insertedEntry op) history))
    as (summaries & Hs & _); [|eauto].
  unfold insertFront. apply Forall_take. constructor.
  - apply summarize_Ok. destruct op; cbn; split; eauto; now eexists.
  - apply Forall_forall. intros h Hin.
    apply list_elem_of_filter in Hin as [_ Hin]. apply summarize_Ok.
    exact (proj1 (Forall_forall _ _) Hall h Hin).
Qed.

(** X24. When the home page runs a benchmark on a file, the credentials are
    set and the store holds a list of entries, the run the route answers is
    stored, and [getRunById] finds it with its three methods, each in a
    terminal status.  The page then refreshes the summaries of the history:
    when they can be read, which is so when every stored entry has its file
    and a list of method records, it navigates to a path that [parseRoute]
    reads as the detail page of that run, and no error is shown; when
    reading them throws, the page shows what was thrown and does not
    navigate.  When the credentials are missing, the message of the route
    is shown, nothing is stored and the page stays. *)
Theorem benchmark_run_is_stored_and_opened
  (getBotpressClient : result Client) (runtimeOf : string -> Runtime)
  (runId startedAt completedAt : string) (file : Routes.Upload)
  (st : Storage) (history : list HistoryEntry) :
  getHistory st = JArray history ->
  runId <> "" ->
  Router.hasSlash runId = false ->
  let answer :=
    Routes.POST_benchmark getBotpressClient runtimeOf runId startedAt
      completedAt (Ok (Some file)) in
  let outcome :=
    HomePage.runBenchmark (Some file) (HomePage.Answered answer) st in
  match getBotpressClient with
  | Ok client =>
      (exists entry methods,
         getRunById (HomePage.store outcome) runId = Ok (Some entry)
         /\ he_originalFile entry
            = Some {| of_name := Routes.fl_name file;
                      of_size := Routes.fl_byteLength file;
                      of_contentType :=
                        if String.eqb (Routes.fl_type file) ""
                        then "application/octet-stream"
                        else Routes.fl_type file |}
         /\ he_methods entry = MethodList methods
         /\ map hm_method methods = ["basic"; "vision"; "landing-ai"]
         /\ Forall (fun m => isTerminal (hm_status m) = true) methods)
      /\ match getHistorySummaries (HomePage.store outcome) with
         | Ok _ =>
             HomePage.error outcome = None
             /\ exists path,
                  HomePage.navigated outcome = Some path
                  /\ Router.parseRoute path = Router.Detail runId
         | Throw e =>
             HomePage.navigated outcome = None
             /\ HomePage.error outcome
                = Some match e with
                       | ErrorObj message => message
                       | NonError _ => "Benchmark failed"
                       end
         end
      /\ (Forall (fun h => is_Some (he_originalFile h) /\ listed h) history ->
          exists summaries,
            getHistorySummaries (HomePage.store outcome) = Ok summaries)
  | Throw e =>
      HomePage.store outcome = st
      /\ HomePage.navigated outcome = None
      /\ HomePage.error outcome
         = Some match e with
                | ErrorObj message =>
                    if String.eqb message "" then "Benchmark failed"
                    else message
                | NonError _ => "Benchmark failed"
                end
  end.
Proof.
  intros Hh Hne Hsl. cbv zeta.
  unfold Routes.POST_benchmark, runBenchmark.
  destruct getBotpressClient as [client|e];
    cbn [bind Routes.orStatus500 HomePage.runBenchmark HomePage.store
         HomePage.navigated HomePage.error].
  2:{ split; [reflexivity|]. split; [reflexivity|]. f_equal.
      destruct e as [message|rendered]; cbn [Routes.messageOr];
        [|reflexivity].
      unfold truthy. now destruct (String.eqb message ""). }
  assert (Routes.contentTypeOf file
          = (if String.eqb (Routes.fl_type file) ""
             then "application/octet-stream" else Routes.fl_type file))
    as Htype.
  { unfold Routes.contentTypeOf, truthy.
    now destruct (String.eqb (Routes.fl_type file) ""). }
  rewrite Htype.
  match goal with
  | |- context [addToHistory ?r st] => set (run := r)
  end.
  assert (forall o : HomePage.Outcome,
            o = match getHistorySummaries (addToHistory run st) with
                | Ok _ =>
                    {| HomePage.store := addToHistory run st;
                       HomePage.navigated := Some ("/runs/" +:+ br_runId run);
                       HomePage.error := None |}
                | Throw e =>
                    {| HomePage.store := addToHistory run st;
                       HomePage.navigated := None;
                       HomePage.error :=
                         Some (Routes.messageOr "Benchmark failed" e) |}
                end ->
            HomePage.store o = addToHistory run st) as Hstore.
  { intros o ->. now destruct (getHistorySummaries (addToHistory run st)). }
  rewrite (Hstore _ eq_refl).
  split; [|split].
  - exists (entryOfResult run), (map storeMethod (br_methods run)).
    split; [exact (insert_found (AddToHistory run) st history Hh)|].
    split; [reflexivity|]. split; [reflexivity|].
    unfold run. cbn [br_methods METHODS map storeMethod hm_method hm_status].
    split.
    + now rewrite !benchmarkMethod_method.
    + repeat constructor; apply benchmarkMethod_terminal.
  - destruct (getHistorySummaries (addToHistory run st)) as [summaries|e];
      cbn [HomePage.navigated HomePage.error].
    + split; [reflexivity|]. eexists. split; [reflexivity|].
      now apply parseRoute_runPath.
    + split; [reflexivity|]. now destruct e.
  - intros Hall.
    exact (summaries_after_insert (AddToHistory run) st history Hh Hall).
Qed.

Lemma benchmark_run_is_stored_and_opened_witness :
  let file := {| Routes.fl_name := "report.pdf"; Routes.fl_type := "";
                 Routes.fl_byteLength := 2048 |} in
  let answer :=
    Routes.POST_benchmark (Ok Scenarios.refusingClient)
      (fun _ => Scenarios.quietRuntime) "run-2" "2025-01-01T00:00:00.000Z"
      "2025-01-01T00:00:01.000Z" (Ok (Some file)) in
  let outcome :=
    HomePage.runBenchmark (Some file) (HomePage.Answered answer)
      Scenarios.timedOutStore in
  (exists entry methods,
     getRunById (HomePage.store outcome) "run-2" = Ok (Some entry)
     /\ he_originalFile entry
        = Some {| of_name := Routes.fl_name file;
                  of_size := Routes.fl_byteLength file;
                  of_contentType :=
                    if String.eqb (Routes.fl_type file) ""
                    then "application/octet-stream"
                    else Routes.fl_type file |}
     /\ he_methods entry = MethodList methods
     /\ map hm_method methods = ["basic"; "vision"; "landing-ai"]
     /\ Forall (fun m => isTerminal (hm_status m) = true) methods)
  /\ match getHistorySummaries (HomePage.store outcome) with
     | Ok _ =>
         HomePage.error outcome = None
         /\ exists path,
              HomePage.navigated outcome = Some path
              /\ Router.parseRoute path = Router.Detail "run-2"
     | Throw e =>
         HomePage.navigated outcome = None
         /\ HomePage.error outcome
            = Some match e with
                   | ErrorObj message => message
                   | NonError _ => "Benchmark failed"
                   end
     end
  /\ (Forall (fun h => is_Some (he_originalFile h) /\ listed h)
        [Scenarios.entryWith "run-1" ""
           [Scenarios.methodWith "basic" timeout;
            Scenarios.methodWith "vision" indexing_pending]] ->
      exists summaries,
        getHistorySummaries (HomePage.store outcome) = Ok summaries).
Proof.
  refine (benchmark_run_is_stored_and_opened (Ok Scenarios.refusingClient)
            (fun _ => Scenarios.quietRuntime) "run-2"
            "2025-01-01T00:00:00.000Z" "2025-01-01T00:00:01.000Z"
            {| Routes.fl_name := "report.pdf"; Routes.fl_type := "";
               Routes.fl_byteLength := 2048 |}
            Scenarios.timedOutStore _ eq_refl _ eq_refl); discriminate.
Defined.

(** A store with an entry that has no file: the run is stored, reading the
    summaries throws, and the page shows the error instead of opening the
    run. *)
Example benchmark_run_is_stored_but_not_opened :
  let file := {| Routes.fl_name := "report.pdf"; Routes.fl_type := "";
                 Routes.fl_byteLength := 2048 |} in
  let broken := {| he_runId := Some "run-0";
                   he_startedAt := "2024-12-31T00:00:00.000Z";
                   he_completedAt := "";
                   he_originalFile := None;
                   he_methods := MethodList [];
                   he_aiComparison := None |} in
  let answer :=
    Routes.POST_benchmark (Ok Scenarios.refusingClient)
      (fun _ => Scenarios.quietRuntime) "run-2" "2025-01-01T00:00:00.000Z"
      "2025-01-01T00:00:01.000Z" (Ok (Some file)) in
  let outcome :=
    HomePage.runBenchmark (Some file) (HomePage.Answered answer)
      (Some (TextOf (JArray [broken]))) in
  HomePage.navigated outcome = None
  /\ HomePage.error outcome = Some "TypeError"
  /\ (he_runId <$> getRunById_value (HomePage.store outcome) "run-2")
     = Some (Some "run-2").
Proof. vm_compute. repeat split. Qed.
